(* ===== verification/_CoqProject ===== *)
-Q . S2P
Prelude.v
Json.v
Text.v
PyNum.v
Quote.v
Request.v
Dashboard.v
Store.v
Settle.v
Banner.v
Compose.v
Quiesce.v
Races.v
Card.v
Page.v
