(* ===== verification/Prelude.v ===== *)
(** * A verification development of the stock tracker MCP application

    The repository has one source file, [src/src/stock_tracker/server.py].  It
    holds two programs that talk to each other through the MCP tool-call
    protocol:

    - the Python tool [get_stock_quote] (server.py, lines 385-417).  It asks
      the Alpha Vantage GLOBAL_QUOTE endpoint for a symbol and turns the
      loosely typed JSON answer into a flat dictionary.  This is the "Quote
      Normalizer" of the spec.
    - the JavaScript dashboard embedded in [STOCK_DASHBOARD_HTML] (lines
      220-373).  It keeps the global array [watchlist], and its async handlers
      [addStock], [removeStock], [refreshAll], the 30 second [setInterval]
      timer and the [mcp-ready] demo loader change that array.  These are the
      "Watchlist Store" and the "Refresh Coordinator" of the spec.  They
      are one piece of code with no separate store object.

    ** Files, in dependency order

    - [Prelude] (this file): the result type [res] used for Python exceptions,
      with its monad instances and the notation scope [stocks_scope]; the
      tactics and the hint database [stocks]; generic list lemmas.
    - [Json]: JSON values as [response.json()] builds them on the Python side
      and as [JSON.parse] builds them on the JavaScript side.  It also holds
      Python's dict lookup (the last duplicate key wins), the [in] operator and
      truthiness, and JavaScript's truthiness, property access, [===], and
      sparse arrays with holes.
    - [Text]: the string built-ins both programs call: Python [str.strip],
      [str.rstrip("%")] and JavaScript [String.prototype.trim] and
      [toUpperCase] on ASCII text.
    - [PyNum]: Python's [float(x)] and [int(x)] on JSON values, by the
      grammar of the Python reference, to exact decimals within the range
      of binary64, with [int]'s digit limit.
    - [Quote]: [get_stock_quote] itself.  The [in] test, the truthiness test,
      the ten field conversions in their evaluation order and every exception
      they raise are modelled, together with the URL the tool builds and the
      MCP wrapping of the result ([structuredContent] or an error result).
    - [Request]: the request the tool sends.  It holds the API key from
      the environment with its ["demo"] default (line 16), the whole tool
      as a function of the HTTP answer, and the parameters a query-string
      reader finds in the URL of line 397.
    - [Dashboard]: the JavaScript state (the [watchlist] array with its
      holes, the input box, the error and loading banners).  It also holds
      the async functions as a machine whose tasks are suspended at each
      [await], with one event per user action, timer tick, [mcp-ready]
      event or tool-call completion.  [step] is executable.  [reachable] is
      the reachability relation from the page load, over any interleaving.
    - [Store]: the interface to the tool ([Class Server], and the law
      [EchoingServer] that a truthy answer for a symbol has that symbol),
      its instance [tool_server] built from [get_stock_quote], the
      sequential driver [drain]/[seq_step] that settles every call before
      the next event, and the spec's Watchlist Store and Refresh
      Coordinator (spec sections 4.2 and 4.3) as [Module Spec] on lists.
    - [Settle]: the variant [pending_measure] for the sequential driver,
      and the proof that [settle_fuel] always suffices, for every server.
    - [Banner]: what the page shows between events.  It holds the law
      [RenderingServer] (every truthy answer renders as a card) and the
      invariant [page_shown] for sequential runs.
    - [Compose]: the two programs composed.  It covers which tool results
      render as cards, and how a tool exception or a non-finite number
      travels through [addStock] and the timer's [refreshAll].
    - [Quiesce]: the variant [settle_measure] for the concurrent model:
      settlements alone, in any order, are bounded.
    - [Races]: interleavings that the code allows and the spec forbids.
      Proved for every page: a removal during a refresh overwrites the
      next stock with the removed one, overlapping adds duplicate a
      symbol, a hole keeps the loading banner on under every later timer
      round, a late refresh writes past the end, a mismatched answer and
      the demo loader store a symbol twice, and the end of a refresh
      hides the banner of a pending add.  Concrete traces run by
      [vm_compute] witness that each situation arises from a loaded page.
    - [Card]: the text [renderWatchlist] writes into [#stocks-container]
      and [#last-updated] (lines 285-337), character for character, with
      the JavaScript conversions its templates apply ([String(v)],
      [ToNumber], [Math.abs], [toFixed]); the handler of the Enter key
      (line 208).  Printing and parsing binary64 Numbers are the class
      [NumberText], over which every theorem is quantified.
    - [Page]: the constant [STOCK_DASHBOARD_HTML] (lines 19-376) line by
      line, what [server.py] declares to FastMCP (the server name, the
      tool [get_stock_quote] with its parameter, the resource served by
      [get_dashboard]), and executable scanners over the page text.

    ** What the theorems show

    - the normalizer ([Quote]): on every well-formed answer inside the
      range of binary64 and [int]'s digit limit, its exact result, with
      nothing of the spec's Quote invariant checked; the "Invalid symbol"
      ValueError for a missing or falsy envelope; CPython's digit-limit
      ValueError for a volume of more than 4300 digits; that [name] is
      always [symbol].
    - the dashboard ([Dashboard]): in every reachable state every stored
      entry is truthy, and without [window.mcp] nothing is ever stored or
      pending (rule induction over [reachable]); [addStock] of a
      duplicate only shows the error; [addStock] of a fresh symbol appends
      exactly the returned quote; [removeStock] keeps exactly the other
      entries.
    - the request ([Request]): a symbol and key of unreserved characters
      give exactly the three parameters (round trip); a symbol holding
      ["&apikey="] adds a second key, and one holding ["#"] sends no key
      at all.
    - the refinement ([Store]): under the sequential discipline and an
      echoing server, the page never has holes, pending calls or duplicate
      symbols, and each event changes the present entries exactly as the
      spec's coordinator does ([seq_refines]); [refreshAll] isolates
      per-symbol failures.
    - the page ([Banner]): with an echoing, rendering server, after every
      event the loading banner is off and the cards are the rendering of
      the current watchlist.
    - termination ([Settle], [Quiesce]): run to its end, every handler
      settles all its calls within [settle_fuel]; in the concurrent model
      every sequence of settlements is bounded by [settle_measure].
    - the composition ([Compose]): a result renders exactly when its five
      drawn numbers are finite (type); every tool exception shows the same
      message and adds nothing (error); a price past the largest double
      becomes [inf] and cannot be drawn (bounds); a non-finite number is
      added although V8's render error is shown, and then keeps the
      loading banner on at every refresh.
    - the races ([Races]), each for every page and every server: a
      removal during a refresh puts the stock back and loses another;
      overlapping adds, the demo loader and an answer carrying another
      stored symbol store a symbol twice; a late refresh writes past the
      end and leaves holes, after which the loading banner never goes off;
      the end of a refresh hides the banner while an add is pending.
    - the markup ([Card]): a provider symbol reaches [innerHTML] and the
      [onclick] of the Remove button unescaped (safety); a card whose
      symbol is not a string can never be removed (functional).
    - the page ([Page]), by evaluation of the served text: every
      [getElementById] of the script finds exactly one element; every
      [callTool] names the registered tool with exactly its parameter.

    ** Bounds, fuel and what is not modelled

    The parsers recurse on the string, and each handler step is one event,
    so neither uses fuel.  Non-termination of the event loop is modelled by
    [reachable], which allows any number of events.  The one fuelled
    definition is [Store.drain], which settles pending calls; [seq_step]
    gives it the length of the watchlist plus 4.  This is enough:
    [refreshAll] makes one call per entry ([drain_refreshAll] needs fuel at
    least the length), [addStock] one and the demo loader three, and
    [drain] on an empty task list is the identity, so extra fuel changes
    nothing.  [Settle.seq_step_settles] proves the bound enough for every
    server.  Floats are exact decimals standing for binary64 values: a
    value past the largest double becomes an infinity and one below half
    the smallest subnormal a zero ([PyNum.f64_round]), as in [float], and
    an int too large raises OverflowError, but the rounding of an
    in-range value to its double, and the Unicode digits and whitespace
    that Python accepts, are not modelled.  [int] applies CPython's
    default limit of 4300 digits (Python 3.11 and later).  The messages
    of the TypeErrors a card throws are V8's, the engine of the Goose
    desktop host.  The request leaves the fragment after a ["#"] unsent,
    as [client.get] does; percent- and ["+"]-decoding by the provider are
    not modelled, so the theorems on parameters use unreserved
    characters only.  [toUpperCase] follows JavaScript on Latin-1 but for
    the micro sign and y with diaeresis, whose capitals lie outside it.  Neither is the network exchange
    itself: the answer to the URL is an input of the model, a function
    from URLs to JSON.  The page of lines 19-376 is kept as text
    ([Page]); the head and the stylesheet only change how it looks, so no
    theorem reads them, while the body gives the initial state (the blank
    [#stocks-container] of line 216 is [Dashboard.VBlank]).  The MCP
    framework itself (how FastMCP validates arguments, dispatches tool
    calls and serves resources) is a library outside the repository, and
    [main] (lines 420-426) only calls [mcp.run()]: neither is modelled;
    [Store.tool_server] stands for the dispatch of the one tool.  In the text of the cards,
    the digits of [toFixed(2)] and [String(n)] on a Number, [ToNumber] on
    a string and the time of [toLocaleTimeString] depend on binary64 and
    on the clock: they are parameters ([Card.NumberText], the [now] of
    [Card.last_updated]), and the arrows U+25B2 and U+25BC, outside the
    Latin-1 range of the model's strings, are section variables of
    [Card]. *)

From Stdlib Require Export ZArith Ascii String.
From stdpp Require Export base list strings decidable countable.

Declare Scope stocks_scope.
Delimit Scope stocks_scope with stocks.
Open Scope stocks_scope.

(** ** Results of code that can raise *)

(** [res E A] is the outcome of a Python expression or statement: a value,
    or the exception it raised. *)
Inductive res (E A : Type) : Type :=
| Ok (a : A)
| Err (e : E).
Arguments Ok {E A} a.
Arguments Err {E A} e.

#[export] Instance res_mret E : MRet (res E) := fun _ a => Ok a.
#[export] Instance res_mbind E : MBind (res E) :=
  fun A B f m => match m with Ok a => f a | Err e => Err e end.
#[export] Instance res_fmap E : FMap (res E) :=
  fun A B f m => match m with Ok a => Ok (f a) | Err e => Err e end.

(** Python's [raise e]. *)
Notation "'raise' e" := (Err e) (at level 10, e at level 9) : stocks_scope.

Definition is_ok {E A} (r : res E A) : bool :=
  match r with Ok _ => true | Err _ => false end.

Lemma res_bind_ok {E A B} (a : A) (f : A -> res E B) :
  (Ok a ≫= f) = f a.
Proof. reflexivity. Qed.

Lemma res_bind_err {E A B} (e : E) (f : A -> res E B) :
  ((Err e : res E A) ≫= f) = Err e.
Proof. reflexivity. Qed.

Lemma res_bind_Ok_inv {E A B} (m : res E A) (f : A -> res E B) b :
  (m ≫= f) = Ok b -> exists a, m = Ok a /\ f a = Ok b.
Proof. destruct m; simpl; [eauto | discriminate]. Qed.

Lemma res_bind_Err_inv {E A B} (m : res E A) (f : A -> res E B) e :
  (m ≫= f) = Err e -> m = Err e \/ exists a, m = Ok a /\ f a = Err e.
Proof. destruct m; simpl; [right; eauto | left; congruence]. Qed.

(** ** Tactics and hints shared by the components *)

Create HintDb stocks.
Create Rewrite HintDb stocks_rw.
#[export] Hint Rewrite @res_bind_ok @res_bind_err : stocks_rw.

(** Invert a hypothesis and substitute. *)
Ltac invc H := inversion H; subst; clear H.

(** Prove a decidable proposition about concrete data by evaluating its
    decision procedure. *)
Ltac decide_by_compute := refine (bool_decide_unpack _ _); vm_compute; exact I.

(** Split a hypothesis [m ≫= f = Ok b] into its two steps. *)
Ltac res_inv :=
  repeat match goal with
  | H : (_ ≫= _) = Ok _ |- _ =>
      let a := fresh "a" in let Ha := fresh "Ha" in let Hf := fresh "Hf" in
      apply res_bind_Ok_inv in H as (a & Ha & Hf)
  | H : Ok _ = Ok _ |- _ => invc H
  | H : Ok _ = Err _ |- _ => discriminate H
  | H : Err _ = Ok _ |- _ => discriminate H
  end.

(** ** Generic list lemmas *)

Section ListFacts.
Context {A B : Type}.

Lemma NoDup_map_filter (f : A -> B) (P : A -> Prop) `{!∀ x, Decision (P x)}
    (l : list A) :
  NoDup (f <$> l) -> NoDup (f <$> filter P l).
Proof.
  induction l as [|x l IH]; simpl; [done|].
  rewrite list.NoDup_cons. intros [Hx Hl].
  rewrite filter_cons. case_decide; simpl; [|auto].
  rewrite list.NoDup_cons. split; [|auto].
  intros Hin. apply Hx. rewrite list_elem_of_fmap in Hin |- *.
  destruct Hin as (y & -> & Hy). exists y. split; [done|].
  by apply list_elem_of_filter in Hy as [_ ?].
Qed.

Lemma filter_idemp (P : A -> Prop) `{!∀ x, Decision (P x)} (l : list A) :
  filter P (filter P l) = filter P l.
Proof.
  induction l as [|x l IH]; [done|].
  rewrite !filter_cons. case_decide; [|done].
  rewrite filter_cons_True; [by f_equal|done].
Qed.
Lemma filter_none (P : A -> Prop) `{!∀ x, Decision (P x)} (l : list A) :
  Forall (fun x => ~ P x) l -> filter P l = [].
Proof.
  induction 1 as [|x l Hx Hl IH]; [done|].
  by rewrite filter_cons_False.
Qed.
Lemma Forall_filter_sub (Q P : A -> Prop) `{!∀ x, Decision (P x)} (l : list A) :
  Forall Q l -> Forall Q (filter P l).
Proof.
  rewrite !list.Forall_forall. intros HQ x Hx.
  apply list_elem_of_filter in Hx as [_ Hx]. by apply HQ.
Qed.
Lemma omap_fmap_eq (g : A -> option B) (f : A -> A) (l : list A) :
  (forall q, q ∈ l -> g (f q) = g q) -> omap g (f <$> l) = omap g l.
Proof.
  induction l as [|a l IH]; intros Hf; [done|]. rewrite fmap_cons.
  cbn [omap list_omap]. rewrite Hf by by left.
  rewrite IH; [done|]. intros q Hq. apply Hf. by right.
Qed.
Lemma fmap_ext_elem (f g : A -> B) (l : list A) :
  (forall x, x ∈ l -> f x = g x) -> f <$> l = g <$> l.
Proof.
  induction l as [|a l IH]; intros Hfg; [done|]. rewrite !fmap_cons.
  f_equal; [apply Hfg; by left|]. apply IH. intros x Hx. apply Hfg. by right.
Qed.
Lemma mapM_omap (f : A -> option B) (l : list A) :
  Forall (fun x => is_Some (f x)) l -> mapM f l = Some (omap f l).
Proof.
  induction 1 as [|x l [y Hy] _ IH]; [done|].
  cbn [mapM omap list_omap]. rewrite Hy, IH. done.
Qed.
End ListFacts.

#[export] Hint Resolve NoDup_map_filter : stocks.
