(* ===== verification/Json.v ===== *)
(** * JSON values on both sides of the tool call

    The Python tool reads [response.json()] (server.py line 399) and indexes
    it as a dict; the dashboard reads [result.structuredContent] (lines 242,
    273, 365) as a JavaScript object and keeps such objects in the sparse
    array [watchlist].  This file holds the value type they share, the
    Python operations the tool applies to it ([in], [d[k]], truthiness), the
    JavaScript ones the dashboard applies ([x.k], [===], truthiness) and
    JavaScript arrays with holes. *)

From S2P Require Import Prelude.
From stdpp Require Import gmap.

#[local] Set Warnings "-register-all".

(** ** Numbers *)

(** A finite number as an exact decimal [(-1)^dneg * dmant * 10^dexp].
    The sign is kept apart from the mantissa so that [-0.0] exists, as in
    Python. *)
Record decimal := Dec { dneg : bool; dmant : N; dexp : Z }.

(** A Python [float] (a JavaScript number on the other side). *)
Inductive pyfloat :=
| PFin (d : decimal)
| PInf (neg : bool)
| PNaN.

(** ** JSON values *)

(** [response.json()] gives [int] for a number with neither fraction nor
    exponent and [float] otherwise, so the two are kept apart.  An object
    is the list of its members in source order, duplicates included. *)
Inductive json :=
| JNull
| JBool (b : bool)
| JInt (z : Z)
| JFloat (f : pyfloat)
| JStr (s : string)
| JArr (l : list json)
| JObj (kvs : list (string * json)).

(** ** Python exceptions *)

Inductive py_exc :=
| ValueError (msg : string)
| KeyError (key : string)
| TypeError
| AttributeError
| OverflowError.

Abbreviation pyres := (res py_exc).

(** ** Python dict operations *)

(** [json.loads] builds a dict member by member, so when a key repeats the
    last value wins. *)
Fixpoint py_lookup (k : string) (kvs : list (string * json)) : option json :=
  match kvs with
  | [] => None
  | (k', v) :: rest =>
      match py_lookup k rest with
      | Some v' => Some v'
      | None => if decide (k = k') then Some v else None
      end
  end.

(** The dict itself, as [json.loads] builds it: each member inserted in
    source order into a map from string keys. *)
Definition py_dict (kvs : list (string * json)) : gmap string json :=
  foldl (fun m kv => <[kv.1 := kv.2]> m) ∅ kvs.

(** [s == v] for a string [s]: equal only to the same string. *)
Definition py_str_eq (s : string) (v : json) : bool :=
  match v with JStr s' => bool_decide (s = s') | _ => false end.

Definition substring_of (needle hay : string) : bool :=
  match String.index 0 needle hay with Some _ => true | None => false end.

(** [key in v]: key membership for a dict, element equality for a list,
    substring for a string, and a TypeError ("argument is not iterable")
    for the scalars. *)
Definition py_contains (key : string) (v : json) : pyres bool :=
  match v with
  | JObj kvs => Ok (bool_decide (is_Some (py_lookup key kvs)))
  | JArr l => Ok (existsb (py_str_eq key) l)
  | JStr s => Ok (substring_of key s)
  | _ => raise TypeError
  end.

(** [v[key]] with a string key: a KeyError when a dict lacks it, a
    TypeError for every other type (list and string indices must be
    integers, scalars are not subscriptable). *)
Definition py_getitem (v : json) (key : string) : pyres json :=
  match v with
  | JObj kvs =>
      match py_lookup key kvs with
      | Some x => Ok x
      | None => raise (KeyError key)
      end
  | _ => raise TypeError
  end.

Definition pyfloat_truthy (f : pyfloat) : bool :=
  match f with
  | PFin d => negb (N.eqb (dmant d) 0)
  | PInf _ | PNaN => true
  end.

(** [bool(v)] in Python. *)
Definition py_truthy (v : json) : bool :=
  match v with
  | JNull => false
  | JBool b => b
  | JInt z => negb (Z.eqb z 0)
  | JFloat f => pyfloat_truthy f
  | JStr s => negb (String.eqb s "")
  | JArr l => negb (bool_decide (l = []))
  | JObj kvs => negb (bool_decide (kvs = []))
  end.

(** ** JavaScript values *)

(** A JavaScript value the dashboard reads is [undefined] ([None]) or
    a value parsed from JSON. *)
Abbreviation jsval := (option json).

(** [Boolean(v)]: [undefined], [null], [false], [0], [-0], [NaN] and [""]
    are falsy; arrays and objects are truthy even when empty. *)
Definition js_truthy (v : jsval) : bool :=
  match v with
  | None | Some JNull => false
  | Some (JBool b) => b
  | Some (JInt z) => negb (Z.eqb z 0)
  | Some (JFloat (PFin d)) => negb (N.eqb (dmant d) 0)
  | Some (JFloat PNaN) => false
  | Some (JFloat (PInf _)) => true
  | Some (JStr s) => negb (String.eqb s "")
  | Some (JArr _) | Some (JObj _) => true
  end.

(** [v.k]: reading a property of [undefined] or [null] throws a
    TypeError; an object gives its member (the last one, as [JSON.parse]
    keeps it) or [undefined]; the other values have none of the properties
    the dashboard reads. *)
Definition js_get (v : jsval) (k : string) : option jsval :=
  match v with
  | None | Some JNull => None
  | Some (JObj kvs) => Some (py_lookup k kvs)
  | Some _ => Some None
  end.

(** [v === s] for a string [s]. *)
Definition js_str_eq (v : jsval) (s : string) : bool :=
  match v with Some (JStr s') => bool_decide (s' = s) | _ => false end.

(** ** Sparse arrays *)

(** A JavaScript array: [None] is a hole. *)
Abbreviation jsarray := (list (option json)).

(** The elements [some], [filter] and [map] visit: holes are skipped. *)
Definition present (a : jsarray) : list json := omap id a.

(** [a[i]]: [undefined] for a hole or an index past the end. *)
Definition js_index (a : jsarray) (i : nat) : jsval := mjoin (a !! i).

(** [a.push(v)]. *)
Definition js_push (v : json) (a : jsarray) : jsarray := a ++ [Some v].

(** [a[i] = v]: past the end, the array grows to [i + 1] elements and the
    new slots before [i] are holes. *)
Definition js_set (i : nat) (v : json) (a : jsarray) : jsarray :=
  if decide (i < length a) then <[i := Some v]> a
  else a ++ replicate (i - length a) None ++ [Some v].

(** [a.filter(p)]: a dense array of the present elements that pass. *)
Definition js_filter (p : json -> bool) (a : jsarray) : jsarray :=
  Some <$> filter (fun x => p x = true) (present a).

(** [a.some(p)]. *)
Definition js_some (p : json -> bool) (a : jsarray) : bool :=
  existsb p (present a).

(** An array without holes. *)
Definition dense (a : jsarray) : Prop := Forall is_Some a.

#[export] Instance dense_dec a : Decision (dense a) := _.

(** ** Lemmas *)

Lemma present_app a b : present (a ++ b) = present a ++ present b.
Proof. apply omap_app. Qed.

Lemma present_dense_fmap (l : list json) : present (Some <$> l) = l.
Proof.
  unfold present. induction l as [|x l IH]; [done|].
  rewrite fmap_cons. simpl. f_equal. exact IH.
Qed.

Lemma js_push_present v a : present (js_push v a) = present a ++ [v].
Proof. unfold js_push. by rewrite present_app. Qed.

Lemma js_filter_present p a :
  present (js_filter p a) = filter (fun x => p x = true) (present a).
Proof. unfold js_filter. apply present_dense_fmap. Qed.

Lemma js_filter_dense p a : dense (js_filter p a).
Proof.
  unfold dense, js_filter. apply Forall_fmap, Forall_true. intros x. by eexists.
Qed.

Lemma js_push_dense v a : dense a -> dense (js_push v a).
Proof. intros Ha. apply Forall_app. split; [done|]. repeat constructor. by eexists. Qed.

Lemma length_js_set i v a : length (js_set i v a) = Nat.max (length a) (S i).
Proof.
  unfold js_set. case_decide.
  - rewrite length_insert. lia.
  - rewrite !length_app, length_replicate. simpl. lia.
Qed.

Lemma js_set_lookup_eq i v a : js_set i v a !! i = Some (Some v).
Proof.
  unfold js_set. case_decide.
  - by apply list_lookup_insert_eq.
  - rewrite lookup_app_r by lia. rewrite lookup_app_r; rewrite length_replicate; [|lia].
    by replace (i - length a - (i - length a)) with 0 by lia.
Qed.

Lemma js_set_lookup_lt i j v a :
  j < length a -> j <> i -> js_set i v a !! j = a !! j.
Proof.
  intros Hj Hne. unfold js_set. case_decide.
  - by apply list_lookup_insert_ne.
  - by apply lookup_app_l.
Qed.

(** In range, an assignment replaces one element and adds no hole. *)
Lemma js_set_in_range i v a :
  i < length a -> js_set i v a = <[i := Some v]> a.
Proof. intros Hi. unfold js_set. by case_decide. Qed.

Lemma js_set_dense i v a :
  dense a -> i <= length a -> dense (js_set i v a).
Proof.
  intros Ha Hi. unfold js_set. case_decide.
  - apply Forall_insert; [done|]. by eexists.
  - replace (i - length a) with 0 by lia. simpl.
    apply Forall_app. split; [done|]. repeat constructor. by eexists.
Qed.

Lemma js_index_present a i v : js_index a i = Some v -> v ∈ present a.
Proof.
  unfold js_index, present. intros H.
  destruct (a !! i) as [[w|]|] eqn:E; simplify_eq/=.
  apply list_elem_of_omap. exists (Some v). split; [|done].
  by apply list_elem_of_lookup_2 in E.
Qed.

#[export] Hint Resolve js_filter_dense js_push_dense js_set_dense : stocks.
#[export] Hint Rewrite present_app js_push_present js_filter_present : stocks_rw.

(** The dict built on top of [m] answers from the members first, then
    from [m]. *)
Lemma foldl_insert_lookup (m : gmap string json) kvs k :
  foldl (fun m kv => <[kv.1 := kv.2]> m) m kvs !! k =
  match py_lookup k kvs with Some v => Some v | None => m !! k end.
Proof.
  revert m. induction kvs as [|[k' v] kvs IH]; intros m; [done|].
  cbn [foldl py_lookup fst snd]. rewrite IH.
  destruct (py_lookup k kvs); [done|]. case_decide as Hk.
  - subst. apply lookup_insert_eq.
  - by apply lookup_insert_ne.
Qed.

(** ** Properties *)

(** The association-list lookup [py_lookup] that the model uses
    for [d[k]] and [k in d] agrees, for every key, with a lookup in the
    dict [json.loads] builds by inserting the members in order: the last
    member with the key wins, and a missing key is missing from both. *)
Theorem py_lookup_dict kvs k : py_lookup k kvs = py_dict kvs !! k.
Proof. unfold py_dict. rewrite foldl_insert_lookup. by destruct (py_lookup k kvs). Qed.
