(* ===== verification/Text.v ===== *)
(** * String built-ins called by the two programs

    Python: [str.rstrip("%")] (server.py line 411), and the whitespace
    stripping [float()] and [int()] do before they parse (lines 409-415).
    JavaScript: [input.value.trim().toUpperCase()] (line 225).

    A Rocq [string] is read as a sequence of Latin-1 code points (each
    [ascii] is a byte, 0-255).  Whitespace follows each language's own
    definition on that range.  Case mapping follows JavaScript on that
    range, except for the two letters whose capitals lie outside it. *)

From S2P Require Import Prelude.

Definition code (c : ascii) : nat := nat_of_ascii c.

(** Python's [str.isspace] on Latin-1: tab, LF, VT, FF, CR, the four
    separators 0x1c-0x1f, space, NEL (0x85) and NBSP (0xa0).  [float()]
    and [int()] first turn every such character into a space, then strip
    spaces, so they strip exactly this set. *)
Definition py_isspace (c : ascii) : bool :=
  let n := code c in
  ((9 <=? n) && (n <=? 13)) || ((28 <=? n) && (n <=? 32)) ||
  (n =? 133) || (n =? 160).

(** JavaScript's WhiteSpace and LineTerminator on Latin-1: tab, LF, VT,
    FF, CR, space and NBSP.  The 0x1c-0x1f separators and NEL are not
    whitespace to [trim]. *)
Definition js_isspace (c : ascii) : bool :=
  let n := code c in
  ((9 <=? n) && (n <=? 13)) || (n =? 32) || (n =? 160).

(** [s.lstrip(chars)] for the characters satisfying [p]. *)
Fixpoint lstrip (p : ascii -> bool) (s : string) : string :=
  match s with
  | EmptyString => EmptyString
  | String c r => if p c then lstrip p r else s
  end.

(** [s.rstrip(chars)]: drop the longest suffix of characters satisfying
    [p]. *)
Fixpoint rstrip (p : ascii -> bool) (s : string) : string :=
  match s with
  | EmptyString => EmptyString
  | String c r =>
      let r' := rstrip p r in
      match r' with
      | EmptyString => if p c then EmptyString else String c EmptyString
      | _ => String c r'
      end
  end.

Definition strip (p : ascii -> bool) (s : string) : string :=
  lstrip p (rstrip p s).

Definition is_percent (c : ascii) : bool := Ascii.eqb c "%"%char.

(** [s.rstrip("%")]. *)
Definition rstrip_percent (s : string) : string := rstrip is_percent s.

(** [s.trim()]. *)
Definition js_trim (s : string) : string := strip js_isspace s.

(** [toUpperCase] on one Latin-1 character: a-z and the letters
    0xE0-0xFE (but 0xF7, the division sign) move to their capitals 32
    below.  The three whose capitals are not one Latin-1 character are
    handled by [js_upper]. *)
Definition ascii_upper (c : ascii) : ascii :=
  let n := code c in
  if ((97 <=? n) && (n <=? 122)) || ((224 <=? n) && (n <=? 254) && negb (n =? 247))
  then ascii_of_nat (n - 32) else c.

(** [s.toUpperCase()] on a Latin-1 string: 0xDF (sharp s) becomes "SS";
    0xB5 (micro sign) and 0xFF (y with diaeresis), whose capitals U+039C
    and U+0178 lie outside Latin-1, are kept as they are, the one place
    the model differs. *)
Fixpoint js_upper (s : string) : string :=
  match s with
  | EmptyString => EmptyString
  | String c r =>
      if code c =? 223 then String "S" (String "S" (js_upper r))
      else String (ascii_upper c) (js_upper r)
  end.

(** The last character of a string. *)
Fixpoint last_char (s : string) : option ascii :=
  match s with
  | EmptyString => None
  | String c EmptyString => Some c
  | String _ r => last_char r
  end.

(** Every character of [s] satisfies [p]. *)
Fixpoint str_all (p : ascii -> bool) (s : string) : bool :=
  match s with
  | EmptyString => true
  | String c r => p c && str_all p r
  end.

(** [n] occurs in [h] as a contiguous piece. *)
Definition infix (n h : string) : Prop := exists a b, h = (a ++ n ++ b)%string.

(** ** Lemmas *)

Lemma string_app_nil_l t : (EmptyString ++ t)%string = t.
Proof. reflexivity. Qed.

Lemma string_app_cons c r t : (String c r ++ t)%string = String c (r ++ t).
Proof. reflexivity. Qed.

Lemma string_app_assoc s t u : ((s ++ t) ++ u)%string = (s ++ (t ++ u))%string.
Proof. induction s as [|c r IH]; [done|]. by rewrite !string_app_cons, IH. Qed.

Lemma string_app_nil_r s : (s ++ EmptyString)%string = s.
Proof. induction s as [|c r IH]; [done|]. by rewrite string_app_cons, IH. Qed.

Lemma str_all_app p s t : str_all p (s ++ t) = str_all p s && str_all p t.
Proof. induction s as [|c r IH]; [done|]. simpl. by rewrite IH, andb_assoc. Qed.

Lemma infix_refl n : infix n n.
Proof. exists EmptyString, EmptyString. by rewrite string_app_nil_l, string_app_nil_r. Qed.

Lemma infix_app_l n h k : infix n h -> infix n (h ++ k).
Proof. intros (a & b & ->). exists a, (b ++ k)%string. by rewrite !string_app_assoc. Qed.

Lemma infix_app_r n h k : infix n k -> infix n (h ++ k).
Proof. intros (a & b & ->). exists (h ++ a)%string, b. by rewrite !string_app_assoc. Qed.

Lemma infix_trans m n h : infix m n -> infix n h -> infix m h.
Proof.
  intros (a & b & ->) (c & d & ->). exists (c ++ a)%string, (b ++ d)%string.
  by rewrite !string_app_assoc.
Qed.

(** [infix n h] where [h] is built with [++] and [n] is one of its pieces
    or a run of them: pick the side of each [++] by backtracking. *)
Ltac infix_search :=
  first [ apply infix_refl
        | apply infix_app_r; infix_search
        | apply infix_app_l; infix_search ].

Section Strip.
Context (p : ascii -> bool).

(** What [rstrip] removes: [s] is the result followed by characters
    that all satisfy [p]. *)
Lemma rstrip_split s :
  exists t, s = (rstrip p s ++ t)%string /\ str_all p t = true.
Proof.
  induction s as [|c r IH]; simpl.
  - by exists EmptyString.
  - destruct IH as (t & Ht & Hp).
    destruct (rstrip p r) as [|c' r'] eqn:E.
    + simpl in Ht. subst r. destruct (p c) eqn:Ec.
      * exists (String c t). simpl. by rewrite Ec, Hp.
      * by exists t.
    + exists t. split; [rewrite Ht at 1; reflexivity|]. exact Hp.
Qed.

(** The result does not end with a character satisfying [p]. *)
Lemma rstrip_last s c : last_char (rstrip p s) = Some c -> p c = false.
Proof.
  induction s as [|d r IH]; simpl; [discriminate|].
  destruct (rstrip p r) as [|c' r'] eqn:E.
  - destruct (p d) eqn:Ed; simpl; [discriminate|]. congruence.
  - intros H. apply IH. simpl. destruct r'; exact H.
Qed.

Lemma rstrip_cons c r :
  rstrip p (String c r) =
  let r' := rstrip p r in
  match r' with
  | EmptyString => if p c then EmptyString else String c EmptyString
  | _ => String c r'
  end.
Proof. reflexivity. Qed.

Lemma rstrip_idem s : rstrip p (rstrip p s) = rstrip p s.
Proof.
  induction s as [|c r IH]; [done|]. rewrite rstrip_cons. cbv zeta.
  destruct (rstrip p r) as [|c' r'] eqn:E.
  - destruct (p c) eqn:Ec; [done|]. simpl. by rewrite Ec.
  - by rewrite rstrip_cons, IH.
Qed.

Lemma lstrip_app_l s t :
  str_all p s = true -> lstrip p (s ++ t) = lstrip p t.
Proof.
  induction s as [|c r IH]; simpl; [done|].
  intros [-> H]%andb_prop. by apply IH.
Qed.

Lemma rstrip_all t : str_all p t = true -> rstrip p t = EmptyString.
Proof.
  induction t as [|d u IH]; [done|]. simpl str_all.
  intros [Hd Hu]%andb_prop. rewrite rstrip_cons. cbv zeta. by rewrite IH, Hd.
Qed.

Lemma rstrip_app_r s t :
  str_all p t = true -> rstrip p (s ++ t) = rstrip p s.
Proof.
  intros H. induction s as [|c r IH]; [by apply rstrip_all|].
  change (String c r ++ t)%string with (String c (r ++ t)).
  rewrite !rstrip_cons. by rewrite IH.
Qed.

Lemma rstrip_none s : str_all (fun c => negb (p c)) s = true -> rstrip p s = s.
Proof.
  induction s as [|c r IH]; [done|]. simpl str_all.
  intros [Hc Hr]%andb_prop. rewrite rstrip_cons. cbv zeta. rewrite IH by done.
  destruct r; [|done]. apply negb_true_iff in Hc. by rewrite Hc.
Qed.

(** A string none of whose characters satisfy [p] is its own strip. *)
Lemma strip_none s : str_all (fun c => negb (p c)) s = true -> strip p s = s.
Proof.
  intros H. unfold strip. rewrite rstrip_none by done.
  destruct s as [|c r]; [done|]. simpl in *.
  apply andb_prop in H as [Hc _]. apply negb_true_iff in Hc. by rewrite Hc.
Qed.
End Strip.

