(* ===== verification/PyNum.v ===== *)
(** * Python's [float(x)] and [int(x)] (server.py lines 409-415)

    [get_stock_quote] converts six fields with [float] and one with [int].
    Both built-ins accept a string, an int, a float or a bool.  A string is
    stripped of whitespace and parsed by the grammar of the Python
    reference ("Floating-point literals" and [int]'s base-10 syntax):

<<
    floatvalue ::= [sign] (floatnumber | "inf" | "infinity" | "nan")
    floatnumber ::= number [("e" | "E") [sign] digitpart]
    number     ::= [digitpart] "." digitpart | digitpart ["."]
    digitpart  ::= digit (["_"] digit)*
    intvalue   ::= [sign] digitpart
>>

    where the words are matched without regard to case.  The result is an
    exact decimal, set to an infinity or a zero when it leaves the range
    of binary64 ([f64_round]); the rounding inside the range is not
    modelled.  [int] has CPython's limit of 4300 digits.  The file
    also prints signed decimals and integers the way the provider writes
    them ([plain_dec], [plain_int]) and proves that [float] and [int] read
    them back. *)

From S2P Require Import Prelude Json Text.
From Stdlib Require Import DecimalString.

(** ** Characters *)

Definition is_digit (c : ascii) : bool := (48 <=? code c) && (code c <=? 57).

Definition digit_val (c : ascii) : N := N.of_nat (code c - 48).

Definition ascii_lower (c : ascii) : ascii :=
  let n := code c in
  if (65 <=? n) && (n <=? 90) then ascii_of_nat (n + 32) else c.

Fixpoint str_lower (s : string) : string :=
  match s with
  | EmptyString => EmptyString
  | String c r => String (ascii_lower c) (str_lower r)
  end.

(** ** Digit groups *)

(** The rest of a [digitpart] after its first digit: digits, each maybe
    preceded by one underscore.  It returns the value accumulated so far
    (starting from [acc]), the number of digits, and the rest of the
    string. *)
Fixpoint digits_more (s : string) (acc : N) (n : nat) : N * nat * string :=
  match s with
  | String c r =>
      if is_digit c then digits_more r (acc * 10 + digit_val c)%N (S n)
      else if Ascii.eqb c "_" then
        match r with
        | String c' r' =>
            if is_digit c' then digits_more r' (acc * 10 + digit_val c')%N (S n)
            else (acc, n, s)
        | EmptyString => (acc, n, s)
        end
      else (acc, n, s)
  | EmptyString => (acc, n, EmptyString)
  end.

(** [digitpart]: its value, its number of digits and what follows. *)
Definition digitpart (s : string) : option (N * nat * string) :=
  match s with
  | String c r => if is_digit c then Some (digits_more r (digit_val c) 1) else None
  | EmptyString => None
  end.

(** An optional sign: whether it is [-], and what follows. *)
Definition sign (s : string) : bool * string :=
  match s with
  | String c r =>
      if Ascii.eqb c "-" then (true, r)
      else if Ascii.eqb c "+" then (false, r)
      else (false, s)
  | EmptyString => (false, s)
  end.

(** ** [float] *)

(** [number]: the digits before and after the point as one mantissa, and
    the number of digits after the point. *)
Definition number (s : string) : option (N * nat * string) :=
  match s with
  | String "." r =>
      '(f, nf, rest) ← digitpart r; Some (f, nf, rest)
  | _ =>
      '(i, _, rest) ← digitpart s;
      match rest with
      | String "." r =>
          match digitpart r with
          | Some (f, nf, rest') => Some ((i * 10 ^ N.of_nat nf + f)%N, nf, rest')
          | None => Some (i, 0, r)
          end
      | _ => Some (i, 0, rest)
      end
  end.

(** The optional exponent and the end of the string. *)
Definition exponent (s : string) : option Z :=
  match s with
  | EmptyString => Some 0%Z
  | String c r =>
      if Ascii.eqb c "e" || Ascii.eqb c "E" then
        let '(neg, r') := sign r in
        match digitpart r' with
        | Some (e, _, EmptyString) => Some (if neg then - Z.of_N e else Z.of_N e)%Z
        | _ => None
        end
      else None
  end.

(** The range of binary64.  [float] rounds to the nearest double, ties
    to even; the rounding of a finite in-range value is not modelled, but
    leaving the range is: a magnitude at or above [2^1024 - 2^970] (half
    way from the largest double to [2^1024]) gives an infinity, and a
    non-zero magnitude at or below [2^-1075] (half the smallest
    subnormal) gives a zero of the same sign. *)
Definition f64_overflow_bound : Z := (2 ^ 1024 - 2 ^ 970)%Z.

(** [m * 10^e >= f64_overflow_bound]. *)
Definition dec_overflows (m : N) (e : Z) : bool :=
  if (0 <=? e)%Z then (f64_overflow_bound <=? Z.of_N m * 10 ^ e)%Z
  else (f64_overflow_bound * 10 ^ (- e) <=? Z.of_N m)%Z.

(** [0 < m * 10^e <= 2^-1075]. *)
Definition dec_underflows (m : N) (e : Z) : bool :=
  if (0 <=? e)%Z then false
  else (0 <? Z.of_N m)%Z && (Z.of_N m * 2 ^ 1075 <=? 10 ^ (- e))%Z.

(** The float a decimal text denotes. *)
Definition f64_round (d : decimal) : pyfloat :=
  if dec_overflows (dmant d) (dexp d) then PInf (dneg d)
  else if dec_underflows (dmant d) (dexp d) then PFin (Dec (dneg d) 0 0)
  else PFin d.

(** [floatvalue] on a stripped string. *)
Definition float_value (s : string) : option pyfloat :=
  let '(neg, r) := sign s in
  let w := str_lower r in
  if String.eqb w "inf" || String.eqb w "infinity" then Some (PInf neg)
  else if String.eqb w "nan" then Some PNaN
  else
    '(m, nf, rest) ← number r;
    e ← exponent rest;
    Some (f64_round (Dec neg m (e - Z.of_nat nf)%Z)).

(** [repr(s)] for the error messages (escapes are not modelled). *)
Definition py_repr (s : string) : string := "'" ++ s ++ "'".

(** [float(s)] for a string. *)
Definition py_float_str (s : string) : pyres pyfloat :=
  match float_value (strip py_isspace s) with
  | Some f => Ok f
  | None => raise (ValueError ("could not convert string to float: " ++ py_repr s))
  end.

Definition decimal_of_Z (z : Z) : decimal := Dec (z <? 0)%Z (Z.to_N (Z.abs z)) 0.

(** [float(x)]; an int that rounds past the largest double raises
    OverflowError ("int too large to convert to float"). *)
Definition py_float (x : json) : pyres pyfloat :=
  match x with
  | JStr s => py_float_str s
  | JInt z =>
      if dec_overflows (Z.abs_N z) 0 then raise OverflowError else Ok (PFin (decimal_of_Z z))
  | JFloat f => Ok f
  | JBool b => Ok (PFin (Dec false (if b then 1 else 0) 0))
  | _ => raise TypeError
  end.

(** ** [int] *)

(** [intvalue] on a stripped string: the value and the number of
    digits. *)
Definition int_value (s : string) : option (Z * nat) :=
  let '(neg, r) := sign s in
  match digitpart r with
  | Some (v, n, EmptyString) => Some ((if neg then - Z.of_N v else Z.of_N v)%Z, n)
  | _ => None
  end.

(** [sys.get_int_max_str_digits()], 4300 by default since Python 3.11:
    [int] of a string with more digits raises ValueError. *)
Definition int_max_str_digits : nat := 4300.

Definition nat_text (n : nat) : string := NilZero.string_of_uint (Nat.to_uint n).

Definition int_limit_error (n : nat) : py_exc :=
  ValueError ("Exceeds the limit (" ++ nat_text int_max_str_digits ++
    " digits) for integer string conversion: value has " ++ nat_text n ++
    " digits; use sys.set_int_max_str_digits() to increase the limit").

Definition py_int_str (s : string) : pyres Z :=
  match int_value (strip py_isspace s) with
  | Some (z, n) => if n <=? int_max_str_digits then Ok z else raise (int_limit_error n)
  | None => raise (ValueError ("invalid literal for int() with base 10: " ++ py_repr s))
  end.

(** [int(f)] of a finite float truncates toward zero. *)
Definition trunc_decimal (d : decimal) : Z :=
  let m := Z.of_N (dmant d) in
  let v := match dexp d with
           | Zpos p => (m * 10 ^ Zpos p)%Z
           | Z0 => m
           | Zneg p => (m / 10 ^ Zpos p)%Z
           end in
  if dneg d then (- v)%Z else v.

(** [int(x)]. *)
Definition py_int (x : json) : pyres Z :=
  match x with
  | JStr s => py_int_str s
  | JInt z => Ok z
  | JFloat (PFin d) => Ok (trunc_decimal d)
  | JFloat (PInf _) => raise OverflowError
  | JFloat PNaN => raise (ValueError "cannot convert float NaN to integer")
  | JBool b => Ok (if b then 1 else 0)%Z
  | _ => raise TypeError
  end.

(** ** Numbers as the provider writes them *)

(** The character of the decimal digit [d]. *)
Definition digit_char (d : nat) : ascii := ascii_of_nat (48 + d).

(** The digits [ds], most significant first, as text. *)
Fixpoint digits_str (ds : list nat) : string :=
  match ds with
  | [] => EmptyString
  | d :: r => String (digit_char d) (digits_str r)
  end.

(** The value of the digits [ds] read after the value [acc]. *)
Definition digits_acc (acc : N) (ds : list nat) : N :=
  foldl (fun a d => a * 10 + N.of_nat d)%N acc ds.

Definition digits_N (ds : list nat) : N := digits_acc 0 ds.

(** Every element of [ds] is a decimal digit. *)
Definition all_digits (ds : list nat) : bool := forallb (fun d => d <? 10) ds.

Definition sign_str (neg : bool) : string := if neg then "-" else "".

(** [-123.4500]: a sign, integer digits, a point and fraction digits. *)
Definition plain_dec (neg : bool) (ds1 ds2 : list nat) : string :=
  sign_str neg ++ digits_str ds1 ++ "." ++ digits_str ds2.

(** [-123]: a sign and digits. *)
Definition plain_int (neg : bool) (ds : list nat) : string :=
  sign_str neg ++ digits_str ds.

(** A character that ends a digit group: neither a digit nor [_]. *)
Definition group_end (s : string) : bool :=
  match s with
  | String c _ => negb (is_digit c) && negb (Ascii.eqb c "_")
  | EmptyString => true
  end.

(** ** Lemmas *)

#[local] Arguments digit_char : simpl never.
#[local] Arguments is_digit : simpl never.
#[local] Arguments digit_val : simpl never.

Lemma digit_char_digit d : d < 10 -> is_digit (digit_char d) = true.
Proof. intros Hd. do 10 (destruct d as [|d]; [reflexivity|]). lia. Qed.

Lemma digit_char_val d : d < 10 -> digit_val (digit_char d) = N.of_nat d.
Proof. intros Hd. do 10 (destruct d as [|d]; [reflexivity|]). lia. Qed.

Lemma digit_char_lower d : d < 10 -> ascii_lower (digit_char d) = digit_char d.
Proof. intros Hd. do 10 (destruct d as [|d]; [reflexivity|]). lia. Qed.

Lemma digit_char_space d : d < 10 -> py_isspace (digit_char d) = false.
Proof. intros Hd. do 10 (destruct d as [|d]; [reflexivity|]). lia. Qed.

Lemma all_digits_cons d ds : all_digits (d :: ds) = true <-> d < 10 /\ all_digits ds = true.
Proof. unfold all_digits. simpl. by rewrite andb_true_iff, Nat.ltb_lt. Qed.

Lemma all_digits_app ds1 ds2 :
  all_digits (ds1 ++ ds2) = true <-> all_digits ds1 = true /\ all_digits ds2 = true.
Proof. unfold all_digits. by rewrite forallb_app, andb_true_iff. Qed.

Lemma digits_acc_app acc ds : digits_acc acc ds = (acc * 10 ^ N.of_nat (length ds) + digits_N ds)%N.
Proof.
  unfold digits_N, digits_acc. revert acc. induction ds as [|d ds IH]; intros acc; simpl.
  - lia.
  - rewrite (IH (acc * 10 + N.of_nat d)%N), (IH (0 * 10 + N.of_nat d)%N).
    rewrite Nat2N.inj_succ, N.pow_succ_r'. lia.
Qed.

Lemma digits_N_app ds1 ds2 :
  digits_N (ds1 ++ ds2) = (digits_N ds1 * 10 ^ N.of_nat (length ds2) + digits_N ds2)%N.
Proof. unfold digits_N at 1, digits_acc. rewrite foldl_app. apply digits_acc_app. Qed.

Lemma digits_more_str ds rest acc n :
  all_digits ds = true -> group_end rest = true ->
  digits_more (digits_str ds ++ rest) acc n = (digits_acc acc ds, n + length ds, rest).
Proof.
  revert acc n. induction ds as [|d ds IH]; intros acc n Hds Hr.
  - rewrite Nat.add_0_r. destruct rest as [|c r]; [done|]. cbn [group_end] in Hr.
    apply andb_prop in Hr as [H1 H2]. apply negb_true_iff in H1, H2.
    cbn [digits_str]; rewrite ?string_app_nil_l, ?string_app_cons; cbn [digits_more]. by rewrite H1, H2.
  - apply all_digits_cons in Hds as [Hd Hds].
    cbn [digits_str]; rewrite ?string_app_nil_l, ?string_app_cons; cbn [digits_more].
    rewrite digit_char_digit, digit_char_val, IH by done. cbn [length]. by rewrite Nat.add_succ_r.
Qed.

Lemma digitpart_str ds rest :
  ds <> [] -> all_digits ds = true -> group_end rest = true ->
  digitpart (digits_str ds ++ rest) = Some (digits_N ds, length ds, rest).
Proof.
  destruct ds as [|d ds]; intros Hne Hds Hr; [done|].
  apply all_digits_cons in Hds as [Hd Hds]. cbn [digits_str]; rewrite string_app_cons; cbn [digitpart].
  rewrite digit_char_digit, digits_more_str by done. by rewrite digit_char_val.
Qed.

Lemma digit_char_neq d c : d < 10 -> is_digit c = false -> Ascii.eqb (digit_char d) c = false.
Proof.
  intros Hd Hc. destruct (Ascii.eqb_spec (digit_char d) c) as [<-|]; [|done].
  by rewrite digit_char_digit in Hc.
Qed.

(** A predicate true of the sign, the point and every digit holds of the
    whole printed number. *)
Lemma digits_str_all (P : ascii -> bool) ds :
  (forall d, d < 10 -> P (digit_char d) = true) -> all_digits ds = true ->
  str_all P (digits_str ds) = true.
Proof.
  intros HP. induction ds as [|d ds IH]; [done|].
  intros [Hd Hds]%all_digits_cons. cbn [digits_str str_all]. rewrite HP, IH; done.
Qed.

Lemma plain_dec_all (P : ascii -> bool) neg ds1 ds2 :
  P "-"%char = true -> P "."%char = true -> (forall d, d < 10 -> P (digit_char d) = true) ->
  all_digits ds1 = true -> all_digits ds2 = true -> str_all P (plain_dec neg ds1 ds2) = true.
Proof.
  intros Hm Hp HP H1 H2. unfold plain_dec.
  rewrite !str_all_app, !digits_str_all by done. destruct neg; simpl; by rewrite ?Hm, ?Hp.
Qed.

Lemma plain_int_all (P : ascii -> bool) neg ds :
  P "-"%char = true -> (forall d, d < 10 -> P (digit_char d) = true) ->
  all_digits ds = true -> str_all P (plain_int neg ds) = true.
Proof.
  intros Hm HP H. unfold plain_int. rewrite str_all_app, digits_str_all by done.
  destruct neg; simpl; by rewrite ?Hm.
Qed.

Lemma not_space_digit d : d < 10 -> negb (py_isspace (digit_char d)) = true.
Proof. intros Hd. by rewrite digit_char_space. Qed.

(** The sign of a printed number, and what follows it. *)
Lemma sign_plain neg ds t :
  ds <> [] -> all_digits ds = true ->
  sign (sign_str neg ++ digits_str ds ++ t) = (neg, (digits_str ds ++ t)%string).
Proof.
  destruct ds as [|d ds]; intros Hne Hds; [done|]. apply all_digits_cons in Hds as [Hd _].
  destruct neg; [reflexivity|]. cbn [sign_str digits_str]. rewrite string_app_nil_l, string_app_cons.
  cbn [sign]. by rewrite !digit_char_neq by done.
Qed.

(** A printed number is none of [inf], [infinity] and [nan]. *)
Lemma lower_plain ds t c y :
  ds <> [] -> all_digits ds = true -> is_digit c = false ->
  String.eqb (str_lower (digits_str ds ++ t)) (String c y) = false.
Proof.
  destruct ds as [|d ds]; intros Hne Hds Hc; [done|]. apply all_digits_cons in Hds as [Hd _].
  apply String.eqb_neq. cbn [digits_str]. rewrite string_app_cons. cbn [str_lower].
  rewrite digit_char_lower by done. intros [= Heq _]. by rewrite <- Heq, digit_char_digit in Hc.
Qed.

(** [number] on text that starts with a digit takes its second branch. *)
Lemma number_digit d x :
  d < 10 ->
  number (String (digit_char d) x) =
  '(i, _, rest) ← digitpart (String (digit_char d) x);
  match rest with
  | String "." r =>
      match digitpart r with
      | Some (f, nf, rest') => Some ((i * 10 ^ N.of_nat nf + f)%N, nf, rest')
      | None => Some (i, 0, r)
      end
  | _ => Some (i, 0, rest)
  end.
Proof. intros Hd. do 10 (destruct d as [|d]; [reflexivity|]). lia. Qed.

(** [number] on [digits "." digits]. *)
Lemma number_plain ds1 ds2 :
  ds1 <> [] -> ds2 <> [] -> all_digits ds1 = true -> all_digits ds2 = true ->
  number (digits_str ds1 ++ "." ++ digits_str ds2) =
  Some ((digits_N ds1 * 10 ^ N.of_nat (length ds2) + digits_N ds2)%N, length ds2, EmptyString).
Proof.
  destruct ds1 as [|d r]; intros H1 H2 Hd1 Hd2; [done|].
  pose proof Hd1 as [Hd _]%all_digits_cons.
  cbn [digits_str]. rewrite string_app_cons, number_digit by done. rewrite <- string_app_cons.
  change (String (digit_char d) (digits_str r)) with (digits_str (d :: r)).
  rewrite digitpart_str by done. cbn [mbind option_bind].
  rewrite string_app_cons, string_app_nil_l, <- (string_app_nil_r (digits_str ds2)).
  by rewrite digitpart_str.
Qed.

(** ** Bounds of the digit groups *)

Lemma is_digit_val c : is_digit c = true -> (digit_val c < 10)%N.
Proof.
  unfold is_digit, digit_val. intros [H1 H2]%andb_prop.
  apply Nat.leb_le in H1, H2. lia.
Qed.

(** The continuation stops and returns its state unchanged. *)
Local Ltac digits_stop :=
  intros [= <- <- <-]; rewrite Nat.sub_diag; simpl; lia.

(** The value read after [acc] is below [(acc + 1) * 10 ^ d] for the [d]
    digits read, and each digit consumes at least one character. *)
Lemma digits_more_bound L s acc k v k' rest :
  String.length s <= L -> digits_more s acc k = (v, k', rest) ->
  k <= k' /\ (v < (acc + 1) * 10 ^ N.of_nat (k' - k))%N /\
  k' - k + String.length rest <= String.length s.
Proof.
  revert s acc k. induction L as [|L IH]; intros s acc k Hs.
  { destruct s; [|simpl in Hs; lia]. simpl. digits_stop. }
  destruct s as [|c r]; simpl; [digits_stop|].
  destruct (is_digit c) eqn:Ec.
  - intros Hd. simpl in Hs.
    destruct (IH r _ _ ltac:(lia) Hd) as (Hk & Hv & Hl).
    pose proof (is_digit_val c Ec).
    replace (k' - k) with (S (k' - S k)) by lia. rewrite Nat2N.inj_succ, N.pow_succ_r'.
    split_and!; [lia|nia|lia].
  - destruct (Ascii.eqb c "_"); [|digits_stop].
    destruct r as [|c' r']; [digits_stop|].
    destruct (is_digit c') eqn:Ec'; [|digits_stop].
    intros Hd. simpl in Hs.
    destruct (IH r' _ _ ltac:(lia) Hd) as (Hk & Hv & Hl).
    pose proof (is_digit_val c' Ec').
    replace (k' - k) with (S (k' - S k)) by lia. rewrite Nat2N.inj_succ, N.pow_succ_r'.
    simpl. split_and!; [lia|nia|lia].
Qed.

Lemma digits_acc_mono acc ds : (acc * 10 ^ N.of_nat (length ds) <= digits_acc acc ds)%N.
Proof. rewrite digits_acc_app. lia. Qed.

(** [n] digits are worth less than [10 ^ n]. *)
Lemma digits_N_bound ds : all_digits ds = true -> (digits_N ds < 10 ^ N.of_nat (length ds))%N.
Proof.
  induction ds as [|d ds IH] using rev_ind; [intros _; reflexivity|].
  intros [Hds [Hd _]%all_digits_cons]%all_digits_app.
  rewrite digits_N_app, length_app, Nat2N.inj_add, N.pow_add_r. cbn [length digits_N digits_acc foldl].
  specialize (IH Hds). nia.
Qed.

(** Digits with a non-zero first one are worth at least [10 ^ (n - 1)]. *)
Lemma digits_N_lower d ds : 0 < d -> (10 ^ N.of_nat (length ds) <= digits_N (d :: ds))%N.
Proof.
  intros Hd. unfold digits_N. cbn [digits_acc foldl].
  pose proof (digits_acc_mono (0 * 10 + N.of_nat d)%N ds). unfold digits_acc in H. nia.
Qed.

Lemma scaled_lt (M P A B : Z) : (0 < P -> M < A * P -> A < B -> M < B * P)%Z.
Proof. intros. nia. Qed.

Lemma pow10_le a b : a <= b -> (10 ^ Z.of_nat a <= 10 ^ Z.of_nat b)%Z.
Proof. intros. apply Z.pow_le_mono_r; lia. Qed.

Lemma pow10_pos a : (0 < 10 ^ Z.of_nat a)%Z.
Proof. apply Z.pow_pos_nonneg; lia. Qed.

Lemma digits_Z_bound ds : all_digits ds = true ->
  (Z.of_N (digits_N ds) < 10 ^ Z.of_nat (length ds))%Z.
Proof.
  intros H%digits_N_bound. apply N2Z.inj_lt in H. by rewrite N2Z.inj_pow, nat_N_Z in H.
Qed.

(** A printed decimal with at most 308 integer digits and at most 323
    fraction digits stays in range: [10 ^ 308] is below the overflow
    bound, and [10 ^ -323] above [2 ^ -1075]. *)
Lemma f64_round_in_range neg ds1 ds2 :
  all_digits ds1 = true -> all_digits ds2 = true ->
  length ds1 <= 308 -> length ds2 <= 323 ->
  f64_round (Dec neg (digits_N (ds1 ++ ds2)) (- Z.of_nat (length ds2))) =
  PFin (Dec neg (digits_N (ds1 ++ ds2)) (- Z.of_nat (length ds2))).
Proof.
  intros H1 H2 L1 L2.
  pose proof (digits_Z_bound (ds1 ++ ds2) (proj2 (all_digits_app _ _) (conj H1 H2))) as Hb.
  rewrite length_app, Nat2Z.inj_add, Z.pow_add_r in Hb by lia.
  pose proof (pow10_pos (length ds2)) as Hp.
  assert (Hm : (Z.of_N (digits_N (ds1 ++ ds2)) < 10 ^ Z.of_nat 308 * 10 ^ Z.of_nat (length ds2))%Z).
  { eapply Z.lt_le_trans; [exact Hb|]. apply Z.mul_le_mono_nonneg_r; [lia|]. by apply pow10_le. }
  unfold f64_round, dec_overflows, dec_underflows. cbn [dmant dexp dneg].
  destruct (Z.leb_spec 0 (- Z.of_nat (length ds2))) as [Ee|Ee].
  - assert (E0 : length ds2 = 0) by lia. rewrite E0 in Hm |- *. cbn [Z.of_nat Z.opp] in Hm |- *.
    rewrite Z.pow_0_r, Z.mul_1_r in Hm. rewrite Z.pow_0_r, Z.mul_1_r.
    destruct (Z.leb_spec f64_overflow_bound (Z.of_N (digits_N (ds1 ++ ds2)))) as [Ho|]; [|done].
    exfalso. apply (Z.lt_irrefl f64_overflow_bound). eapply Z.le_lt_trans; [exact Ho|].
    eapply Z.lt_trans; [exact Hm|reflexivity].
  - rewrite Z.opp_involutive.
    destruct (Z.leb_spec (f64_overflow_bound * 10 ^ Z.of_nat (length ds2)) (Z.of_N (digits_N (ds1 ++ ds2)))) as [Ho|_].
    { exfalso. pose proof (scaled_lt _ _ _ f64_overflow_bound Hp Hm ltac:(reflexivity)). lia. }
    destruct (Z.ltb_spec 0 (Z.of_N (digits_N (ds1 ++ ds2)))) as [Hpos|]; cbn [andb]; [|done].
    destruct (Z.leb_spec (Z.of_N (digits_N (ds1 ++ ds2)) * 2 ^ 1075) (10 ^ Z.of_nat (length ds2))) as [Hu|]; [|done].
    exfalso. pose proof (pow10_le _ _ L2) as H3.
    assert (H4 : (10 ^ Z.of_nat 323 < 1 * 2 ^ 1075)%Z) by reflexivity.
    assert (H5 : (1 * 2 ^ 1075 <= Z.of_N (digits_N (ds1 ++ ds2)) * 2 ^ 1075)%Z)
      by (apply Z.mul_le_mono_nonneg_r; [apply Z.pow_nonneg; lia|lia]).
    lia.
Qed.

(** A printed decimal whose integer part has at least 310 digits, the
    first non-zero, is at least [10 ^ 309]: [float] gives an infinity. *)
Lemma f64_round_overflow neg d ds1 ds2 :
  0 < d -> 309 <= length ds1 ->
  f64_round (Dec neg (digits_N ((d :: ds1) ++ ds2)) (- Z.of_nat (length ds2))) = PInf neg.
Proof.
  intros Hd L. pose proof (digits_N_lower d (ds1 ++ ds2) Hd) as Hl. apply N2Z.inj_le in Hl.
  rewrite N2Z.inj_pow, nat_N_Z, length_app, Nat2Z.inj_add, Z.pow_add_r in Hl by lia.
  pose proof (pow10_pos (length ds2)) as Hp.
  assert (Hm : (10 ^ Z.of_nat 309 * 10 ^ Z.of_nat (length ds2) <= Z.of_N (digits_N ((d :: ds1) ++ ds2)))%Z).
  { eapply Z.le_trans; [|exact Hl]. apply Z.mul_le_mono_nonneg_r; [lia|]. by apply pow10_le. }
  unfold f64_round, dec_overflows. cbn [dmant dexp dneg].
  destruct (Z.leb_spec 0 (- Z.of_nat (length ds2))) as [Ee|Ee].
  - assert (E0 : length ds2 = 0) by lia. rewrite E0 in Hm |- *. cbn [Z.of_nat Z.opp] in Hm |- *.
    rewrite Z.pow_0_r, Z.mul_1_r in Hm. rewrite Z.pow_0_r, Z.mul_1_r.
    destruct (Z.leb_spec f64_overflow_bound (Z.of_N (digits_N ((d :: ds1) ++ ds2)))) as [|Ho]; [done|].
    exfalso. assert (Hc : (f64_overflow_bound < 10 ^ Z.of_nat 309)%Z) by reflexivity. lia.
  - rewrite Z.opp_involutive.
    destruct (Z.leb_spec (f64_overflow_bound * 10 ^ Z.of_nat (length ds2))
                (Z.of_N (digits_N ((d :: ds1) ++ ds2)))) as [|Ho]; [done|].
    exfalso. assert (Hc : (f64_overflow_bound * 10 ^ Z.of_nat (length ds2) <= 10 ^ Z.of_nat 309 * 10 ^ Z.of_nat (length ds2))%Z).
    { apply Z.mul_le_mono_nonneg_r; [lia|]. apply Z.lt_le_incl. reflexivity. }
    lia.
Qed.

(** ** Properties *)

(** A digit group of [float] and [int] ([digitpart], with its
    optional underscores) reads at least one digit, its value is below
    [10 ^ n] for the [n] digits it read, and those digits and the rest of
    the text fit in the text: the mantissa of a parsed number is bounded
    by the length of what was read. *)
Theorem digitpart_bound s v n rest :
  digitpart s = Some (v, n, rest) ->
  1 <= n /\ (v < 10 ^ N.of_nat n)%N /\ n + String.length rest <= String.length s.
Proof.
  destruct s as [|c r]; simpl; [done|]. destruct (is_digit c) eqn:Ec; [|done].
  intros [= Hd]. destruct (digits_more_bound _ r _ 1 v n rest (le_n _) Hd) as (Hk & Hv & Hl).
  pose proof (is_digit_val c Ec).
  replace n with (S (n - 1)) by lia. rewrite Nat2N.inj_succ, N.pow_succ_r'. split_and!; [lia|nia|lia].
Qed.

(** [int(x)] reads back every integer written as an optional
    minus sign followed by decimal digits: the value of the digits,
    negated after a minus sign. *)
Theorem py_int_str_plain neg ds :
  ds <> [] -> all_digits ds = true -> length ds <= int_max_str_digits ->
  py_int_str (plain_int neg ds) =
  Ok (if neg then - Z.of_N (digits_N ds) else Z.of_N (digits_N ds))%Z.
Proof.
  intros Hne Hds Hn. unfold py_int_str.
  rewrite strip_none by (apply plain_int_all; [reflexivity|apply not_space_digit|done]).
  unfold int_value, plain_int. rewrite <- (string_app_nil_r (digits_str ds)), sign_plain by done.
  cbn beta iota. rewrite digitpart_str by done. cbn iota.
  by rewrite (proj2 (Nat.leb_le _ _) Hn).
Qed.

(** [int(x)] refuses every integer written with more than 4300 digits. *)
Lemma py_int_str_long neg ds :
  all_digits ds = true -> int_max_str_digits < length ds ->
  py_int_str (plain_int neg ds) = Err (int_limit_error (length ds)).
Proof.
  intros Hds Hn. destruct ds as [|d ds']; [cbn in Hn; lia|]. unfold py_int_str.
  rewrite strip_none by (apply plain_int_all; [reflexivity|apply not_space_digit|done]).
  unfold int_value, plain_int. rewrite <- (string_app_nil_r (digits_str _)), sign_plain by done.
  cbn beta iota. rewrite digitpart_str by done. cbn iota.
  by rewrite (proj2 (Nat.leb_gt _ _) Hn).
Qed.

(** [float(x)] reads back every number written as an optional
    minus sign, integer digits, a point and fraction digits, such as the
    "150.00" and "-1.25" of the provider: the exact decimal whose mantissa
    is all the digits and whose exponent is minus the number of fraction
    digits. *)
Theorem py_float_str_plain neg ds1 ds2 :
  ds1 <> [] -> ds2 <> [] -> all_digits ds1 = true -> all_digits ds2 = true ->
  py_float_str (plain_dec neg ds1 ds2) =
  Ok (f64_round (Dec neg (digits_N (ds1 ++ ds2)) (- Z.of_nat (length ds2)))).
Proof.
  intros H1 H2 Hd1 Hd2. unfold py_float_str.
  rewrite strip_none by (apply plain_dec_all; [reflexivity|reflexivity|apply not_space_digit|done|done]).
  unfold float_value, plain_dec. rewrite sign_plain by done. cbv zeta iota beta.
  rewrite !lower_plain by first [done|reflexivity]. cbn [orb].
  rewrite number_plain by done. cbn [mbind option_bind exponent].
  by rewrite digits_N_app, Z.sub_0_l.
Qed.

(** ** Witnesses *)

Lemma py_int_str_plain_witness :
  py_int_str (plain_int false [5;0;0;0;0;0;0;0]) = Ok (Z.of_N (digits_N [5;0;0;0;0;0;0;0])).
Proof. apply (py_int_str_plain false); [discriminate|reflexivity|vm_compute; lia]. Defined.

Lemma py_float_str_plain_witness :
  py_float_str (plain_dec true [1] [2;5]) =
  Ok (f64_round (Dec true (digits_N ([1] ++ [2;5])) (- Z.of_nat (length [2;5])))).
Proof. apply py_float_str_plain; first [discriminate|reflexivity]. Defined.

Lemma digitpart_bound_witness :
  1 <= 5 /\ (12345 < 10 ^ N.of_nat 5)%N /\ 5 + String.length "e3" <= String.length "1_2345e3".
Proof. apply (digitpart_bound "1_2345e3"). reflexivity. Defined.
