(* ===== verification/Quote.v ===== *)
(** * The quote normalizer: [get_stock_quote] (server.py lines 385-417)

    The tool sends [GET https://www.alphavantage.co/query?...] and reads the
    answer as JSON (lines 396-399).  The HTTP exchange is not modelled: the
    answer [data] is an input.  The rest of the body is modelled statement
    by statement:

    - line 401: ["Global Quote" not in data or not data["Global Quote"]]
      raises the ValueError "Invalid symbol or API limit reached: ..."; the
      [in] test itself raises a TypeError when [data] is not a container;
    - line 404: [quote = data["Global Quote"]];
    - lines 406-417: the result dict, whose values Python evaluates in
      order, so the first failing conversion decides the exception.

    [mcp_result] is how the FastMCP decorator of line 385 hands the result to
    the dashboard: the dict as [structuredContent], or an error result
    without one.  [gq_payload] builds the answers whose numbers are printed
    the provider's way, on which the tool's result is proved in general. *)

From S2P Require Import Prelude Json Text PyNum.

(** The dict built at lines 406-417. *)
Record stock_quote := StockQuote {
  q_symbol : json;
  q_name : json;
  q_price : pyfloat;
  q_change : pyfloat;
  q_change_percent : pyfloat;
  q_open : pyfloat;
  q_high : pyfloat;
  q_low : pyfloat;
  q_volume : Z;
  q_latest_trading_day : json
}.

(** [x.rstrip("%")]: a method of [str] only. *)
Definition py_rstrip_percent (x : json) : pyres string :=
  match x with
  | JStr s => Ok (rstrip_percent s)
  | _ => raise AttributeError
  end.

Definition invalid_symbol (symbol : string) : py_exc :=
  ValueError ("Invalid symbol or API limit reached: " ++ symbol).

(** The body of [get_stock_quote] after [response.json()], lines 401-417. *)
Definition get_stock_quote (symbol : string) (data : json) : pyres stock_quote :=
  has_gq ← py_contains "Global Quote" data;
  if negb has_gq then raise (invalid_symbol symbol) else
  gq ← py_getitem data "Global Quote";
  if negb (py_truthy gq) then raise (invalid_symbol symbol) else
  quote ← py_getitem data "Global Quote";
  sym ← py_getitem quote "01. symbol";
  name ← py_getitem quote "01. symbol";
  price ← py_getitem quote "05. price" ≫= py_float;
  change ← py_getitem quote "09. change" ≫= py_float;
  pct ← py_getitem quote "10. change percent" ≫= py_rstrip_percent;
  change_percent ← py_float_str pct;
  open ← py_getitem quote "02. open" ≫= py_float;
  high ← py_getitem quote "03. high" ≫= py_float;
  low ← py_getitem quote "04. low" ≫= py_float;
  volume ← py_getitem quote "06. volume" ≫= py_int;
  day ← py_getitem quote "07. latest trading day";
  Ok (StockQuote sym name price change change_percent open high low volume day).

(** A float as the result is serialized: finite values as numbers;
    infinities and NaN, which JSON lacks, as [null]. *)
Definition float_json (f : pyfloat) : json :=
  match f with PFin _ => JFloat f | _ => JNull end.

(** The dict as the dashboard receives it in [structuredContent]. *)
Definition quote_json (q : stock_quote) : json :=
  JObj [("symbol", q_symbol q); ("name", q_name q);
        ("price", float_json (q_price q)); ("change", float_json (q_change q));
        ("change_percent", float_json (q_change_percent q));
        ("open", float_json (q_open q)); ("high", float_json (q_high q));
        ("low", float_json (q_low q)); ("volume", JInt (q_volume q));
        ("latest_trading_day", q_latest_trading_day q)].

(** The [structuredContent] of the MCP result: the dict, or nothing when
    the tool raised (FastMCP turns the exception into an error result). *)
Definition mcp_result (r : pyres stock_quote) : jsval :=
  match r with
  | Ok q => Some (quote_json q)
  | Err _ => None
  end.

(** The URL of line 397: the symbol is pasted in as it is. *)
Definition quote_url (symbol api_key : string) : string :=
  "https://www.alphavantage.co/query?function=GLOBAL_QUOTE&symbol=" ++ symbol ++
  "&apikey=" ++ api_key.

(** ** A sample answer *)

(** The Alpha Vantage answer for AAPL used by the spec's example. *)
Definition aapl_response : json :=
  JObj [("Global Quote",
    JObj [("01. symbol", JStr "AAPL"); ("02. open", JStr "149.00");
          ("03. high", JStr "151.00"); ("04. low", JStr "148.50");
          ("05. price", JStr "150.00"); ("06. volume", JStr "50000000");
          ("07. latest trading day", JStr "2024-01-02");
          ("08. previous close", JStr "148.75"); ("09. change", JStr "1.25");
          ("10. change percent", JStr "0.84%")])].

(** An answer the spec's invariant rules out: a negative price, and a low
    above the high. *)
Definition inverted_response : json :=
  JObj [("Global Quote",
    JObj [("01. symbol", JStr "xyz"); ("02. open", JStr "1.00");
          ("03. high", JStr "1.00"); ("04. low", JStr "10.00");
          ("05. price", JStr "-5.00"); ("06. volume", JStr "-3");
          ("07. latest trading day", JStr "someday");
          ("09. change", JStr "0"); ("10. change percent", JStr "0%")])].

(** ** Well-formed answers *)

(** A number as the provider prints it: a sign, integer digits and
    fraction digits. *)
Record raw_dec := RawDec { r_neg : bool; r_int : list nat; r_frac : list nat }.

Definition raw_ok (r : raw_dec) : bool :=
  negb (bool_decide (r_int r = [])) && negb (bool_decide (r_frac r = [])) &&
  all_digits (r_int r) && all_digits (r_frac r).

Definition raw_str (r : raw_dec) : string := plain_dec (r_neg r) (r_int r) (r_frac r).

(** A number inside the range of binary64 with no rounding to zero or
    to infinity: at most 308 integer digits and 323 fraction digits. *)
Definition raw_in_range (r : raw_dec) : bool :=
  (length (r_int r) <=? 308) && (length (r_frac r) <=? 323).

(** The exact decimal the text denotes. *)
Definition raw_val (r : raw_dec) : pyfloat :=
  PFin (Dec (r_neg r) (digits_N (r_int r ++ r_frac r)) (- Z.of_nat (length (r_frac r)))).

Definition int_val (neg : bool) (ds : list nat) : Z :=
  if neg then (- Z.of_N (digits_N ds))%Z else Z.of_N (digits_N ds).

(** A GLOBAL_QUOTE answer with every field printed by the provider's
    conventions: decimals with a point, the percent change followed by
    ["%"], the volume as an integer. *)
Definition gq_payload (sym : string) (op hi lo pr : raw_dec) (vneg : bool) (vol : list nat)
    (day : string) (prev ch pct : raw_dec) : json :=
  JObj [("Global Quote",
    JObj [("01. symbol", JStr sym); ("02. open", JStr (raw_str op));
          ("03. high", JStr (raw_str hi)); ("04. low", JStr (raw_str lo));
          ("05. price", JStr (raw_str pr)); ("06. volume", JStr (plain_int vneg vol));
          ("07. latest trading day", JStr day);
          ("08. previous close", JStr (raw_str prev)); ("09. change", JStr (raw_str ch));
          ("10. change percent", JStr (raw_str pct ++ "%"))])].

(** ** Lemmas *)

(** Run the binds of [get_stock_quote] in a hypothesis [get_stock_quote _ _
    = Ok _], one [destruct] per statement. *)
Ltac gsq_run H :=
  repeat match type of H with
  | (?m ≫= _) = _ =>
      let E := fresh "E" in
      destruct m eqn:E;
      [rewrite res_bind_ok in H; cbv beta in H
      |rewrite res_bind_err in H; discriminate H]
  | (if ?b then _ else _) = _ =>
      let E := fresh "E" in destruct b eqn:E; try discriminate H
  end.

#[local] Arguments raw_str : simpl never.
#[local] Arguments plain_int : simpl never.
#[local] Arguments py_float_str : simpl never.
#[local] Arguments py_int_str : simpl never.
#[local] Arguments rstrip_percent : simpl never.

Lemma raw_ok_inv r :
  raw_ok r = true ->
  r_int r <> [] /\ r_frac r <> [] /\ all_digits (r_int r) = true /\ all_digits (r_frac r) = true.
Proof.
  unfold raw_ok. rewrite !andb_true_iff, !negb_true_iff, !bool_decide_eq_false. tauto.
Qed.

Lemma raw_float r :
  raw_ok r = true -> raw_in_range r = true -> py_float_str (raw_str r) = Ok (raw_val r).
Proof.
  intros (? & ? & ? & ?)%raw_ok_inv [L1 L2]%andb_prop. apply Nat.leb_le in L1, L2.
  unfold raw_str. rewrite py_float_str_plain by done. f_equal. by apply f64_round_in_range.
Qed.

Lemma digit_char_not_percent d : d < 10 -> negb (is_percent (digit_char d)) = true.
Proof. intros Hd. do 10 (destruct d as [|d]; [reflexivity|]). lia. Qed.

Lemma raw_percent r : raw_ok r = true -> rstrip_percent (raw_str r ++ "%") = raw_str r.
Proof.
  intros (? & ? & ? & ?)%raw_ok_inv. unfold rstrip_percent.
  rewrite rstrip_app_r by reflexivity. apply rstrip_none.
  apply plain_dec_all; [reflexivity|reflexivity|apply digit_char_not_percent|done|done].
Qed.

(** A price beyond the range of binary64, printed by the provider's
    conventions, reads as an infinity. *)
Lemma raw_float_overflow neg d ds1 ds2 :
  0 < d < 10 -> all_digits ds1 = true -> 309 <= length ds1 -> ds2 <> [] -> all_digits ds2 = true ->
  py_float_str (raw_str (RawDec neg (d :: ds1) ds2)) = Ok (PInf neg).
Proof.
  intros Hd H1 L H2n H2. unfold raw_str. cbn [r_neg r_int r_frac].
  rewrite py_float_str_plain by (done || (apply all_digits_cons; split; [lia|done])).
  f_equal. apply f64_round_overflow; lia.
Qed.

(** The answer of [get_stock_quote_wellformed] with such a price. *)
Lemma get_stock_quote_price_inf request sym op hi lo neg d ds1 ds2 vneg vol day prev ch pct :
  forallb raw_ok [op; hi; lo; ch; pct] = true -> forallb raw_in_range [op; hi; lo; ch; pct] = true ->
  0 < d < 10 -> all_digits ds1 = true -> 309 <= length ds1 -> ds2 <> [] -> all_digits ds2 = true ->
  vol <> [] -> all_digits vol = true -> length vol <= int_max_str_digits ->
  get_stock_quote request (gq_payload sym op hi lo (RawDec neg (d :: ds1) ds2) vneg vol day prev ch pct) =
  Ok (StockQuote (JStr sym) (JStr sym) (PInf neg) (raw_val ch) (raw_val pct)
        (raw_val op) (raw_val hi) (raw_val lo) (int_val vneg vol) (JStr day)).
Proof.
  cbn [forallb]. rewrite !andb_true_iff.
  intros (Hop & Hhi & Hlo & Hch & Hpct & _) (Rop & Rhi & Rlo & Rch & Rpct & _) Hd H1 L H2n H2 Hv Hvd Hn.
  unfold get_stock_quote, gq_payload, int_val. simpl.
  rewrite raw_float_overflow by done.
  rewrite raw_percent, !raw_float, py_int_str_plain by done. reflexivity.
Qed.

(** ** Properties *)

(** On the Alpha Vantage answer for AAPL of the spec's example
    (price "150.00", change "1.25", change percent "0.84%", open "149.00",
    high "151.00", low "148.50", volume "50000000") the tool returns the
    dict with those values as exact decimals, the percent sign stripped,
    the volume an integer, and the name equal to the symbol. *)
Example get_stock_quote_aapl :
  get_stock_quote "AAPL" aapl_response =
  Ok (StockQuote (JStr "AAPL") (JStr "AAPL")
        (PFin (Dec false 15000 (-2))) (PFin (Dec false 125 (-2)))
        (PFin (Dec false 84 (-2))) (PFin (Dec false 14900 (-2)))
        (PFin (Dec false 15100 (-2))) (PFin (Dec false 14850 (-2)))
        50000000 (JStr "2024-01-02")).
Proof. vm_compute. reflexivity. Qed.

(** Claim C22: when the answer has no ["Global Quote"] member, or an empty or
    otherwise falsy one (what Alpha Vantage sends for an unknown symbol or
    a rate-limit note), the tool raises the ValueError "Invalid symbol or
    API limit reached: <symbol>", whatever else the answer holds. *)
Theorem get_stock_quote_no_envelope symbol kvs :
  (py_lookup "Global Quote" kvs = None \/
   exists v, py_lookup "Global Quote" kvs = Some v /\ py_truthy v = false) ->
  get_stock_quote symbol (JObj kvs) = Err (invalid_symbol symbol).
Proof.
  unfold get_stock_quote. simpl. intros [Hn|(v & Hv & Hf)].
  - by rewrite Hn.
  - rewrite Hv. simpl. by rewrite Hf.
Qed.

(** Claim C21: on every GLOBAL_QUOTE answer whose numbers are printed the
    way the provider prints them (an optional minus sign, digits, a point
    and digits; the percent change followed by one "%"; the volume an
    optional minus sign and digits) and stay inside the range of binary64
    and [int]'s digit limit, whatever symbol was requested, the tool
    returns the dict whose numbers are exactly the decimals the text
    denotes, whose name and symbol are the answer's symbol, and whose
    trading day is passed through.  Nothing is checked: a negative price
    or volume, a low above the high and a lower-case symbol all pass. *)
Theorem get_stock_quote_wellformed request sym op hi lo pr vneg vol day prev ch pct :
  forallb raw_ok [op; hi; lo; pr; ch; pct] = true ->
  forallb raw_in_range [op; hi; lo; pr; ch; pct] = true ->
  vol <> [] -> all_digits vol = true -> length vol <= int_max_str_digits ->
  get_stock_quote request (gq_payload sym op hi lo pr vneg vol day prev ch pct) =
  Ok (StockQuote (JStr sym) (JStr sym) (raw_val pr) (raw_val ch) (raw_val pct)
        (raw_val op) (raw_val hi) (raw_val lo) (int_val vneg vol) (JStr day)).
Proof.
  cbn [forallb]. rewrite !andb_true_iff.
  intros (Hop & Hhi & Hlo & Hpr & Hch & Hpct & _) (Rop & Rhi & Rlo & Rpr & Rch & Rpct & _) Hv Hvd Hn.
  unfold get_stock_quote, gq_payload, int_val. simpl.
  rewrite raw_percent, !raw_float, py_int_str_plain by done. reflexivity.
Qed.

(** Claim C23: [int]'s digit limit.  On an answer otherwise as in
    [get_stock_quote_wellformed], a volume written with more than 4300
    digits makes the tool raise CPython's ValueError "Exceeds the limit
    (4300 digits) for integer string conversion ...", after every float
    field has been read. *)
Theorem get_stock_quote_volume_limit request sym op hi lo pr vneg vol day prev ch pct :
  forallb raw_ok [op; hi; lo; pr; ch; pct] = true ->
  forallb raw_in_range [op; hi; lo; pr; ch; pct] = true ->
  all_digits vol = true -> int_max_str_digits < length vol ->
  get_stock_quote request (gq_payload sym op hi lo pr vneg vol day prev ch pct) =
  Err (int_limit_error (length vol)).
Proof.
  cbn [forallb]. rewrite !andb_true_iff.
  intros (Hop & Hhi & Hlo & Hpr & Hch & Hpct & _) (Rop & Rhi & Rlo & Rpr & Rch & Rpct & _) Hvd Hn.
  unfold get_stock_quote, gq_payload. simpl.
  rewrite raw_percent, !raw_float, py_int_str_long by done. reflexivity.
Qed.

(** Claim C31: the dict's ["name"] is always its ["symbol"]: the tool never
    reads a name from the answer. *)
Theorem get_stock_quote_name_is_symbol symbol data q :
  get_stock_quote symbol data = Ok q -> q_name q = q_symbol q.
Proof. unfold get_stock_quote. intros H. gsq_run H. by simplify_eq/=. Qed.

(** A successful result does not depend on the symbol the tool
    was asked for (it appears only in the error message): the ["symbol"]
    of the dict is the answer's ["01. symbol"], which nothing compares
    with the request. *)
Theorem get_stock_quote_request_irrelevant s1 s2 data q :
  get_stock_quote s1 data = Ok q -> get_stock_quote s2 data = Ok q.
Proof.
  unfold get_stock_quote.
  destruct (py_contains _ data) as [[]|]; simpl; try discriminate.
  destruct (py_getitem data _) as [gq|]; simpl; try discriminate.
  by destruct (py_truthy gq).
Qed.

(** The tool validates nothing the spec's Quote invariant
    requires: it returns a quote with a negative price, a low above the
    high, a negative volume and a lower-case symbol. *)
Example get_stock_quote_no_validation :
  get_stock_quote "XYZ" inverted_response =
  Ok (StockQuote (JStr "xyz") (JStr "xyz")
        (PFin (Dec true 500 (-2))) (PFin (Dec false 0 0))
        (PFin (Dec false 0 0)) (PFin (Dec false 100 (-2)))
        (PFin (Dec false 100 (-2))) (PFin (Dec false 1000 (-2)))
        (-3) (JStr "someday")).
Proof. vm_compute. reflexivity. Qed.

(** ** Witnesses *)

Lemma get_stock_quote_no_envelope_witness :
  get_stock_quote "ZZZZ" (JObj [("Note", JStr "API call frequency exceeded");
                                ("Global Quote", JObj [])]) =
  Err (invalid_symbol "ZZZZ").
Proof.
  apply get_stock_quote_no_envelope. right. eexists. split; reflexivity.
Defined.

Lemma get_stock_quote_name_is_symbol_witness :
  q_name (StockQuote (JStr "AAPL") (JStr "AAPL")
        (PFin (Dec false 15000 (-2))) (PFin (Dec false 125 (-2)))
        (PFin (Dec false 84 (-2))) (PFin (Dec false 14900 (-2)))
        (PFin (Dec false 15100 (-2))) (PFin (Dec false 14850 (-2)))
        50000000 (JStr "2024-01-02")) =
  q_symbol (StockQuote (JStr "AAPL") (JStr "AAPL")
        (PFin (Dec false 15000 (-2))) (PFin (Dec false 125 (-2)))
        (PFin (Dec false 84 (-2))) (PFin (Dec false 14900 (-2)))
        (PFin (Dec false 15100 (-2))) (PFin (Dec false 14850 (-2)))
        50000000 (JStr "2024-01-02")).
Proof.
  apply (get_stock_quote_name_is_symbol "AAPL" aapl_response).
  vm_compute. reflexivity.
Defined.

Lemma get_stock_quote_request_irrelevant_witness :
  get_stock_quote "MSFT" aapl_response =
  Ok (StockQuote (JStr "AAPL") (JStr "AAPL")
        (PFin (Dec false 15000 (-2))) (PFin (Dec false 125 (-2)))
        (PFin (Dec false 84 (-2))) (PFin (Dec false 14900 (-2)))
        (PFin (Dec false 15100 (-2))) (PFin (Dec false 14850 (-2)))
        50000000 (JStr "2024-01-02")).
Proof.
  apply (get_stock_quote_request_irrelevant "AAPL").
  vm_compute. reflexivity.
Defined.

Lemma get_stock_quote_wellformed_witness :
  get_stock_quote "AAPL"
    (gq_payload "AAPL" (RawDec false [1;4;9] [0;0]) (RawDec false [1;5;1] [0;0])
       (RawDec false [1;4;8] [5;0]) (RawDec false [1;5;0] [0;0]) false [5;0;0;0;0;0;0;0]
       "2024-01-02" (RawDec false [1;4;8] [7;5]) (RawDec false [1] [2;5]) (RawDec false [0] [8;4])) =
  Ok (StockQuote (JStr "AAPL") (JStr "AAPL") (raw_val (RawDec false [1;5;0] [0;0]))
        (raw_val (RawDec false [1] [2;5])) (raw_val (RawDec false [0] [8;4]))
        (raw_val (RawDec false [1;4;9] [0;0])) (raw_val (RawDec false [1;5;1] [0;0]))
        (raw_val (RawDec false [1;4;8] [5;0])) (int_val false [5;0;0;0;0;0;0;0]) (JStr "2024-01-02")).
Proof.
  apply get_stock_quote_wellformed; [reflexivity|reflexivity|discriminate|reflexivity|vm_compute; lia].
Defined.

Lemma get_stock_quote_volume_limit_witness :
  get_stock_quote "AAPL"
    (gq_payload "AAPL" (RawDec false [1;4;9] [0;0]) (RawDec false [1;5;1] [0;0])
       (RawDec false [1;4;8] [5;0]) (RawDec false [1;5;0] [0;0]) false (repeat 5 4301)
       "2024-01-02" (RawDec false [1;4;8] [7;5]) (RawDec false [1] [2;5]) (RawDec false [0] [8;4])) =
  Err (int_limit_error (length (repeat 5 4301))).
Proof.
  apply get_stock_quote_volume_limit; [reflexivity|reflexivity|vm_compute; reflexivity|].
  rewrite repeat_length. vm_compute. lia.
Defined.
