(* ===== verification/Request.v ===== *)
(** * The request [get_stock_quote] sends (server.py lines 16, 396-399)

    The key comes from the environment with the default ["demo"] (line
    16).  The URL pastes the symbol and the key into the query string
    without encoding them (line 397).  The answer of [client.get(url)]
    is an input of the model, a function from URLs to JSON.  To say which
    parameters the provider receives, the file takes the query that
    [client.get] sends (after the first ["?"], up to the first ["#"],
    which starts the fragment a client keeps to itself) and splits it the
    way an [application/x-www-form-urlencoded] parser does: on ["&"],
    then at the first ["="].  Percent- and ["+"]-decoding are not
    modelled, so the theorems take the pieces they name from the
    unreserved characters of RFC 3986, which no decoding and no
    normalization by the client changes. *)

From S2P Require Import Prelude Json Text PyNum Quote.

(** [os.environ.get("ALPHA_VANTAGE_API_KEY", "demo")], line 16. *)
Definition api_key (environ : string -> option string) : string :=
  match environ "ALPHA_VANTAGE_API_KEY" with Some k => k | None => "demo" end.

(** The whole tool, lines 396-417: build the URL, fetch it, normalize. *)
Definition get_stock_quote_http (environ : string -> option string) (http_get : string -> json)
    (symbol : string) : pyres stock_quote :=
  get_stock_quote symbol (http_get (quote_url symbol (api_key environ))).

(** ** Reading a query string *)

(** The pieces of [s] between the occurrences of [c]. *)
Fixpoint split_on (c : ascii) (s : string) : list string :=
  match s with
  | EmptyString => [EmptyString]
  | String d r =>
      if Ascii.eqb d c then EmptyString :: split_on c r
      else match split_on c r with
           | [] => [String d EmptyString]
           | w :: ws => String d w :: ws
           end
  end.

(** A parameter's name and value: split at the first ["="]. *)
Fixpoint break_eq (s : string) : string * string :=
  match s with
  | EmptyString => (EmptyString, EmptyString)
  | String d r =>
      if Ascii.eqb d "=" then (EmptyString, r)
      else let '(a, b) := break_eq r in (String d a, b)
  end.

Definition query_params (q : string) : list (string * string) := break_eq <$> split_on "&" q.

(** A URL up to its fragment: the text before its first ["#"]. *)
Fixpoint before_fragment (s : string) : string :=
  match s with
  | EmptyString => EmptyString
  | String c r => if Ascii.eqb c "#" then EmptyString else String c (before_fragment r)
  end.

(** The query a client sends for a URL: the text after its first ["?"],
    without the fragment. *)
Fixpoint url_query (url : string) : string :=
  match url with
  | EmptyString => EmptyString
  | String c r => if Ascii.eqb c "?" then before_fragment r else url_query r
  end.

(** The query string of [quote_url]. *)
Definition quote_query (symbol key : string) : string :=
  "function=GLOBAL_QUOTE&symbol=" ++ symbol ++ "&apikey=" ++ key.

(** The unreserved characters of RFC 3986: letters, digits and [-._~]. *)
Definition is_unreserved (c : ascii) : bool :=
  let n := code c in
  ((65 <=? n) && (n <=? 90)) || ((97 <=? n) && (n <=? 122)) || ((48 <=? n) && (n <=? 57)) ||
  (n =? 45) || (n =? 46) || (n =? 95) || (n =? 126).

(** Text of unreserved characters only: it ends no name, value or query,
    and decodes to itself. *)
Definition plain_param (s : string) : bool := str_all is_unreserved s.

(** ** Lemmas *)

Lemma quote_url_query symbol key :
  quote_url symbol key = ("https://www.alphavantage.co/query?" ++ quote_query symbol key)%string.
Proof. reflexivity. Qed.

Lemma before_fragment_plain s t :
  str_all (fun d => negb (Ascii.eqb d "#")) s = true -> before_fragment (s ++ t) = (s ++ before_fragment t)%string.
Proof.
  induction s as [|d r IH]; simpl; intros H; [done|].
  apply andb_prop in H as [Hd Hr]. apply negb_true_iff in Hd. by rewrite Hd, IH.
Qed.

Lemma before_fragment_all s :
  str_all (fun d => negb (Ascii.eqb d "#")) s = true -> before_fragment s = s.
Proof. intros H. rewrite <- (string_app_nil_r s) at 1. rewrite before_fragment_plain by done. apply string_app_nil_r. Qed.

Lemma url_query_quote_url symbol key :
  str_all (fun d => negb (Ascii.eqb d "#")) symbol = true ->
  str_all (fun d => negb (Ascii.eqb d "#")) key = true ->
  url_query (quote_url symbol key) = quote_query symbol key.
Proof.
  intros Hs Hk. rewrite quote_url_query.
  transitivity (before_fragment (quote_query symbol key)); [reflexivity|]. unfold quote_query.
  rewrite (before_fragment_plain "function=GLOBAL_QUOTE&symbol=") by reflexivity.
  rewrite (before_fragment_plain symbol), (before_fragment_plain "&apikey="), before_fragment_all
    by first [done|reflexivity].
  reflexivity.
Qed.

Lemma split_on_plain c s t :
  str_all (fun d => negb (Ascii.eqb d c)) s = true ->
  split_on c (s ++ String c t) = s :: split_on c t.
Proof.
  induction s as [|d r IH]; simpl; intros H; [by rewrite Ascii.eqb_refl|].
  apply andb_prop in H as [Hd Hr]. apply negb_true_iff in Hd. rewrite Hd, IH by done. done.
Qed.

Lemma split_on_last c s :
  str_all (fun d => negb (Ascii.eqb d c)) s = true -> split_on c s = [s].
Proof.
  induction s as [|d r IH]; simpl; intros H; [done|].
  apply andb_prop in H as [Hd Hr]. apply negb_true_iff in Hd. by rewrite Hd, IH.
Qed.

Lemma break_eq_plain s t :
  str_all (fun d => negb (Ascii.eqb d "=")) s = true -> break_eq (s ++ String "=" t) = (s, t).
Proof.
  induction s as [|d r IH]; simpl; intros H; [done|].
  apply andb_prop in H as [Hd Hr]. apply negb_true_iff in Hd. by rewrite Hd, IH.
Qed.

Lemma str_all_impl (p q : ascii -> bool) s :
  (forall d, p d = true -> q d = true) -> str_all p s = true -> str_all q s = true.
Proof.
  intros Hpq. induction s as [|d r IH]; simpl; [done|].
  intros [Hd Hr]%andb_prop. by rewrite Hpq, IH.
Qed.

(** An unreserved character is none of the delimiters. *)
Lemma unreserved_not c d :
  is_unreserved d = true -> is_unreserved c = false -> negb (Ascii.eqb d c) = true.
Proof. intros Hd Hc. destruct (Ascii.eqb_spec d c) as [->|]; [congruence|done]. Qed.

Lemma plain_not c s :
  is_unreserved c = false -> plain_param s = true -> str_all (fun d => negb (Ascii.eqb d c)) s = true.
Proof. intros Hc. apply str_all_impl. intros d Hd. by apply unreserved_not. Qed.

Lemma plain_no_amp s : plain_param s = true -> str_all (fun d => negb (Ascii.eqb d "&")) s = true.
Proof. by apply plain_not. Qed.

Lemma plain_no_eq s : plain_param s = true -> str_all (fun d => negb (Ascii.eqb d "=")) s = true.
Proof. by apply plain_not. Qed.

Lemma plain_no_hash s : plain_param s = true -> str_all (fun d => negb (Ascii.eqb d "#")) s = true.
Proof. by apply plain_not. Qed.

(** One parameter followed by more, and the last parameter. *)
Lemma query_params_cons name value rest :
  plain_param name = true -> plain_param value = true ->
  query_params (name ++ String "=" (value ++ String "&" rest)) = (name, value) :: query_params rest.
Proof.
  intros Hn Hv. unfold query_params.
  replace (name ++ String "=" (value ++ String "&" rest))%string
    with ((name ++ String "=" value) ++ String "&" rest)%string
    by (by rewrite string_app_assoc, string_app_cons).
  rewrite split_on_plain.
  - cbn [fmap list_fmap]. by rewrite break_eq_plain by (by apply plain_no_eq).
  - rewrite str_all_app. cbn [str_all]. by rewrite !plain_no_amp.
Qed.

Lemma query_params_last name value :
  plain_param name = true -> plain_param value = true ->
  query_params (name ++ String "=" value) = [(name, value)].
Proof.
  intros Hn Hv. unfold query_params. rewrite split_on_last.
  - cbn [fmap list_fmap]. by rewrite break_eq_plain by (by apply plain_no_eq).
  - rewrite str_all_app. cbn [str_all]. by rewrite !plain_no_amp.
Qed.

(** ** Properties *)

(** Claim C34: for a symbol and a key of unreserved characters (the
    spec's symbols [^[A-Z0-9.\-]{1,10}$] among them), the request for the
    URL of line 397 carries exactly three parameters: the function, the
    symbol and the key, in that order and unchanged. *)
Theorem quote_url_params symbol key :
  plain_param symbol = true -> plain_param key = true ->
  query_params (url_query (quote_url symbol key)) =
  [("function", "GLOBAL_QUOTE"); ("symbol", symbol); ("apikey", key)].
Proof.
  intros Hs Hk. rewrite url_query_quote_url by (by apply plain_no_hash). unfold quote_query.
  change ("function=GLOBAL_QUOTE&symbol=" ++ symbol ++ "&apikey=" ++ key)%string
    with ("function" ++ String "=" ("GLOBAL_QUOTE" ++ String "&"
          ("symbol" ++ String "=" (symbol ++ String "&" ("apikey" ++ String "=" key)))))%string.
  by rewrite !query_params_cons, query_params_last.
Qed.

(** Claim C32: the symbol is not encoded, so a symbol that contains
    ["&apikey="] followed by unreserved text adds a parameter: the provider receives two [apikey]
    parameters, the one in the symbol first.  Any caller of the tool can
    choose the key, or another parameter, that the server sends. *)
Theorem quote_url_injection symbol injected key :
  plain_param symbol = true -> plain_param injected = true -> plain_param key = true ->
  query_params (url_query (quote_url (symbol ++ "&apikey=" ++ injected) key)) =
  [("function", "GLOBAL_QUOTE"); ("symbol", symbol); ("apikey", injected); ("apikey", key)].
Proof.
  intros Hs Hi Hk. rewrite url_query_quote_url; [unfold quote_query| |by apply plain_no_hash].
  2:{ rewrite !str_all_app, (plain_no_hash symbol Hs), (plain_no_hash injected Hi). reflexivity. }
  replace ("function=GLOBAL_QUOTE&symbol=" ++ (symbol ++ "&apikey=" ++ injected) ++ "&apikey=" ++ key)%string
    with ("function" ++ String "=" ("GLOBAL_QUOTE" ++ String "&"
          ("symbol" ++ String "=" (symbol ++ String "&" ("apikey" ++ String "=" (injected ++
           String "&" ("apikey" ++ String "=" key)))))))%string
    by (by rewrite !string_app_assoc).
  by rewrite !query_params_cons, query_params_last.
Qed.

(** Claim C33: a ["#"] in the symbol loses the key.  The symbol is pasted
    in unencoded (line 397), so a ["#"] in it starts the URL's fragment,
    which [client.get] does not send: for a symbol [s1#s2], whatever
    follows and whatever the key, the provider receives the function and
    the symbol [s1] only, and no [apikey]. *)
Theorem quote_url_fragment s1 s2 key :
  plain_param s1 = true ->
  query_params (url_query (quote_url (s1 ++ "#" ++ s2) key)) =
  [("function", "GLOBAL_QUOTE"); ("symbol", s1)].
Proof.
  intros Hs. rewrite quote_url_query.
  transitivity (query_params (before_fragment (quote_query (s1 ++ "#" ++ s2) key))); [reflexivity|].
  unfold quote_query.
  rewrite (before_fragment_plain "function=GLOBAL_QUOTE&symbol=") by reflexivity.
  rewrite string_app_assoc, before_fragment_plain by (by apply plain_no_hash).
  cbn [before_fragment]. rewrite string_app_nil_r.
  change ("function=GLOBAL_QUOTE&symbol=" ++ s1)%string
    with ("function" ++ String "=" ("GLOBAL_QUOTE" ++ String "&" ("symbol" ++ String "=" s1)))%string.
  by rewrite query_params_cons, query_params_last.
Qed.

(** ** Witnesses *)

Lemma quote_url_params_witness :
  query_params (url_query (quote_url "BRK.B" (api_key (fun _ => None)))) =
  [("function", "GLOBAL_QUOTE"); ("symbol", "BRK.B"); ("apikey", "demo")].
Proof. apply quote_url_params; reflexivity. Defined.

Lemma quote_url_injection_witness :
  query_params (url_query (quote_url ("IBM" ++ "&apikey=" ++ "stolen") "demo")) =
  [("function", "GLOBAL_QUOTE"); ("symbol", "IBM"); ("apikey", "stolen"); ("apikey", "demo")].
Proof. apply quote_url_injection; reflexivity. Defined.

Lemma quote_url_fragment_witness :
  query_params (url_query (quote_url ("IBM" ++ "#" ++ "X") "secret")) =
  [("function", "GLOBAL_QUOTE"); ("symbol", "IBM")].
Proof. apply quote_url_fragment. reflexivity. Defined.
