(* ===== verification/Dashboard.v ===== *)
(** * The dashboard's watchlist (server.py lines 220-373)

    The page script keeps one global array [watchlist] (line 221) and the
    DOM elements [#symbol-input], [#error], [#loading], [#stocks-container]
    and [#last-updated].  Its async functions run synchronously until an
    [await] on [window.mcp.callTool] and resume when the call settles.  Other
    handlers may run in between.  The model is therefore a machine:

    - [dash] is the page state, [task] a suspended async activation at its
      [await] (with the local variables it still needs);
    - [event] is what the event loop can do next: a user action, a timer
      tick of the [setInterval] of line 357, the [mcp-ready] event of line
      360, or the settlement of one pending tool call;
    - [step] runs the handler for one event up to its next [await] or its
      end, exceptions included.  It is executable.  [reachable] closes it
      under any sequence of events. *)

From S2P Require Import Prelude Json Text.

(** ** State *)

(** What [#stocks-container] and [#last-updated] show: nothing, as the
    page is loaded (lines 216-217), or what [renderWatchlist] last left
    there, the empty state (and an empty timestamp) or a card per present
    element (and a timestamp). *)
Inductive view :=
| VBlank
| VEmpty
| VCards (stocks : list json).

(** A call of [window.mcp.callTool] settles: it returns a result whose
    [structuredContent] is read, or it rejects with an error whose
    [message] is read ([""] when it has none). *)
Inductive outcome :=
| Returned (structured : jsval)
| Threw (message : string).

(** An async activation suspended at [await window.mcp.callTool(...)]. *)
Inductive task :=
| TAdd (symbol : string)                (* addStock, line 240 *)
| TRefresh (i : nat) (arg : jsval)      (* refreshAll, lines 270-272 *)
| TDemo (symbol : string) (rest : list string).  (* mcp-ready, line 364 *)

Record dash := Dash {
  watchlist : jsarray;
  input_value : string;
  error_text : string;
  error_shown : bool;
  loading : bool;
  view_of : view;
  tasks : list task;
  mcp : bool  (* whether [window.mcp] is set *)
}.

Definition dash_init (has_mcp : bool) : dash :=
  Dash [] "" "" false false VBlank [] has_mcp.

(** ** Record updates *)

Definition set_watchlist (w : jsarray) (s : dash) : dash :=
  Dash w s.(input_value) s.(error_text) s.(error_shown) s.(loading)
       s.(view_of) s.(tasks) s.(mcp).
Definition set_input (v : string) (s : dash) : dash :=
  Dash s.(watchlist) v s.(error_text) s.(error_shown) s.(loading)
       s.(view_of) s.(tasks) s.(mcp).
Definition set_view (v : view) (s : dash) : dash :=
  Dash s.(watchlist) s.(input_value) s.(error_text) s.(error_shown)
       s.(loading) v s.(tasks) s.(mcp).
Definition set_tasks (ts : list task) (s : dash) : dash :=
  Dash s.(watchlist) s.(input_value) s.(error_text) s.(error_shown)
       s.(loading) s.(view_of) ts s.(mcp).
Definition add_task (t : task) (s : dash) : dash := set_tasks (s.(tasks) ++ [t]) s.

(** [showError(message)], lines 339-343. *)
Definition showError (msg : string) (s : dash) : dash :=
  Dash s.(watchlist) s.(input_value) msg true s.(loading)
       s.(view_of) s.(tasks) s.(mcp).

(** [hideError()], lines 345-347. *)
Definition hideError (s : dash) : dash :=
  Dash s.(watchlist) s.(input_value) s.(error_text) false s.(loading)
       s.(view_of) s.(tasks) s.(mcp).

(** [showLoading(show)], lines 349-351. *)
Definition showLoading (b : bool) (s : dash) : dash :=
  Dash s.(watchlist) s.(input_value) s.(error_text) s.(error_shown) b
       s.(view_of) s.(tasks) s.(mcp).

(** ** Rendering *)

Definition js_is_number (v : jsval) : bool :=
  match v with Some (JInt _) | Some (JFloat _) => true | _ => false end.

(** A card evaluates [stock.price.toFixed(2)],
    [stock.change_percent.toFixed(2)], [stock.open.toFixed(2)],
    [stock.high.toFixed(2)] and [stock.low.toFixed(2)] (lines 310-324):
    [toFixed] exists on numbers only, so each must be a number or the
    template throws.  [Math.abs(stock.change)] and [stock.volume / 1000000]
    give [NaN] instead of throwing, and [stock.name || stock.symbol] never
    throws. *)
Definition card_ok (stock : json) : bool :=
  match stock with
  | JObj kvs =>
      forallb (fun k => js_is_number (py_lookup k kvs))
        ["price"; "change_percent"; "open"; "high"; "low"]
  | _ => false
  end.

(** [renderWatchlist()], lines 285-337: the empty state when the array is
    empty (holes count in [length]), otherwise one card per present element.
    [None] when a card throws, before anything is written. *)
Definition renderWatchlist (w : jsarray) : option view :=
  if decide (length w = 0) then Some VEmpty
  else if forallb card_ok (present w) then Some (VCards (present w))
  else None.

(** [renderWatchlist()] as a statement: on success it updates the page. *)
Definition render (s : dash) : option dash :=
  v ← renderWatchlist s.(watchlist); Some (set_view v s).

(** ** Reading the array *)

(** [s.symbol] for a present element, [None] when it throws (the element
    is [null]). *)
Definition symbol_of (x : json) : option jsval := js_get (Some x) "symbol".

(** [watchlist.some(s => s.symbol === symbol)] (line 229); [None] when the
    callback throws before a match is found. *)
Fixpoint has_symbol (sym : string) (xs : list json) : option bool :=
  match xs with
  | [] => Some false
  | x :: r =>
      match symbol_of x with
      | None => None
      | Some v => if js_str_eq v sym then Some true else has_symbol sym r
      end
  end.

(** [watchlist.filter(s => s.symbol !== symbol)] (line 259), [None] when
    the callback throws. *)
Fixpoint drop_symbol (sym : string) (xs : list json) : option (list json) :=
  match xs with
  | [] => Some []
  | x :: r =>
      match symbol_of x with
      | None => None
      | Some v =>
          r' ← drop_symbol sym r;
          Some (if js_str_eq v sym then r' else x :: r')
      end
  end.

(** ** Handlers *)

(** The message of the TypeError the first of the card's five [toFixed]
    calls that throws raises (lines 310-324, in template order), as V8,
    the JavaScript engine of the Goose desktop host, words it: reading a
    property of [undefined] or [null], or calling what is not a
    function.  The [stock.symbol] read before them throws only on a
    [null] element. *)
Fixpoint toFixed_error (kvs : list (string * json)) (ks : list string) : string :=
  match ks with
  | [] => EmptyString
  | k :: ks' =>
      match py_lookup k kvs with
      | None => "Cannot read properties of undefined (reading 'toFixed')"
      | Some JNull => "Cannot read properties of null (reading 'toFixed')"
      | Some (JInt _) | Some (JFloat _) => toFixed_error kvs ks'
      | Some _ => "stock." ++ k ++ ".toFixed is not a function"
      end
  end.

Definition card_error (stock : json) : string :=
  match stock with
  | JNull => "Cannot read properties of null (reading 'symbol')"
  | JObj kvs => toFixed_error kvs ["price"; "change_percent"; "open"; "high"; "low"]
  | _ => "Cannot read properties of undefined (reading 'toFixed')"
  end.

(** The message of the error [renderWatchlist()] throws: that of the
    first element, in array order, whose card throws. *)
Definition render_error (w : jsarray) : string :=
  match filter (fun x => card_ok x = false) (present w) with
  | x :: _ => card_error x
  | [] => EmptyString
  end.

(** [addStock()] up to its [await], lines 223-240.  An empty symbol
    returns at once; a symbol already present shows an error; otherwise the
    input is cleared, the loading banner shown, the error hidden, and the
    tool call started, or, without [window.mcp], an error shown and the
    [finally] clause run.  When the [some] callback throws, the promise
    rejects before any change. *)
Definition addStock (s : dash) : dash :=
  let symbol := js_upper (js_trim s.(input_value)) in
  if String.eqb symbol "" then s
  else match has_symbol symbol (present s.(watchlist)) with
  | None => s
  | Some true => showError "Stock already in watchlist" s
  | Some false =>
      let s1 := hideError (showLoading true (set_input "" s)) in
      if s1.(mcp) then add_task (TAdd symbol) s1
      else showLoading false (showError "MCP not available - run in Goose" s1)
  end.

(** [result.structuredContent && result.structuredContent.symbol] (line
    242) is truthy. *)
Definition add_accepts (sc : jsval) : bool :=
  match sc with
  | Some x =>
      js_truthy sc &&
      match symbol_of x with Some v => js_truthy v | None => false end
  | None => false
  end.

(** [addStock()] after its [await], lines 242-255: push and render, or
    show why not; a render that throws is caught and shown; the [finally]
    clause hides the loading banner. *)
Definition addStock_resume (o : outcome) (s : dash) : dash :=
  let s1 :=
    match o with
    | Returned sc =>
        match sc with
        | Some x =>
            if add_accepts sc then
              let s2 := set_watchlist (js_push x s.(watchlist)) s in
              match render s2 with
              | Some s3 => s3
              | None => showError (render_error s2.(watchlist)) s2
              end
            else showError "Failed to fetch stock data" s
        | None => showError "Failed to fetch stock data" s
        end
    | Threw m =>
        showError (if String.eqb m "" then "Failed to fetch stock" else m) s
    end in
  showLoading false s1.

(** One test of the [for] loop of [refreshAll()] and, when it passes, the
    call of that iteration (lines 268-272).  Reading [watchlist[i].symbol]
    on a hole throws inside the [try], and again in the [catch] at line 277,
    so the promise rejects and nothing more happens.  When the loop ends, it
    renders (a throw rejects, leaving the banner on) and hides the loading
    banner. *)
Definition refresh_iter (i : nat) (s : dash) : dash :=
  if decide (i < length s.(watchlist)) then
    match js_get (js_index s.(watchlist) i) "symbol" with
    | None => s
    | Some arg => add_task (TRefresh i arg) s
    end
  else match render s with
       | Some s' => showLoading false s'
       | None => s
       end.

(** [refreshAll()] after the [await] of iteration [i], lines 273-278:
    a truthy result is stored at [watchlist[i]] of the array as it is now;
    a rejected call is logged, and the log reads [watchlist[i].symbol]
    again. *)
Definition refresh_resume (i : nat) (o : outcome) (s : dash) : dash :=
  match o with
  | Returned (Some x) =>
      if js_truthy (Some x)
      then refresh_iter (S i) (set_watchlist (js_set i x s.(watchlist)) s)
      else refresh_iter (S i) s
  | Returned None => refresh_iter (S i) s
  | Threw _ =>
      match js_get (js_index s.(watchlist) i) "symbol" with
      | None => s
      | Some _ => refresh_iter (S i) s
      end
  end.

(** [refreshAll()], lines 263-268. *)
Definition refreshAll (s : dash) : dash :=
  if negb s.(mcp) || bool_decide (length s.(watchlist) = 0) then s
  else refresh_iter 0 (showLoading true s).

(** The [for ... of demoSymbols] loop of the [mcp-ready] listener (lines
    362-372): without [window.mcp] each call throws a TypeError that the
    [catch] logs. *)
Fixpoint demo_iter (syms : list string) (s : dash) : dash :=
  match syms with
  | [] => match render s with Some s' => s' | None => s end
  | sym :: rest =>
      if s.(mcp) then add_task (TDemo sym rest) s else demo_iter rest s
  end.

(** The listener after an [await], lines 365-370: a truthy result is
    pushed with no duplicate check. *)
Definition demo_resume (rest : list string) (o : outcome) (s : dash) : dash :=
  match o with
  | Returned (Some x) =>
      if js_truthy (Some x)
      then demo_iter rest (set_watchlist (js_push x s.(watchlist)) s)
      else demo_iter rest s
  | _ => demo_iter rest s
  end.

Definition demoSymbols : list string := ["AAPL"; "MSFT"; "GOOGL"].

(** The [mcp-ready] listener, line 360. *)
Definition onMcpReady (s : dash) : dash := demo_iter demoSymbols s.

(** [removeStock(symbol)], lines 258-261: it has no [await], so it runs
    to its end at once. *)
Definition removeStock (sym : string) (s : dash) : dash :=
  match drop_symbol sym (present s.(watchlist)) with
  | None => s
  | Some xs =>
      let s1 := set_watchlist (Some <$> xs) s in
      match render s1 with Some s2 => s2 | None => s1 end
  end.

(** ** The event loop *)

Inductive event :=
| EvInput (v : string)                (* the user edits #symbol-input *)
| EvAdd                               (* "Add Stock" or Enter, 208-210 *)
| EvRemove (sym : string)             (* a "Remove" button, line 308 *)
| EvTick                              (* setInterval, line 357 *)
| EvMcpReady                          (* line 360 *)
| EvSettle (k : nat) (o : outcome).   (* pending call number k settles *)

Definition resume (t : task) (o : outcome) (s : dash) : dash :=
  match t with
  | TAdd _ => addStock_resume o s
  | TRefresh i _ => refresh_resume i o s
  | TDemo _ rest => demo_resume rest o s
  end.

(** One turn of the event loop; [None] when the event names no pending
    call. *)
Definition step (s : dash) (e : event) : option dash :=
  match e with
  | EvInput v => Some (set_input v s)
  | EvAdd => Some (addStock s)
  | EvRemove sym => Some (removeStock sym s)
  | EvTick => Some (refreshAll s)
  | EvMcpReady => Some (onMcpReady s)
  | EvSettle k o =>
      t ← s.(tasks) !! k;
      Some (resume t o (set_tasks (delete k s.(tasks)) s))
  end.

Fixpoint run (s : dash) (es : list event) : option dash :=
  match es with
  | [] => Some s
  | e :: es' => s' ← step s e; run s' es'
  end.

(** The states the page can reach from its load, with or without
    [window.mcp]. *)
Inductive reachable : dash -> Prop :=
| reachable_init b : reachable (dash_init b)
| reachable_step s e s' : reachable s -> step s e = Some s' -> reachable s'.

(** ** Which writes change the watchlist *)

(** The four ways the code changes [watchlist]: not at all, [push] of a
    truthy value (lines 243 and 366), [watchlist[i] = v] with a truthy [v]
    (line 274), and the reassignment to the filtered array (line 259). *)
Inductive wl_write (w : jsarray) : jsarray -> Prop :=
| ww_keep : wl_write w w
| ww_push x : js_truthy (Some x) = true -> wl_write w (js_push x w)
| ww_set i x : js_truthy (Some x) = true -> wl_write w (js_set i x w)
| ww_drop sym ys :
    drop_symbol sym (present w) = Some ys -> wl_write w (Some <$> ys).

(** ** The watchlist keeps only truthy values *)

Definition truthy_entries (w : jsarray) : Prop :=
  forall y, y ∈ present w -> js_truthy (Some y) = true.

(** The element's [symbol] is the string [sym]: the test of lines 229 and
    259. *)
Definition sym_is (sym : string) (y : json) : bool :=
  match symbol_of y with Some v => js_str_eq v sym | None => false end.

#[export] Instance truthy_entries_dec w : Decision (truthy_entries w).
Proof.
  destruct (decide (Forall (fun y => js_truthy (Some y) = true) (present w))) as [H|H];
    [left|right]; unfold truthy_entries; by rewrite <- list.Forall_forall.
Defined.

(** ** Sample pages *)

(** A quote as [get_stock_quote] returns it, with integral numbers. *)
Definition sample_quote (sym : string) (price : Z) : json :=
  JObj [("symbol", JStr sym); ("name", JStr sym); ("price", JInt price);
        ("change", JInt 1); ("change_percent", JInt 1); ("open", JInt price);
        ("high", JInt price); ("low", JInt price); ("volume", JInt 1000);
        ("latest_trading_day", JStr "2024-01-02")].

(** A page with AAPL in the watchlist and [input] typed in the box. *)
Definition page_with_aapl (input : string) : dash :=
  Dash [Some (sample_quote "AAPL" 150)] input "" false false
       (VCards [sample_quote "AAPL" 150]) [] true.

(** The page outside Goose after the user typed a symbol, pressed "Add
    Stock", and the timer and [mcp-ready] fired. *)
Definition offline_page : dash :=
  match run (dash_init false) [EvInput "aapl"; EvAdd; EvTick; EvMcpReady; EvRemove "AAPL"] with
  | Some s => s
  | None => dash_init false
  end.

(** ** Lemmas *)

#[local] Arguments add_accepts : simpl never.
#[local] Arguments js_truthy : simpl never.

Lemma render_inv s s' : render s = Some s' -> exists v, s' = set_view v s.
Proof.
  unfold render. destruct (renderWatchlist _) as [v|]; simpl; [|done].
  intros [= <-]. by exists v.
Qed.

(** Split the [match]es and [if]s of a handler, and replace [render]. *)
Ltac dash_cases :=
  repeat first
    [ progress simplify_eq/=
    | match goal with
      | H : render _ = Some _ |- _ =>
          let v := fresh "v" in apply render_inv in H as [v ->]
      | |- context [render ?s] =>
          let E := fresh "Er" in destruct (render s) eqn:E
      end
    | case_match
    | case_decide ].

Lemma refresh_iter_wl i s : (refresh_iter i s).(watchlist) = s.(watchlist).
Proof. unfold refresh_iter. by dash_cases. Qed.

Lemma demo_iter_wl syms s : (demo_iter syms s).(watchlist) = s.(watchlist).
Proof. revert s. induction syms; intros s; simpl; by dash_cases. Qed.

Lemma addStock_wl s : (addStock s).(watchlist) = s.(watchlist).
Proof. unfold addStock. by dash_cases. Qed.

Lemma refreshAll_wl s : (refreshAll s).(watchlist) = s.(watchlist).
Proof. unfold refreshAll. case_match; [done|]. by rewrite refresh_iter_wl. Qed.

#[export] Hint Rewrite refresh_iter_wl demo_iter_wl addStock_wl refreshAll_wl : stocks_rw.

Lemma add_accepts_truthy x : add_accepts (Some x) = true -> js_truthy (Some x) = true.
Proof. unfold add_accepts. by intros [? _]%andb_prop. Qed.

(** Every event changes the watchlist by at most one of the four writes. *)
Lemma step_wl_write s e s' :
  step s e = Some s' -> wl_write s.(watchlist) s'.(watchlist).
Proof.
  destruct e as [v| |sym| | |k o]; simpl; intros Hs; simplify_eq/=.
  - constructor.
  - rewrite addStock_wl. constructor.
  - unfold removeStock. dash_cases; try constructor; by econstructor.
  - rewrite refreshAll_wl. constructor.
  - unfold onMcpReady. rewrite demo_iter_wl. constructor.
  - destruct (tasks s !! k) as [t|]; simplify_eq/=.
    destruct t; simpl.
    + unfold addStock_resume. dash_cases;
        first [apply ww_keep | by apply ww_push, add_accepts_truthy].
    + unfold refresh_resume. dash_cases; rewrite ?refresh_iter_wl; by constructor.
    + unfold demo_resume. dash_cases; rewrite ?demo_iter_wl; by constructor.
Qed.

Lemma present_js_set i x a y :
  y ∈ present (js_set i x a) -> y = x \/ y ∈ present a.
Proof.
  unfold present. rewrite !list_elem_of_omap. intros (z & Hz & Hzy).
  unfold js_set in Hz. case_decide.
  - apply list_elem_of_lookup in Hz as [j Hj].
    apply list_lookup_insert_Some in Hj as [(-> & <- & _)|(_ & Hj)].
    + left. by simplify_eq/=.
    + right. exists z. split; [by eapply list_elem_of_lookup_2|done].
  - rewrite !elem_of_app in Hz. destruct Hz as [Hz|[Hz|Hz]].
    + right. eauto.
    + apply elem_of_replicate_inv in Hz. by subst.
    + apply list_elem_of_singleton in Hz. subst. left. by simplify_eq/=.
Qed.

Lemma drop_symbol_incl sym xs ys y :
  drop_symbol sym xs = Some ys -> y ∈ ys -> y ∈ xs.
Proof.
  revert ys. induction xs as [|x xs IH]; simpl; intros ys H Hy.
  - simplify_eq. by apply not_elem_of_nil in Hy.
  - destruct (symbol_of x) as [v|]; [|done].
    destruct (drop_symbol sym xs) as [r|] eqn:E; simplify_eq/=.
    destruct (js_str_eq v sym).
    + right. by apply (IH r).
    + apply elem_of_cons in Hy as [->|Hy]; [left|right; by apply (IH r)].
Qed.

Lemma wl_write_truthy w w' :
  wl_write w w' -> truthy_entries w -> truthy_entries w'.
Proof.
  intros [|x Hx|i x Hx|sym ys Hys] Hw y Hy.
  - by apply Hw.
  - rewrite js_push_present, elem_of_app, list_elem_of_singleton in Hy.
    destruct Hy as [Hy| ->]; auto.
  - apply present_js_set in Hy as [->|Hy]; auto.
  - rewrite present_dense_fmap in Hy. apply Hw. by eapply drop_symbol_incl.
Qed.

Lemma run_reachable s es s' : reachable s -> run s es = Some s' -> reachable s'.
Proof.
  revert s. induction es as [|e es IH]; simpl; intros s Hs Hrun; [by simplify_eq|].
  destruct (step s e) as [s1|] eqn:E; [|done].
  apply (IH s1); [by eapply reachable_step|done].
Qed.

(** A present element of a truthy array is never [null], so reading its
    [symbol] never throws. *)
Lemma truthy_symbol_of y : js_truthy (Some y) = true -> is_Some (symbol_of y).
Proof. destruct y; by eauto. Qed.

Lemma sym_is_spec sym y :
  sym_is sym y = true <-> symbol_of y = Some (Some (JStr sym)).
Proof.
  unfold sym_is. destruct (symbol_of y) as [[[]|]|]; simpl; split; intros H;
    simplify_eq/=; try done.
  - by apply bool_decide_eq_true_1 in H as ->.
  - by apply bool_decide_eq_true_2.
Qed.

Lemma has_symbol_spec sym xs :
  (forall y, y ∈ xs -> js_truthy (Some y) = true) ->
  has_symbol sym xs = Some (existsb (sym_is sym) xs).
Proof.
  unfold sym_is. induction xs as [|x xs IH]; simpl; intros Hxs; [done|].
  destruct (truthy_symbol_of x) as [v Hv]; [apply Hxs; by left|]. rewrite Hv.
  destruct (js_str_eq v sym); [done|].
  apply IH. intros y Hy. apply Hxs. by right.
Qed.

Lemma drop_symbol_spec sym xs :
  (forall y, y ∈ xs -> js_truthy (Some y) = true) ->
  drop_symbol sym xs = Some (filter (fun y => sym_is sym y = false) xs).
Proof.
  unfold sym_is. induction xs as [|x xs IH]; simpl; intros Hxs; [done|].
  destruct (truthy_symbol_of x) as [v Hv]; [apply Hxs; by left|]. rewrite Hv.
  rewrite IH by (intros y Hy; apply Hxs; by right). simpl.
  rewrite filter_cons, Hv. by destruct (js_str_eq v sym).
Qed.

Lemma set_watchlist_id w s : s.(watchlist) = w -> set_watchlist w s = s.
Proof. destruct s; simpl; intros ->; reflexivity. Qed.

Lemma render_set_view v s : render (set_view v s) = (fun v' => set_view v' (set_view v s)) <$> renderWatchlist s.(watchlist).
Proof. unfold render. by destruct (renderWatchlist _). Qed.

Lemma set_view_twice v v' s : set_view v' (set_view v s) = set_view v' s.
Proof. reflexivity. Qed.

Lemma present_truthy_fmap (ys : list json) :
  (forall y, y ∈ ys -> js_truthy (Some y) = true) ->
  truthy_entries (Some <$> ys).
Proof. intros H y. rewrite present_dense_fmap. apply H. Qed.

Lemma truthy_entries_filter (P : json -> Prop) `{!∀ y, Decision (P y)} w :
  truthy_entries w -> truthy_entries (Some <$> filter P (present w)).
Proof.
  intros Hw. apply present_truthy_fmap. intros y Hy.
  apply list_elem_of_filter in Hy as [_ Hy]. by apply Hw.
Qed.

(** [removeStock] on a truthy array: the filtered array, then a render. *)
Lemma removeStock_eq sym s :
  truthy_entries s.(watchlist) ->
  removeStock sym s =
  let s1 := set_watchlist (Some <$> filter (fun y => sym_is sym y = false)
                                        (present s.(watchlist))) s in
  match render s1 with Some s2 => s2 | None => s1 end.
Proof. intros Hw. unfold removeStock. by rewrite drop_symbol_spec. Qed.

Lemma sym_is_accepts sym x : sym <> "" -> sym_is sym x = true -> add_accepts (Some x) = true.
Proof.
  intros Hne. unfold sym_is, add_accepts, symbol_of, js_get.
  destruct x; try discriminate.
  destruct (py_lookup "symbol" kvs) as [[]|]; try discriminate.
  intros ->%bool_decide_eq_true_1. unfold js_truthy.
  by apply negb_true_iff, String.eqb_neq.
Qed.

Lemma delete_last {A} (ts : list A) t : delete (length ts) (ts ++ [t]) = ts.
Proof. induction ts as [|t' ts IH]; simpl; [done|]. by rewrite IH. Qed.

Lemma run_cons s e es : run s (e :: es) = (s' ← step s e; run s' es).
Proof. reflexivity. Qed.

Lemma step_EvAdd s : step s EvAdd = Some (addStock s).
Proof. reflexivity. Qed.

Lemma set_tasks_id s : set_tasks s.(tasks) s = s.
Proof. by destruct s. Qed.

(** Settling the call started last resumes its task on the state the
    handler left. *)
Lemma step_settle_last t o s :
  step (add_task t s) (EvSettle (length s.(tasks)) o) = Some (resume t o s).
Proof.
  simpl. rewrite lookup_app_r, Nat.sub_diag by done. simpl.
  rewrite delete_last. unfold add_task. f_equal. f_equal. by destruct s.
Qed.

Lemma existsb_false_Forall {A} (f : A -> bool) l :
  Forall (fun y => f y = false) l -> existsb f l = false.
Proof. induction 1; simpl; [done|]. by rewrite H. Qed.

Lemma existsb_true_elem {A} (f : A -> bool) l :
  (exists y, y ∈ l /\ f y = true) -> existsb f l = true.
Proof. intros (y & Hy & Hf). apply existsb_exists. exists y. by rewrite <- list_elem_of_In. Qed.

Lemma fresh_filter_nil sym l :
  Forall (fun y => sym_is sym y = false) l -> filter (fun y => sym_is sym y = true) l = [].
Proof.
  intros H. apply filter_none. refine (list.Forall_impl _ _ _ H _). intros y Hy Hy'. congruence.
Qed.

(** The synchronous part of [addStock] on a fresh symbol with
    [window.mcp]: clear the input, show the banner, hide the error and
    start the call. *)
Lemma addStock_fresh s sym :
  truthy_entries s.(watchlist) -> s.(mcp) = true ->
  js_upper (js_trim s.(input_value)) = sym -> sym <> "" ->
  Forall (fun y => sym_is sym y = false) (present s.(watchlist)) ->
  addStock s = add_task (TAdd sym) (hideError (showLoading true (set_input "" s))).
Proof.
  intros Hw Hm Hsym Hne Hfresh. unfold addStock. rewrite Hsym.
  rewrite (proj2 (String.eqb_neq _ _) Hne), has_symbol_spec by done.
  rewrite existsb_false_Forall by done. simpl. by rewrite Hm.
Qed.

Lemma addStock_resume_accepts x s :
  add_accepts (Some x) = true ->
  (addStock_resume (Returned (Some x)) s).(watchlist) = js_push x s.(watchlist) /\
  (addStock_resume (Returned (Some x)) s).(tasks) = s.(tasks) /\
  (addStock_resume (Returned (Some x)) s).(input_value) = s.(input_value) /\
  (addStock_resume (Returned (Some x)) s).(loading) = false.
Proof.
  intros Hx. unfold addStock_resume. rewrite Hx.
  destruct (render _) eqn:E; [apply render_inv in E as [v ->]|]; done.
Qed.

Lemma demo_iter_mcp syms s : (demo_iter syms s).(mcp) = s.(mcp).
Proof.
  revert s. induction syms as [|sym syms IH]; intros s; simpl.
  - destruct (render s) eqn:E; [apply render_inv in E as [v ->]|]; done.
  - destruct s.(mcp) eqn:Hm; [done|]. by rewrite IH.
Qed.

Lemma demo_iter_no_mcp syms s :
  s.(mcp) = false -> (demo_iter syms s).(tasks) = s.(tasks).
Proof.
  revert s. induction syms as [|sym syms IH]; intros s Hm; simpl.
  - destruct (render s) eqn:E; [apply render_inv in E as [v ->]|]; done.
  - rewrite Hm. by apply IH.
Qed.

Lemma refresh_iter_mcp i s : (refresh_iter i s).(mcp) = s.(mcp).
Proof. unfold refresh_iter. by dash_cases. Qed.

(** No handler changes whether [window.mcp] exists. *)
Lemma step_mcp s e s' : step s e = Some s' -> s'.(mcp) = s.(mcp).
Proof.
  destruct e as [v| |sym| | |k o]; simpl; intros Hs; simplify_eq/=.
  - done.
  - unfold addStock. by dash_cases.
  - unfold removeStock. by dash_cases.
  - unfold refreshAll. case_match; [done|]. by rewrite refresh_iter_mcp.
  - apply demo_iter_mcp.
  - destruct (tasks s !! k) as [t|]; simplify_eq/=. destruct t; simpl.
    + unfold addStock_resume. by dash_cases.
    + unfold refresh_resume. dash_cases; by rewrite ?refresh_iter_mcp.
    + unfold demo_resume. dash_cases; by rewrite ?demo_iter_mcp.
Qed.

(** [addStock()] after a call that gives nothing usable: the watchlist
    is untouched, the message of line 246 or 252 is shown, and the
    [finally] clause hides the loading banner. *)
Lemma addStock_resume_rejected o s :
  (forall x, o = Returned (Some x) -> add_accepts (Some x) = false) ->
  let s' := addStock_resume o s in
  s'.(watchlist) = s.(watchlist) /\ s'.(tasks) = s.(tasks) /\ s'.(error_shown) = true /\
  s'.(loading) = false /\
  s'.(error_text) = match o with
                    | Threw m => if String.eqb m "" then "Failed to fetch stock" else m
                    | _ => "Failed to fetch stock data"
                    end.
Proof.
  intros Ho. unfold addStock_resume.
  destruct o as [[x|]|m]; [rewrite (Ho x eq_refl)| |]; done.
Qed.

(** ** Properties of the handlers *)

(** Claim C1: in every state the page can reach, whatever the tool calls
    return and however the events interleave, every element present in
    [watchlist] is a truthy JavaScript value: no handler stores a falsy
    result. *)
Theorem reachable_truthy_entries s :
  reachable s -> truthy_entries s.(watchlist).
Proof.
  induction 1 as [b|s e s' Hs IH Hstep].
  - intros y Hy. by apply not_elem_of_nil in Hy.
  - eapply wl_write_truthy; [by eapply step_wl_write|done].
Qed.

(** Claim C9: [addStock] with a symbol (the input trimmed and upper-cased)
    that some entry of the watchlist already has shows "Stock already in
    watchlist" and changes nothing else: the watchlist, the input box and
    the pending calls are as before. *)
Theorem addStock_duplicate s sym :
  truthy_entries s.(watchlist) ->
  js_upper (js_trim s.(input_value)) = sym -> sym <> "" ->
  (exists y, y ∈ present s.(watchlist) /\ sym_is sym y = true) ->
  step s EvAdd = Some (showError "Stock already in watchlist" s).
Proof.
  intros Hw Hsym Hne Hex. simpl. f_equal. unfold addStock. rewrite Hsym.
  rewrite (proj2 (String.eqb_neq _ _) Hne), has_symbol_spec by done.
  by rewrite existsb_true_elem.
Qed.

(** Claim C8: adding a symbol that no entry has, when the tool call
    returns a quote for that symbol, appends exactly that quote at the end
    of the watchlist.  Afterwards exactly one entry has the symbol, the
    input box is empty, the loading banner is off and no call is left
    pending. *)
Theorem addStock_then_settle s sym x :
  truthy_entries s.(watchlist) -> s.(mcp) = true ->
  js_upper (js_trim s.(input_value)) = sym -> sym <> "" ->
  Forall (fun y => sym_is sym y = false) (present s.(watchlist)) ->
  sym_is sym x = true ->
  exists s', run s [EvAdd; EvSettle (length s.(tasks)) (Returned (Some x))] = Some s' /\
    present s'.(watchlist) = present s.(watchlist) ++ [x] /\
    filter (fun y => sym_is sym y = true) (present s'.(watchlist)) = [x] /\
    s'.(tasks) = s.(tasks) /\ s'.(input_value) = "" /\ s'.(loading) = false.
Proof.
  intros Hw Hm Hsym Hne Hfresh Hx.
  assert (Ha := sym_is_accepts _ _ Hne Hx).
  exists (addStock_resume (Returned (Some x)) (hideError (showLoading true (set_input "" s)))).
  split.
  { rewrite run_cons, step_EvAdd. cbn [mbind option_bind].
    rewrite (addStock_fresh s sym), run_cons by done.
    change (tasks s) with (tasks (hideError (showLoading true (set_input "" s)))).
    by rewrite step_settle_last. }
  destruct (addStock_resume_accepts x (hideError (showLoading true (set_input "" s))) Ha)
    as (-> & -> & -> & ->). simpl.
  rewrite js_push_present. split_and!; try done.
  rewrite list.filter_app, filter_cons_True, filter_nil by done.
  by rewrite fresh_filter_nil.
Qed.

(** Claim C19: [removeStock(sym)] on a watchlist of truthy values leaves
    exactly the entries whose [symbol] is not [sym], in their order, and
    without holes. *)
Theorem removeStock_watchlist s sym :
  truthy_entries s.(watchlist) ->
  (removeStock sym s).(watchlist) =
    Some <$> filter (fun y => sym_is sym y = false) (present s.(watchlist)).
Proof.
  intros Hw. rewrite removeStock_eq by done. simpl.
  destruct (render _) eqn:E; [apply render_inv in E as [v ->]|]; done.
Qed.

(** [removeStock] is idempotent: removing a symbol twice gives
    the same page as removing it once, rendered view included. *)
Theorem removeStock_idempotent s sym :
  truthy_entries s.(watchlist) ->
  removeStock sym (removeStock sym s) = removeStock sym s.
Proof.
  intros Hw.
  set (W := Some <$> filter (fun y => sym_is sym y = false) (present s.(watchlist))).
  assert (HW : truthy_entries W) by apply truthy_entries_filter, Hw.
  assert (HWW : Some <$> filter (fun y => sym_is sym y = false) (present W) = W).
  { subst W. by rewrite present_dense_fmap, filter_idemp. }
  rewrite (removeStock_eq sym s) by done. fold W. simpl.
  unfold render. simpl. destruct (renderWatchlist W) as [v|] eqn:Ev; simpl;
    rewrite removeStock_eq by done; simpl; rewrite HWW; unfold render; simpl; by rewrite Ev.
Qed.

(** Claim C18: outside Goose, where [window.mcp] is absent, the page never
    stores a stock and never has a call pending, whatever the user does
    and however often the timer and [mcp-ready] fire: [addStock] shows
    "MCP not available", [refreshAll] returns at its guard and the demo
    loader's calls all throw. *)
Theorem reachable_no_mcp s :
  reachable s -> s.(mcp) = false -> s.(tasks) = [] /\ s.(watchlist) = [].
Proof.
  induction 1 as [b|s e s' Hs IH Hstep]; [done|]. intros Hm'.
  rewrite (step_mcp _ _ _ Hstep) in Hm'. destruct (IH Hm') as [Ht Hw]. clear IH.
  destruct e as [v| |sym| | |k o]; simpl in Hstep; simplify_eq/=.
  - done.
  - unfold addStock. rewrite Hw. by dash_cases.
  - unfold removeStock. rewrite Hw. by dash_cases.
  - unfold refreshAll. by rewrite Hm'.
  - unfold onMcpReady. by rewrite demo_iter_no_mcp, demo_iter_wl.
  - by rewrite Ht in Hstep.
Qed.

(** ** Witnesses *)

Lemma reachable_truthy_entries_witness :
  truthy_entries (page_with_aapl "").(watchlist).
Proof.
  apply (reachable_truthy_entries (page_with_aapl "")).
  apply (run_reachable (dash_init true)
           [EvInput "aapl"; EvAdd; EvSettle 0 (Returned (Some (sample_quote "AAPL" 150)))]).
  - apply reachable_init.
  - vm_compute. reflexivity.
Defined.

Lemma addStock_duplicate_witness :
  step (page_with_aapl " aapl") EvAdd =
  Some (showError "Stock already in watchlist" (page_with_aapl " aapl")).
Proof.
  apply (addStock_duplicate (page_with_aapl " aapl") "AAPL").
  - decide_by_compute.
  - reflexivity.
  - discriminate.
  - exists (sample_quote "AAPL" 150). split; [left|reflexivity].
Defined.

Lemma addStock_then_settle_witness :
  exists s', run (page_with_aapl "msft")
               [EvAdd; EvSettle 0 (Returned (Some (sample_quote "MSFT" 300)))] = Some s' /\
    present s'.(watchlist) = [sample_quote "AAPL" 150; sample_quote "MSFT" 300] /\
    filter (fun y => sym_is "MSFT" y = true) (present s'.(watchlist)) = [sample_quote "MSFT" 300] /\
    s'.(tasks) = [] /\ s'.(input_value) = "" /\ s'.(loading) = false.
Proof.
  apply (addStock_then_settle (page_with_aapl "msft") "MSFT" (sample_quote "MSFT" 300)).
  - decide_by_compute.
  - reflexivity.
  - reflexivity.
  - discriminate.
  - repeat constructor.
  - reflexivity.
Defined.

Lemma removeStock_watchlist_witness :
  (removeStock "AAPL" (page_with_aapl "")).(watchlist) =
  Some <$> filter (fun y => sym_is "AAPL" y = false) (present (page_with_aapl "").(watchlist)).
Proof.
  apply removeStock_watchlist.
  decide_by_compute.
Defined.

Lemma removeStock_idempotent_witness :
  removeStock "AAPL" (removeStock "AAPL" (page_with_aapl "")) =
  removeStock "AAPL" (page_with_aapl "").
Proof.
  apply removeStock_idempotent.
  decide_by_compute.
Defined.

Lemma reachable_no_mcp_witness :
  offline_page.(tasks) = [] /\ offline_page.(watchlist) = [].
Proof.
  apply reachable_no_mcp.
  - apply (run_reachable (dash_init false)
             [EvInput "aapl"; EvAdd; EvTick; EvMcpReady; EvRemove "AAPL"]).
    + apply reachable_init.
    + vm_compute. reflexivity.
  - vm_compute. reflexivity.
Defined.
