(* ===== verification/Store.v ===== *)
(** * The spec's Watchlist Store and Refresh Coordinator, and the dashboard
    as their implementation

    The spec (sections 4.2 and 4.3) describes a store of quotes keyed by
    symbol, with no duplicates, and a coordinator whose [addSymbol],
    [removeSymbol] and [refreshAll] call a fetch collaborator.  The
    dashboard has no such objects: the global array [watchlist] and the
    handlers of [Dashboard] play both parts.  This file states the spec's
    operations on lists ([Module Spec]) and proves that the dashboard
    implements them when each handler runs to the end before the next
    event and the server answers each symbol with a quote for that symbol.

    The collaborator is an interface: [Server] is the answer of a tool call
    for each argument; [EchoingServer] is the law that a truthy answer for
    a symbol has that symbol.  [tool_server] builds a [Server] from the
    Python tool of [Quote], and proves the law when the provider's answer
    names the symbol it was asked for. *)

From S2P Require Import Prelude Json Text PyNum Quote Dashboard.

(** ** The fetch collaborator *)

(** The answer of [window.mcp.callTool('get_stock_quote', {symbol: arg})]. *)
Class Server := server_answer : jsval -> outcome.

(** A truthy answer for a symbol is a quote for that symbol. *)
Class EchoingServer `{Server} :=
  echo : forall sym x, server_answer (Some (JStr sym)) = Returned (Some x) ->
         js_truthy (Some x) = true -> sym_is sym x = true.

(** The Python tool behind MCP: the argument must be a string (the tool's
    signature); [provider] is Alpha Vantage's answer for each symbol. *)
#[export] Instance tool_server (provider : string -> json) : Server :=
  fun arg =>
    match arg with
    | Some (JStr sym) => Returned (mcp_result (get_stock_quote sym (provider sym)))
    | _ => Returned None
    end.

(** ** Running each handler to its end *)

Section Driver.
Context `{Server}.

(** The argument a pending call was made with. *)
Definition task_arg (t : task) : jsval :=
  match t with
  | TAdd sym => Some (JStr sym)
  | TRefresh _ arg => arg
  | TDemo sym _ => Some (JStr sym)
  end.

(** Settle the oldest pending call with the server's answer, [fuel] times
    at most: the event loop when nothing else happens meanwhile. *)
Fixpoint drain (fuel : nat) (s : dash) : dash :=
  match fuel with
  | 0 => s
  | S f =>
      match s.(tasks) with
      | [] => s
      | t :: rest => drain f (resume t (server_answer (task_arg t)) (set_tasks rest s))
      end
  end.

(** Enough settlements for any handler: one per entry for [refreshAll],
    one for [addStock], three for the demo loader. *)
Definition settle_fuel (s : dash) : nat := length s.(watchlist) + 4.

(** One event, then every call it starts, to the end. *)
Definition seq_step (s : dash) (e : event) : dash :=
  match step s e with
  | Some s1 => drain (settle_fuel s1) s1
  | None => s
  end.

(** What [refreshAll] leaves in one entry: the server's truthy answer for
    the entry's symbol, or the entry as it was. *)
Definition refresh_entry (x : json) : json :=
  match symbol_of x with
  | Some arg =>
      match server_answer arg with
      | Returned (Some y) => if js_truthy (Some y) then y else x
      | _ => x
      end
  | None => x
  end.

(** How the loop of [refreshAll] ends (line 268 false): render, then hide
    the loading banner; a render that throws leaves the banner on. *)
Definition refresh_done (s : dash) : dash :=
  match render s with Some s' => showLoading false s' | None => s end.

End Driver.

(** ** The spec's store and coordinator *)

Module Spec.
Section WithServer.
Context `{Server}.

(** The key of a stored quote: its symbol, when it is a string. *)
Definition key (q : json) : option string :=
  match symbol_of q with Some (Some (JStr s)) => Some s | _ => None end.

(** [contains(symbol)]. *)
Definition contains (sym : string) (st : list json) : bool :=
  existsb (fun q => bool_decide (key q = Some sym)) st.

(** [insert(quote)]: [None] is DuplicateSymbolError. *)
Definition insert (q : json) (st : list json) : option (list json) :=
  match key q with
  | Some k => if contains k st then None else Some (st ++ [q])
  | None => None
  end.

(** [remove(symbol)]: a no-op when absent. *)
Definition remove (sym : string) (st : list json) : list json :=
  filter (fun q => key q <> Some sym) st.

(** [fetchQuote(symbol)] followed by the normalizer: a quote, or a
    failure. *)
Definition fetch (sym : string) : option json :=
  match server_answer (Some (JStr sym)) with
  | Returned (Some y) => if js_truthy (Some y) then Some y else None
  | _ => None
  end.

(** [addSymbol(raw)]: normalize, reject empty and duplicate symbols, fetch,
    insert; any failure leaves the store as it was. *)
Definition add_symbol (raw : string) (st : list json) : list json :=
  let sym := js_upper (js_trim raw) in
  if String.eqb sym "" then st
  else if contains sym st then st
  else match fetch sym with
       | Some q => default st (insert q st)
       | None => st
       end.

(** [refreshAll()]: each entry independently; a failure keeps the last good
    quote. *)
Definition refresh_all (st : list json) : list json :=
  (fun q => match key q with
            | Some k => default q (fetch k)
            | None => q
            end) <$> st.

(** The store after one event of the page, as the spec describes it. *)
Definition spec_event (input : string) (e : event) (st : list json) : list json :=
  match e with
  | EvAdd => add_symbol input st
  | EvRemove sym => remove sym st
  | EvTick => refresh_all st
  | EvMcpReady => foldl (fun acc sym => match fetch sym with
                                        | Some q => acc ++ [q]
                                        | None => acc
                                        end) st demoSymbols
  | _ => st
  end.

(** The store's invariant: every quote has a symbol, no symbol twice. *)
Definition store_ok (st : list json) : Prop :=
  Forall (fun q => is_Some (key q)) st /\ NoDup (omap key st).

End WithServer.
End Spec.

(** ** Sequential runs *)

Section Sequential.
Context `{Server}.

(** The pages reached, with [window.mcp] set, when each event's calls
    settle before the next event, and the [mcp-ready] event comes while the
    watchlist is empty. *)
Inductive seq_reachable : dash -> Prop :=
| seq_init : seq_reachable (dash_init true)
| seq_next s e :
    seq_reachable s ->
    (e = EvMcpReady -> s.(watchlist) = []) ->
    seq_reachable (seq_step s e).

(** What holds between two events of a sequential run: no call pending,
    [window.mcp] set, no hole, and the present entries form a valid store. *)
Definition seq_inv (s : dash) : Prop :=
  s.(tasks) = [] /\ s.(mcp) = true /\
  s.(watchlist) = Some <$> present s.(watchlist) /\
  Spec.store_ok (present s.(watchlist)).

End Sequential.

(** The page once the demo loader has rendered: the loader has no
    [finally], so a render failure leaves the page as it was. *)
Definition demo_end (s : dash) : dash := match render s with Some s' => s' | None => s end.

(** A server that answers every symbol with a quote except MSFT, whose call
    rejects. *)
Definition flaky_server : Server :=
  fun arg =>
    match arg with
    | Some (JStr "MSFT") => Threw "timeout"
    | Some (JStr sym) => Returned (Some (sample_quote sym 200))
    | _ => Returned None
    end.

(** Three quotes on the page, nothing pending. *)
Definition page_three : dash :=
  Dash (Some <$> [sample_quote "AAPL" 150; sample_quote "MSFT" 300; sample_quote "GOOGL" 100])
       "" "" false false VEmpty [] true.

(** A provider that answers every symbol with a quote for that symbol. *)
Definition echo_provider (sym : string) : json :=
  JObj [("Global Quote",
    JObj [("01. symbol", JStr sym); ("02. open", JStr "10.00");
          ("03. high", JStr "11.00"); ("04. low", JStr "9.50");
          ("05. price", JStr "10.50"); ("06. volume", JStr "1200");
          ("07. latest trading day", JStr "2024-01-02");
          ("09. change", JStr "0.50"); ("10. change percent", JStr "5.00%")])].

(** ** Lemmas on the driver *)

Section DriverFacts.
Context `{Server}.

Lemma drain_no_tasks fuel s : s.(tasks) = [] -> drain fuel s = s.
Proof. destruct fuel; simpl; [done|]. by intros ->. Qed.

Lemma refresh_done_tasks s : (refresh_done s).(tasks) = s.(tasks).
Proof. unfold refresh_done. destruct (render s) eqn:E; [apply render_inv in E as [v ->]|]; done. Qed.

Lemma js_index_mid (pre : list json) x post :
  js_index (Some <$> (pre ++ x :: post)) (length pre) = Some x.
Proof.
  unfold js_index. rewrite fmap_app, fmap_cons, lookup_app_r; rewrite length_fmap; [|lia].
  by rewrite Nat.sub_diag.
Qed.

Lemma insert_mid (pre : list json) x y post :
  <[length pre := Some y]> (Some <$> (pre ++ x :: post)) = Some <$> (pre ++ y :: post).
Proof.
  rewrite !fmap_app, !fmap_cons.
  replace (length pre) with (length (Some <$> pre) + 0) by (rewrite length_fmap; lia).
  by rewrite insert_app_r.
Qed.

(** With nothing else pending, the driver settles the call just made. *)
Lemma drain_add_task fuel t s :
  s.(tasks) = [] ->
  drain (S fuel) (add_task t s) = drain fuel (resume t (server_answer (task_arg t)) s).
Proof. destruct s; simpl. by intros ->. Qed.

Lemma set_watchlist_twice w w' s : set_watchlist w (set_watchlist w' s) = set_watchlist w s.
Proof. reflexivity. Qed.

(** One iteration of the loop, when the entry is present: whatever the
    call gives, the entry becomes [refresh_entry x] and the loop goes on. *)
Lemma refresh_resume_entry pre x post s0 arg :
  s0.(watchlist) = Some <$> (pre ++ x :: post) -> symbol_of x = Some arg ->
  refresh_resume (length pre) (server_answer arg) s0 =
  refresh_iter (S (length pre)) (set_watchlist (Some <$> (pre ++ refresh_entry x :: post)) s0).
Proof.
  intros Hw Harg. unfold refresh_entry, refresh_resume. rewrite Harg.
  assert (Hlt : length pre < length s0.(watchlist))
    by (rewrite Hw, length_fmap, length_app; simpl; lia).
  destruct (server_answer arg) as [[y|]|m].
  - destruct (js_truthy (Some y)) eqn:Ey.
    + by rewrite js_set_in_range, Hw, insert_mid by done.
    + by rewrite set_watchlist_id.
  - by rewrite set_watchlist_id.
  - rewrite Hw, js_index_mid. change (js_get (Some x) "symbol") with (symbol_of x).
    rewrite Harg. by rewrite set_watchlist_id.
Qed.

(** The loop from entry [length pre] on, each call settled at once. *)
Lemma drain_refresh pre post s0 fuel :
  s0.(tasks) = [] -> s0.(watchlist) = Some <$> (pre ++ post) ->
  (forall y, y ∈ post -> js_truthy (Some y) = true) -> length post <= fuel ->
  drain fuel (refresh_iter (length pre) s0) =
  refresh_done (set_watchlist (Some <$> (pre ++ (refresh_entry <$> post))) s0).
Proof.
  revert pre s0 fuel.
  induction post as [|x post IH]; intros pre s0 fuel Ht Hw Hpost Hf.
  - rewrite app_nil_r in Hw. rewrite fmap_nil, app_nil_r, set_watchlist_id by done.
    unfold refresh_iter. rewrite decide_False by (rewrite Hw, length_fmap; lia).
    apply drain_no_tasks. fold (refresh_done s0). by rewrite refresh_done_tasks.
  - destruct fuel as [|fuel]; [simpl in Hf; lia|].
    destruct (truthy_symbol_of x) as [arg Harg]; [apply Hpost; by left|].
    unfold refresh_iter at 1.
    rewrite decide_True by (rewrite Hw, length_fmap, length_app; simpl; lia).
    rewrite Hw, js_index_mid. change (js_get (Some x) "symbol") with (symbol_of x).
    rewrite Harg, drain_add_task by done. simpl.
    rewrite (refresh_resume_entry pre x post) by done.
    replace (S (length pre)) with (length (pre ++ [refresh_entry x]))
      by (rewrite length_app; simpl; lia).
    rewrite IH; [|done|by rewrite <- app_assoc|intros y Hy; apply Hpost; by right|simpl in Hf; lia].
    by rewrite set_watchlist_twice, <- app_assoc.
Qed.

(** [refreshAll] on a dense, truthy, non-empty watchlist with no call
    pending, each call settled before anything else. *)
Lemma drain_refreshAll s xs fuel :
  s.(tasks) = [] -> s.(mcp) = true -> s.(watchlist) = Some <$> xs -> xs <> [] ->
  (forall y, y ∈ xs -> js_truthy (Some y) = true) -> length xs <= fuel ->
  drain fuel (refreshAll s) =
  refresh_done (set_watchlist (Some <$> (refresh_entry <$> xs)) (showLoading true s)).
Proof.
  intros Ht Hm Hw Hne Hxs Hf. unfold refreshAll. rewrite Hm, Hw. simpl.
  rewrite bool_decide_false by (rewrite length_fmap; destruct xs; simpl; [done|lia]).
  apply (drain_refresh [] xs); simpl; done.
Qed.

End DriverFacts.

(** ** Lemmas on the spec's store *)

Section SpecFacts.
Context `{Server}.

Lemma key_sym_is sym q : sym_is sym q = bool_decide (Spec.key q = Some sym).
Proof.
  unfold sym_is, Spec.key. destruct (symbol_of q) as [[[]|]|]; simpl; try reflexivity.
  unfold js_str_eq. apply bool_decide_ext. split; [by intros ->|by intros [= ->]].
Qed.

Lemma contains_sym_is sym st : Spec.contains sym st = existsb (sym_is sym) st.
Proof.
  unfold Spec.contains. induction st as [|q st IH]; simpl; [done|].
  by rewrite key_sym_is, IH.
Qed.

Lemma key_truthy q k : Spec.key q = Some k -> js_truthy (Some q) = true.
Proof.
  unfold Spec.key, symbol_of, js_get. by destruct q as [| | | | | |kvs];
    try destruct (py_lookup _ _) as [[]|].
Qed.

Lemma store_ok_truthy st : Spec.store_ok st -> forall y, y ∈ st -> js_truthy (Some y) = true.
Proof.
  intros [Hk _] y Hy. rewrite list.Forall_forall in Hk.
  destruct (Hk y Hy) as [k Hyk]. by eapply key_truthy.
Qed.

Lemma omap_key_contains k st :
  Spec.contains k st = false -> k ∉ omap Spec.key st.
Proof.
  unfold Spec.contains. intros Hc Hin. apply list_elem_of_omap in Hin as (q & Hq & Hkq).
  assert (existsb (fun q => bool_decide (Spec.key q = Some k)) st = true) as Hc'.
  { apply existsb_exists. exists q. rewrite <- list_elem_of_In.
    split; [done|]. by apply bool_decide_eq_true_2. }
  congruence.
Qed.

Lemma store_ok_snoc st q k :
  Spec.store_ok st -> Spec.key q = Some k -> Spec.contains k st = false ->
  Spec.store_ok (st ++ [q]).
Proof.
  intros [Hk Hn] Hq Hc. split.
  - apply Forall_app. split; [done|]. repeat constructor. by rewrite Hq.
  - rewrite omap_app. simpl. rewrite Hq. simpl.
    apply list.NoDup_app. split_and!; [done| |by apply NoDup_singleton].
    intros x Hx ->%list_elem_of_singleton. by apply (omap_key_contains k st).
Qed.

Lemma store_ok_filter (P : json -> Prop) `{!∀ q, Decision (P q)} st :
  Spec.store_ok st -> Spec.store_ok (filter P st).
Proof.
  intros [Hk Hn]. split; [by apply Forall_filter_sub|].
  induction st as [|q st IH]; [done|]. simpl in Hn.
  apply list.Forall_cons in Hk as [[k Hq] Hk]. rewrite Hq in Hn.
  apply list.NoDup_cons in Hn as [Hkn Hn].
  rewrite filter_cons. case_decide; simpl; [|by apply IH].
  rewrite Hq. apply list.NoDup_cons. split; [|by apply IH].
  intros Hin. apply Hkn. apply list_elem_of_omap in Hin as (q' & Hq' & Hk').
  apply list_elem_of_omap. exists q'. split; [|done].
  by apply list_elem_of_filter in Hq' as [_ ?].
Qed.

Lemma store_ok_fmap (f : json -> json) st :
  (forall q, q ∈ st -> Spec.key (f q) = Spec.key q) ->
  Spec.store_ok st -> Spec.store_ok (f <$> st).
Proof.
  intros Hf [Hk Hn].
  split; [|by rewrite omap_fmap_eq].
  apply Forall_fmap. rewrite list.Forall_forall in Hk |- *. intros q Hq.
  simpl. rewrite Hf by done. by apply Hk.
Qed.

End SpecFacts.

(** ** Each event of a sequential run implements the spec *)

Section SeqFacts.
Context `{EchoingServer}.

Lemma removeStock_frame sym s :
  (removeStock sym s).(tasks) = s.(tasks) /\ (removeStock sym s).(mcp) = s.(mcp).
Proof. unfold removeStock. by dash_cases. Qed.

Lemma refresh_done_frame s :
  (refresh_done s).(watchlist) = s.(watchlist) /\ (refresh_done s).(tasks) = s.(tasks) /\
  (refresh_done s).(mcp) = s.(mcp).
Proof. unfold refresh_done. by dash_cases. Qed.

Lemma seq_step_some s e s1 :
  step s e = Some s1 -> seq_step s e = drain (settle_fuel s1) s1.
Proof. unfold seq_step. by intros ->. Qed.

Lemma seq_step_quiet s e s1 :
  s.(tasks) = [] -> step s e = Some s1 -> s1.(tasks) = [] -> seq_step s e = s1.
Proof. intros _ Hs Ht. unfold seq_step. rewrite Hs. by apply drain_no_tasks. Qed.

(** A sequential invariant from the store it holds. *)
Lemma seq_inv_intro s xs :
  s.(tasks) = [] -> s.(mcp) = true -> s.(watchlist) = Some <$> xs ->
  Spec.store_ok xs -> seq_inv s.
Proof.
  intros Ht Hm Hw Hok. unfold seq_inv. rewrite Hw, present_dense_fmap. done.
Qed.

Lemma seq_remove s sym :
  seq_inv s ->
  seq_inv (seq_step s (EvRemove sym)) /\
  present (seq_step s (EvRemove sym)).(watchlist) = Spec.remove sym (present s.(watchlist)).
Proof.
  intros (Ht & Hm & Hw & Hok).
  destruct (removeStock_frame sym s) as [Ht' Hm'].
  rewrite (seq_step_quiet s _ (removeStock sym s)) by (done || congruence).
  assert (Hwl : (removeStock sym s).(watchlist) =
                Some <$> Spec.remove sym (present s.(watchlist))).
  { rewrite removeStock_watchlist by (intros y; apply store_ok_truthy, Hok).
    f_equal. unfold Spec.remove. apply list_filter_iff. intros q.
    rewrite key_sym_is. destruct (bool_decide_reflect (Spec.key q = Some sym)); naive_solver. }
  split; [|by rewrite Hwl, present_dense_fmap].
  apply (seq_inv_intro _ (Spec.remove sym (present s.(watchlist)))); try congruence.
  by apply store_ok_filter.
Qed.

Lemma refresh_entry_key x k :
  Spec.key x = Some k -> refresh_entry x = default x (Spec.fetch k).
Proof.
  unfold Spec.key, refresh_entry, Spec.fetch.
  destruct (symbol_of x) as [[[]|]|]; try discriminate. intros [= ->].
  destruct (server_answer _) as [[y|]|]; [|done|done]. by destruct (js_truthy (Some y)).
Qed.

Lemma fetch_key k y : Spec.fetch k = Some y -> Spec.key y = Some k.
Proof.
  unfold Spec.fetch. destruct (server_answer _) as [[x|]|] eqn:E; try discriminate.
  destruct (js_truthy (Some x)) eqn:Ex; [|discriminate]. intros [= <-].
  apply (bool_decide_eq_true_1 (Spec.key x = Some k)). rewrite <- key_sym_is.
  by apply (echo k x).
Qed.

Lemma seq_tick s :
  seq_inv s ->
  seq_inv (seq_step s EvTick) /\
  present (seq_step s EvTick).(watchlist) = Spec.refresh_all (present s.(watchlist)).
Proof.
  intros (Ht & Hm & Hw & Hok).
  set (xs := present s.(watchlist)) in *.
  destruct (decide (xs = [])) as [Hnil|Hne].
  - assert (refreshAll s = s) as Hr.
    { unfold refreshAll. rewrite Hm, Hw, Hnil. done. }
    rewrite (seq_step_quiet s _ s); [|done|simpl; by rewrite Hr|done].
    split; [unfold seq_inv; split_and!; assumption|]. by rewrite Hnil.
  - assert (Hxs : forall y, y ∈ xs -> js_truthy (Some y) = true) by
      (apply store_ok_truthy, Hok).
    unfold seq_step. simpl. unfold settle_fuel. rewrite refreshAll_wl.
    rewrite (drain_refreshAll s xs) by (done || (rewrite Hw, length_fmap; lia)).
    destruct (refresh_done_frame (set_watchlist (Some <$> (refresh_entry <$> xs)) (showLoading true s)))
      as (Hw' & Ht' & Hm'). simpl in Hw', Ht', Hm'.
    destruct Hok as [Hk Hn].
    assert (Hmap : refresh_entry <$> xs = Spec.refresh_all xs).
    { unfold Spec.refresh_all. apply fmap_ext_elem. intros x Hx.
      rewrite list.Forall_forall in Hk. destruct (Hk x Hx) as [k Hxk].
      rewrite Hxk. by apply refresh_entry_key. }
    split; [|by rewrite Hw', present_dense_fmap].
    apply (seq_inv_intro _ (Spec.refresh_all xs)); [congruence|congruence|by rewrite Hw', Hmap|].
    rewrite <- Hmap. apply store_ok_fmap; [|by split].
    intros x Hx. rewrite list.Forall_forall in Hk. destruct (Hk x Hx) as [k Hxk].
    rewrite (refresh_entry_key x k Hxk), Hxk.
    destruct (Spec.fetch k) as [y|] eqn:Ey; simpl; [by apply fetch_key|done].
Qed.

Lemma addStock_resume_frame o s :
  (addStock_resume o s).(tasks) = s.(tasks) /\ (addStock_resume o s).(mcp) = s.(mcp) /\
  (addStock_resume o s).(watchlist) =
    match o with
    | Returned (Some x) => if add_accepts (Some x) then js_push x s.(watchlist) else s.(watchlist)
    | _ => s.(watchlist)
    end.
Proof.
  unfold addStock_resume. destruct o as [[x|]|m];
    [destruct (add_accepts (Some x));
       [destruct (render _) eqn:E; [apply render_inv in E as [v ->]|]|]|..];
    split_and!; reflexivity.
Qed.

Lemma add_accepts_fetch sym x :
  sym <> "" -> server_answer (Some (JStr sym)) = Returned (Some x) ->
  add_accepts (Some x) = js_truthy (Some x).
Proof.
  intros Hne Ha. destruct (js_truthy (Some x)) eqn:Ex.
  - apply (sym_is_accepts sym); [done|]. by apply echo.
  - unfold add_accepts. by rewrite Ex.
Qed.

(** The handler left the store [xs] as it was. *)
#[local] Ltac keep_store xs Ht1 Hm1 Hw1 :=
  split; [apply (seq_inv_intro _ xs);
          [rewrite Ht1; assumption|rewrite Hm1; assumption
          |rewrite Hw1; assumption|assumption]
         |rewrite Hw1; reflexivity].

Lemma seq_add s :
  seq_inv s ->
  seq_inv (seq_step s EvAdd) /\
  present (seq_step s EvAdd).(watchlist) = Spec.add_symbol s.(input_value) (present s.(watchlist)).
Proof.
  intros (Ht & Hm & Hw & Hok). set (xs := present s.(watchlist)) in *.
  assert (Hxs : forall y, y ∈ xs -> js_truthy (Some y) = true) by
    (apply store_ok_truthy, Hok).
  unfold Spec.add_symbol. set (sym := js_upper (js_trim (input_value s))).
  unfold seq_step. simpl. unfold addStock. fold sym.
  destruct (String.eqb_spec sym "") as [Hemp|Hne].
  { rewrite (drain_no_tasks _ s Ht). split; [unfold seq_inv; split_and!; assumption|done]. }
  rewrite has_symbol_spec, <- contains_sym_is by done. fold xs.
  destruct (Spec.contains sym xs) eqn:Ec.
  { rewrite drain_no_tasks by (simpl; done). split; [unfold seq_inv; simpl; split_and!; assumption|done]. }
  change (mcp (hideError (showLoading true (set_input "" s)))) with (mcp s). rewrite Hm.
  set (s1 := hideError (showLoading true (set_input "" s))).
  unfold settle_fuel. rewrite Nat.add_succ_r, drain_add_task by exact Ht.
  change (resume (TAdd sym) ?o s1) with (addStock_resume o s1).
  change (task_arg (TAdd sym)) with (Some (JStr sym)).
  destruct (addStock_resume_frame (server_answer (Some (JStr sym))) s1) as (Ht1 & Hm1 & Hw1).
  rewrite drain_no_tasks by (rewrite Ht1; done).
  unfold Spec.fetch. destruct (server_answer (Some (JStr sym))) as [[x|]|m] eqn:Eo;
    try keep_store xs Ht1 Hm1 Hw1.
  rewrite (add_accepts_fetch sym x) in Hw1 by done.
  destruct (js_truthy (Some x)) eqn:Ex; [|keep_store xs Ht1 Hm1 Hw1].
  assert (Hkx : Spec.key x = Some sym).
  { apply (bool_decide_eq_true_1 (Spec.key x = Some sym)). rewrite <- key_sym_is.
    by apply (echo sym x). }
  unfold Spec.insert. rewrite Hkx, Ec. cbn [default].
  assert (Hw2 : (addStock_resume (Returned (Some x)) s1).(watchlist) = Some <$> (xs ++ [x])).
  { rewrite Hw1. simpl. rewrite Hw. unfold js_push. by rewrite fmap_app. }
  split; [|by rewrite Hw2, present_dense_fmap].
  apply (seq_inv_intro _ (xs ++ [x]));
    [rewrite Ht1; assumption|rewrite Hm1; assumption|exact Hw2|].
  by apply (store_ok_snoc xs x sym).
Qed.

(** How the [mcp-ready] listener ends: a render, whose failure is only an
    unhandled rejection. *)

Lemma demo_end_frame s :
  (demo_end s).(watchlist) = s.(watchlist) /\ (demo_end s).(tasks) = s.(tasks) /\
  (demo_end s).(mcp) = s.(mcp).
Proof. unfold demo_end. by dash_cases. Qed.

Lemma drain_demo syms s fuel :
  s.(tasks) = [] -> s.(mcp) = true -> length syms < fuel ->
  drain fuel (demo_iter syms s) =
  demo_end (set_watchlist (s.(watchlist) ++ (Some <$> omap Spec.fetch syms)) s).
Proof.
  revert s fuel. induction syms as [|sym rest IH]; intros s fuel Ht Hm Hf.
  - simpl. rewrite app_nil_r, set_watchlist_id by done.
    apply drain_no_tasks. fold (demo_end s). by destruct (demo_end_frame s) as (_ & -> & _).
  - destruct fuel as [|fuel]; [simpl in Hf; lia|].
    simpl demo_iter. rewrite Hm, drain_add_task by done. simpl in Hf.
    change (resume (TDemo sym rest) ?o s) with (demo_resume rest o s).
    change (task_arg (TDemo sym rest)) with (Some (JStr sym)).
    cbn [omap list_omap]. unfold Spec.fetch at 1.
    unfold demo_resume.
    destruct (server_answer (Some (JStr sym))) as [[x|]|m];
      [destruct (js_truthy (Some x))|..];
      rewrite IH by (done || lia); try done.
    rewrite set_watchlist_twice. f_equal. f_equal. simpl. unfold js_push.
    by rewrite <- app_assoc.
Qed.

Lemma foldl_fetch syms acc :
  foldl (fun acc sym => match Spec.fetch sym with Some q => acc ++ [q] | None => acc end)
    acc syms = acc ++ omap Spec.fetch syms.
Proof.
  revert acc. induction syms as [|sym rest IH]; intros acc; simpl; [by rewrite app_nil_r|].
  rewrite IH. destruct (Spec.fetch sym); [|done]. by rewrite <- app_assoc.
Qed.

Lemma store_ok_fetched syms : NoDup syms -> Spec.store_ok (omap Spec.fetch syms).
Proof.
  induction syms as [|sym rest IH]; intros Hn; [split; constructor|].
  apply list.NoDup_cons in Hn as [Hsym Hn]. destruct (IH Hn) as [Hk Hnd].
  cbn [omap list_omap]. destruct (Spec.fetch sym) as [y|] eqn:Ey; [|by split].
  pose proof (fetch_key _ _ Ey) as Hky.
  split; [constructor; [by rewrite Hky|done]|].
  cbn [omap list_omap]. rewrite Hky. apply list.NoDup_cons. split; [|done].
  intros Hin. apply Hsym. apply list_elem_of_omap in Hin as (q & Hq & Hkq).
  apply list_elem_of_omap in Hq as (sym' & Hsym' & Ef).
  rewrite (fetch_key _ _ Ef) in Hkq. by injection Hkq as ->.
Qed.

Lemma seq_demo s :
  seq_inv s -> s.(watchlist) = [] ->
  seq_inv (seq_step s EvMcpReady) /\
  present (seq_step s EvMcpReady).(watchlist) = Spec.spec_event s.(input_value) EvMcpReady (present s.(watchlist)).
Proof.
  intros (Ht & Hm & _ & _) Hnil.
  unfold Spec.spec_event. rewrite Hnil, foldl_fetch.
  rewrite (seq_step_some s EvMcpReady (demo_iter demoSymbols s)) by reflexivity.
  unfold settle_fuel. rewrite demo_iter_wl, Hnil, drain_demo by (done || simpl; lia).
  rewrite Hnil.
  set (W := Some <$> omap Spec.fetch demoSymbols).
  destruct (demo_end_frame (set_watchlist ([] ++ W) s)) as (Hw' & Ht' & Hm').
  split; [|rewrite Hw'; cbn [watchlist set_watchlist app]; subst W; apply present_dense_fmap].
  apply (seq_inv_intro _ (omap Spec.fetch demoSymbols));
    [rewrite Ht'; exact Ht|rewrite Hm'; exact Hm|rewrite Hw'; reflexivity|].
  apply store_ok_fetched. decide_by_compute.
Qed.

Lemma seq_event_spec s e :
  seq_inv s -> (e = EvMcpReady -> s.(watchlist) = []) ->
  seq_inv (seq_step s e) /\
  present (seq_step s e).(watchlist) = Spec.spec_event s.(input_value) e (present s.(watchlist)).
Proof.
  intros Hinv He. destruct e as [v| |sym| | |k o].
  - destruct Hinv as (Ht & Hm & Hw & Hok).
    rewrite (seq_step_quiet s _ (set_input v s)) by done. by split; [split_and!|].
  - by apply seq_add.
  - by apply seq_remove.
  - by apply seq_tick.
  - by apply seq_demo, He.
  - destruct Hinv as (Ht & Hm & Hw & Hok).
    unfold seq_step. simpl. rewrite Ht. simpl. by split; [split_and!|].
Qed.

Lemma seq_inv_reachable s : seq_reachable s -> seq_inv s.
Proof.
  induction 1 as [|s e Hs IH He].
  - split_and!; try done. split; constructor.
  - by apply seq_event_spec.
Qed.

Lemma dense_present w : w = Some <$> present w -> dense w.
Proof. intros ->. apply Forall_fmap, Forall_true. intros x. by eexists. Qed.
End SeqFacts.

(** The sample provider makes [tool_server] an echoing server. *)
Lemma echo_provider_answer sym :
  exists q, get_stock_quote sym (echo_provider sym) = Ok q /\ q_symbol q = JStr sym.
Proof. eexists. split; reflexivity. Qed.

#[export] Instance echo_provider_echoes : @EchoingServer (tool_server echo_provider).
Proof.
  intros sym x Ha _. destruct (echo_provider_answer sym) as (q & Hq & Hs).
  unfold server_answer, tool_server in Ha. rewrite Hq in Ha. simpl in Ha.
  injection Ha as <-. unfold sym_is, quote_json, symbol_of. simpl.
  rewrite Hs. simpl. by apply bool_decide_eq_true_2.
Qed.

(** ** Properties *)

(** Claim C4: [refreshAll] on a watchlist of N truthy entries without holes,
    each call settled before anything else, ends after N settlements.  It
    leaves no call pending, and each entry is replaced by the server's
    truthy answer for its own symbol or, when that call fails or answers
    nothing, kept as it was.  The length and order are unchanged, the error
    banner is untouched, and the loading banner is off exactly when the
    final render succeeds. *)
Theorem refreshAll_isolation `{Server} s xs fuel :
  s.(tasks) = [] -> s.(mcp) = true -> s.(watchlist) = Some <$> xs -> xs <> [] ->
  (forall y, y ∈ xs -> js_truthy (Some y) = true) -> length xs <= fuel ->
  let s' := drain fuel (refreshAll s) in
  s'.(tasks) = [] /\ s'.(watchlist) = Some <$> (refresh_entry <$> xs) /\
  s'.(error_shown) = s.(error_shown) /\ s'.(error_text) = s.(error_text) /\
  s'.(loading) = match renderWatchlist (Some <$> (refresh_entry <$> xs)) with
                 | Some _ => false | None => true end.
Proof.
  intros Ht Hm Hw Hne Hxs Hf. simpl. rewrite (drain_refreshAll s xs) by done.
  unfold refresh_done, render. simpl.
  destruct (renderWatchlist _); simpl; split_and!; done.
Qed.

(** Claim C2: in a sequential run (every call settles before the next user
    or timer event, and [mcp-ready] arrives while the watchlist is empty)
    against a server whose truthy answer for a symbol is a quote for that
    symbol, the page never has a pending call between events, never has a
    hole in the watchlist, and never stores two entries with the same
    symbol. *)
Theorem seq_no_duplicates `{EchoingServer} s :
  seq_reachable s ->
  s.(tasks) = [] /\ dense s.(watchlist) /\ Spec.store_ok (present s.(watchlist)).
Proof.
  intros Hs. destruct (seq_inv_reachable s Hs) as (Ht & _ & Hw & Hok).
  split_and!; [done|by apply dense_present|done].
Qed.

(** Claim C3: in such a sequential run each event changes the present
    entries exactly as the spec's coordinator does.  [addStock] is
    [addSymbol] (normalize, reject empty or tracked symbols, fetch, insert),
    [removeStock] is [removeSymbol], the timer's [refreshAll] refreshes each
    entry independently and keeps the last good quote, [mcp-ready] inserts
    the demo symbols it can fetch, and every other event changes nothing. *)
Theorem seq_refines `{EchoingServer} s e :
  seq_reachable s -> (e = EvMcpReady -> s.(watchlist) = []) ->
  present (seq_step s e).(watchlist) =
  Spec.spec_event s.(input_value) e (present s.(watchlist)).
Proof. intros Hs He. by apply seq_event_spec; [apply seq_inv_reachable|]. Qed.

(** The two programs composed.  With the Python tool answering
    from Alpha Vantage's AAPL quote, typing " aapl " and pressing "Add
    Stock" leaves one entry in the watchlist.  That entry is exactly the
    JSON of the dict [get_stock_quote] returns. *)
Example add_through_tool :
  exists q, get_stock_quote "AAPL" aapl_response = Ok q /\
  (@seq_step (tool_server (fun _ => aapl_response))
     (set_input " aapl " (dash_init true)) EvAdd).(watchlist) = [Some (quote_json q)].
Proof. eexists. split; [reflexivity|]. vm_compute. reflexivity. Qed.

(** The spec's insertion-order example.  Adding MSFT, then AAPL,
    then removing MSFT, then adding GOOGL, each handler run to the end
    against a provider that answers for the symbol asked, leaves the
    watchlist with the symbols AAPL and GOOGL in that order. *)
Example insertion_order :
  omap Spec.key (present
    (foldl (@seq_step (tool_server echo_provider)) (dash_init true)
       [EvInput "MSFT"; EvAdd; EvInput "AAPL"; EvAdd; EvRemove "MSFT";
        EvInput "GOOGL"; EvAdd]).(watchlist)) = ["AAPL"; "GOOGL"].
Proof. vm_compute. reflexivity. Qed.

(** ** Witnesses *)

Lemma refreshAll_isolation_witness :
  let s' := @drain flaky_server 3 (@refreshAll page_three) in
  s'.(tasks) = [] /\
  s'.(watchlist) = Some <$> (@refresh_entry flaky_server <$>
                     [sample_quote "AAPL" 150; sample_quote "MSFT" 300; sample_quote "GOOGL" 100]) /\
  s'.(error_shown) = false /\ s'.(error_text) = "" /\
  s'.(loading) = match renderWatchlist (Some <$> (@refresh_entry flaky_server <$>
                     [sample_quote "AAPL" 150; sample_quote "MSFT" 300; sample_quote "GOOGL" 100]))
                 with Some _ => false | None => true end.
Proof.
  apply (@refreshAll_isolation flaky_server page_three); try reflexivity.
  - discriminate.
  - apply list.Forall_forall. repeat constructor.
Defined.

Lemma seq_no_duplicates_witness :
  let s := @seq_step (tool_server echo_provider)
             (@seq_step (tool_server echo_provider) (dash_init true) (EvInput "aapl")) EvAdd in
  s.(tasks) = [] /\ dense s.(watchlist) /\ Spec.store_ok (present s.(watchlist)).
Proof.
  apply (@seq_no_duplicates (tool_server echo_provider) _).
  apply seq_next; [apply seq_next; [apply seq_init|discriminate]|discriminate].
Defined.

Lemma seq_refines_witness :
  let s := @seq_step (tool_server echo_provider) (dash_init true) (EvInput "msft") in
  present (@seq_step (tool_server echo_provider) s EvAdd).(watchlist) =
  @Spec.spec_event (tool_server echo_provider) s.(input_value) EvAdd (present s.(watchlist)).
Proof.
  apply (@seq_refines (tool_server echo_provider) _).
  - apply seq_next; [apply seq_init|discriminate].
  - discriminate.
Defined.
