(* ===== verification/Settle.v ===== *)
(** * Every handler's calls settle: termination of the sequential driver

    [Store.seq_step] runs one event and then settles its calls with
    [drain], one after the other, with [settle_fuel] (the length of the
    watchlist plus 4) settlements at most.  This file proves that this is
    always enough, whatever the server answers: from a page with no
    pending call, [seq_step] leaves none pending.

    The argument is a variant, as for a [for] loop.  Under the sequential
    discipline at most one call is pending at a time.  [pending_measure]
    bounds the settlements it still needs: one for [addStock], the entries
    left for [refreshAll], and the symbols left for the demo loader.
    Each settlement lowers the measure, whatever the call's outcome. *)

From S2P Require Import Prelude Json Text PyNum Quote Dashboard Store.

(** The settlements the pending call still needs, or [None] when more
    than one call is pending or a refresh points past the end. *)
Definition pending_measure (s : dash) : option nat :=
  match s.(tasks) with
  | [] => Some 0
  | [TAdd _] => Some 1
  | [TRefresh i _] =>
      if decide (i < length s.(watchlist)) then Some (length s.(watchlist) - i) else None
  | [TDemo _ rest] => Some (S (length rest))
  | _ => None
  end.

(** ** Lemmas *)

Section Measure.
Context `{Server}.

Lemma pending_measure_0 s : pending_measure s = Some 0 -> s.(tasks) = [].
Proof.
  unfold pending_measure. destruct s.(tasks) as [|[] [|]]; try done.
  case_decide; [intros [=]; lia|done].
Qed.

Lemma measure_no_tasks s : s.(tasks) = [] -> pending_measure s = Some 0.
Proof. unfold pending_measure. by intros ->. Qed.

Lemma refresh_iter_measure i s :
  s.(tasks) = [] ->
  exists m, pending_measure (refresh_iter i s) = Some m /\ m <= length s.(watchlist) - i.
Proof.
  intros Ht. unfold refresh_iter. case_decide.
  - destruct (js_get _ _).
    + exists (length s.(watchlist) - i). split; [|lia]. unfold pending_measure, add_task. simpl.
      rewrite Ht. simpl. by rewrite decide_True.
    + exists 0. split; [by apply measure_no_tasks|lia].
  - exists 0. split; [|lia]. apply measure_no_tasks.
    destruct (render s) eqn:E; [apply render_inv in E as [v ->]|]; done.
Qed.

Lemma demo_iter_measure rest s :
  s.(tasks) = [] ->
  exists m, pending_measure (demo_iter rest s) = Some m /\ m <= length rest.
Proof.
  revert s. induction rest as [|sym rest IH]; intros s Ht; simpl.
  - exists 0. split; [|lia]. apply measure_no_tasks.
    destruct (render s) eqn:E; [apply render_inv in E as [v ->]|]; done.
  - destruct s.(mcp).
    + exists (S (length rest)). split; [|done]. unfold pending_measure, add_task. simpl. by rewrite Ht.
    + destruct (IH s Ht) as (m & Hm & Hle). exists m. split; [done|lia].
Qed.

Lemma length_js_set_in i x a : i < length a -> length (js_set i x a) = length a.
Proof. intros Hi. rewrite length_js_set. lia. Qed.

(** One settlement lowers the measure, whatever the call's outcome. *)
Lemma resume_measure s t n o :
  s.(tasks) = [t] -> pending_measure s = Some (S n) ->
  exists m, pending_measure (resume t o (set_tasks [] s)) = Some m /\ m <= n.
Proof.
  intros Ht Hm. unfold pending_measure in Hm. rewrite Ht in Hm.
  destruct t as [sym|i arg|sym rest]; simpl.
  - exists 0. split; [|lia]. apply measure_no_tasks.
    by rewrite (proj1 (addStock_resume_frame o _)).
  - case_decide as Hi; [|done]. injection Hm as Hn.
    unfold refresh_resume. destruct o as [[x|]|msg].
    + destruct (js_truthy (Some x)).
      * destruct (refresh_iter_measure (S i) (set_watchlist (js_set i x s.(watchlist)) (set_tasks [] s)))
          as (m & Hm' & Hle); [done|].
        exists m. split; [done|]. simpl in Hle. rewrite length_js_set_in in Hle by done. lia.
      * destruct (refresh_iter_measure (S i) (set_tasks [] s)) as (m & Hm' & Hle); [done|].
        exists m. split; [done|]. simpl in Hle. lia.
    + destruct (refresh_iter_measure (S i) (set_tasks [] s)) as (m & Hm' & Hle); [done|].
      exists m. split; [done|]. simpl in Hle. lia.
    + destruct (js_get _ _).
      * destruct (refresh_iter_measure (S i) (set_tasks [] s)) as (m & Hm' & Hle); [done|].
        exists m. split; [done|]. simpl in Hle. lia.
      * exists 0. split; [|lia]. by apply measure_no_tasks.
  - injection Hm as Hn. subst n. unfold demo_resume.
    destruct o as [[x|]|msg]; [destruct (js_truthy (Some x))| |]; apply demo_iter_measure; done.
Qed.

(** The driver settles everything within the measure. *)
Lemma drain_measure fuel s n :
  pending_measure s = Some n -> n <= fuel -> (drain fuel s).(tasks) = [].
Proof.
  revert s n. induction fuel as [|fuel IH]; intros s n Hm Hle.
  - assert (n = 0) as -> by lia. by apply pending_measure_0.
  - simpl. destruct s.(tasks) as [|t rest] eqn:Ht; [done|].
    destruct n as [|n]; [apply pending_measure_0 in Hm; congruence|].
    assert (rest = []) as ->.
    { unfold pending_measure in Hm. rewrite Ht in Hm. by destruct t, rest. }
    destruct (resume_measure s t n (server_answer (task_arg t)) Ht Hm) as (m & Hm' & Hmn).
    apply (IH _ m Hm'). lia.
Qed.

Lemma addStock_measure s :
  s.(tasks) = [] -> exists m, pending_measure (addStock s) = Some m /\ m <= 1.
Proof.
  intros Ht. unfold addStock.
  repeat case_match; try (exists 0; split; [by apply measure_no_tasks|lia]).
  exists 1. split; [|done]. unfold pending_measure, add_task. simpl. by rewrite Ht.
Qed.

(** Each event leaves at most one call, within [settle_fuel]. *)
Lemma step_measure s e s1 :
  s.(tasks) = [] -> step s e = Some s1 ->
  exists m, pending_measure s1 = Some m /\ m <= settle_fuel s1.
Proof.
  intros Ht Hs. unfold settle_fuel.
  destruct e; simpl in Hs; simplify_eq.
  - exists 0. split; [by apply measure_no_tasks|lia].
  - destruct (addStock_measure s Ht) as (m & ? & ?). exists m. split; [done|lia].
  - exists 0. split; [|lia]. apply measure_no_tasks. by rewrite (proj1 (removeStock_frame _ _)).
  - rewrite refreshAll_wl. unfold refreshAll.
    destruct (negb _ || _).
    + exists 0. split; [by apply measure_no_tasks|lia].
    + destruct (refresh_iter_measure 0 (showLoading true s)) as (m & ? & ?); [done|].
      exists m. split; [done|]. simpl in *. lia.
  - destruct (demo_iter_measure demoSymbols s Ht) as (m & ? & ?). exists m. split; [done|].
    unfold demoSymbols in *. simpl in *. lia.
  - rewrite Ht in Hs. done.
Qed.
End Measure.

(** ** Properties *)

(** Claim C6: whatever the tool calls return (a quote, a falsy value,
    nothing, or a rejection) and whatever the page holds, every handler
    run from a page with no pending call has all its calls settled within
    [settle_fuel]: [seq_step] never leaves a call pending.  [addStock]
    needs one settlement, [refreshAll] one per entry, the demo loader
    three. *)
Theorem seq_step_settles `{Server} s e :
  s.(tasks) = [] -> (seq_step s e).(tasks) = [].
Proof.
  intros Ht. unfold seq_step. destruct (step s e) as [s1|] eqn:Es; [|done].
  destruct (step_measure s e s1 Ht Es) as (m & Hm & Hle). by apply (drain_measure _ _ m).
Qed.

(** ** Witnesses *)

Lemma seq_step_settles_witness :
  (@seq_step flaky_server page_three EvTick).(tasks) = [].
Proof. apply (@seq_step_settles flaky_server). reflexivity. Defined.
