(* ===== verification/Banner.v ===== *)
(** * What the page shows between events

    [Compose] shows that one quote which cannot be drawn keeps the loading
    banner on for good.  This file proves the other side, for the
    sequential runs of [Store]: the server answers for the symbol asked
    ([EchoingServer]), and every truthy answer can be drawn as a card
    ([RenderingServer]).  Then, after every event, the loading banner is
    off and the cards on the page are the rendering of the current
    watchlist.  Every handler that changes the array calls
    [renderWatchlist()] after its last change, and the spec requires the
    Presentation Adapter to re-render on every change. *)

From S2P Require Import Prelude Json Text PyNum Quote Dashboard Store.

(** Every truthy answer of the server renders as a card. *)
Class RenderingServer `{Server} :=
  renders : forall arg y, server_answer arg = Returned (Some y) ->
            js_truthy (Some y) = true -> card_ok y = true.

(** The view is up to date: it is the rendering of the watchlist, or
    the blank container of the loaded page while nothing was ever
    stored. *)
Definition view_current (s : dash) : Prop :=
  renderWatchlist s.(watchlist) = Some s.(view_of) \/
  (s.(view_of) = VBlank /\ s.(watchlist) = []).

(** The page is up to date: the view is current and the loading banner
    is off. *)
Definition page_shown (s : dash) : Prop := view_current s /\ s.(loading) = false.

(** Every stored entry can be drawn. *)
Definition drawable (xs : list json) : Prop := Forall (fun y => card_ok y = true) xs.

(** ** Lemmas *)

Lemma render_drawable s :
  drawable (present s.(watchlist)) ->
  exists v, renderWatchlist s.(watchlist) = Some v /\ render s = Some (set_view v s).
Proof.
  intros Hd. unfold render, renderWatchlist. case_decide; [by eexists|].
  assert (Hf : forallb card_ok (present s.(watchlist)) = true).
  { apply forallb_forall. intros y Hy. apply list_elem_of_In in Hy.
    unfold drawable in Hd. rewrite list.Forall_forall in Hd. by apply Hd. }
  rewrite Hf. by eexists.
Qed.

(** After the final [renderWatchlist()] of a handler, the view is up to
    date. *)
Lemma render_shown s :
  drawable (present s.(watchlist)) ->
  renderWatchlist (match render s with Some s' => s' | None => s end).(watchlist) =
  Some (match render s with Some s' => s' | None => s end).(view_of).
Proof. intros Hd. destruct (render_drawable s Hd) as (v & Hv & ->). done. Qed.

Section Banner.
Context `{EchoingServer} `{!RenderingServer}.

(** The store-level operations keep every entry drawable. *)
Lemma fetch_drawable sym q : Spec.fetch sym = Some q -> card_ok q = true.
Proof.
  unfold Spec.fetch. destruct (server_answer _) as [[y|]|] eqn:E; try done.
  destruct (js_truthy (Some y)) eqn:Ey; [|done]. intros [= <-]. by eapply renders.
Qed.

Lemma foldl_fetch_drawable syms st :
  drawable st ->
  drawable (foldl (fun acc sym => match Spec.fetch sym with Some q => acc ++ [q] | None => acc end)
              st syms).
Proof.
  revert st. induction syms as [|sym syms IH]; intros st Hd; simpl; [done|].
  apply IH. destruct (Spec.fetch sym) eqn:Ef; [|done].
  apply Forall_app. split; [done|]. constructor; [eapply fetch_drawable; eassumption|done].
Qed.

Lemma spec_event_drawable input e st :
  drawable st -> drawable (Spec.spec_event input e st).
Proof.
  intros Hd. destruct e; cbn [Spec.spec_event]; try done; unfold drawable in *.
  - unfold Spec.add_symbol. repeat case_match; simpl; try done.
    unfold Spec.insert in *. repeat case_match; simplify_eq/=; try done.
    apply Forall_app. split; [done|]. constructor; [eapply fetch_drawable; eassumption|done].
  - by apply Forall_filter_sub.
  - unfold Spec.refresh_all. apply Forall_fmap. rewrite list.Forall_forall in Hd |- *.
    intros q Hq. simpl. destruct (Spec.key q); [|by apply Hd].
    destruct (Spec.fetch _) eqn:Ef; simpl; [eapply fetch_drawable; eassumption|by apply Hd].
  - by apply foldl_fetch_drawable.
Qed.

(** [addStock()] after its [await]: whatever the call gave, the banner is
    hidden and the view is up to date. *)
Lemma addStock_resume_shown o s :
  (forall x, o = Returned (Some x) -> js_truthy (Some x) = true -> card_ok x = true) ->
  view_current s -> drawable (present s.(watchlist)) ->
  page_shown (addStock_resume o s).
Proof.
  intros Ho Hv Hd. unfold addStock_resume, page_shown.
  destruct o as [[x|]|m]; [destruct (add_accepts (Some x)) eqn:Ea| |]; simpl; try done.
  assert (Hd' : drawable (present (set_watchlist (js_push x s.(watchlist)) s).(watchlist))).
  { simpl. rewrite js_push_present. apply Forall_app. split; [done|].
    constructor; [|done]. by apply Ho, add_accepts_truthy. }
  destruct (render_drawable _ Hd') as (v & Hv' & ->). split; [by left|done].
Qed.

Lemma refresh_entry_drawable x : card_ok x = true -> card_ok (refresh_entry x) = true.
Proof.
  intros Hx. unfold refresh_entry. destruct (symbol_of x) as [arg|]; [|done].
  destruct (server_answer arg) as [[y|]|] eqn:E; try done.
  destruct (js_truthy (Some y)) eqn:Ey; [by eapply renders|done].
Qed.

Lemma omap_fetch_drawable syms : drawable (omap Spec.fetch syms).
Proof.
  unfold drawable. induction syms as [|sym syms IH]; [constructor|]. cbn [omap list_omap].
  destruct (Spec.fetch sym) eqn:Ef; [constructor; [eapply fetch_drawable; eassumption|]|]; done.
Qed.

Lemma seq_add_shown s :
  seq_inv s -> page_shown s -> drawable (present s.(watchlist)) -> page_shown (seq_step s EvAdd).
Proof.
  intros (Ht & Hm & Hw & Hok) [Hv Hl] Hd.
  assert (Hxs : forall y, y ∈ present s.(watchlist) -> js_truthy (Some y) = true)
    by (apply store_ok_truthy, Hok).
  unfold seq_step. simpl. unfold addStock. set (sym := js_upper (js_trim (input_value s))).
  destruct (String.eqb_spec sym "") as [Hemp|Hne].
  { rewrite (drain_no_tasks _ s Ht). by split. }
  rewrite has_symbol_spec by done.
  destruct (existsb (sym_is sym) (present s.(watchlist))).
  { rewrite drain_no_tasks by (simpl; done). by split. }
  change (mcp (hideError (showLoading true (set_input "" s)))) with (mcp s). rewrite Hm.
  set (s1 := hideError (showLoading true (set_input "" s))).
  unfold settle_fuel. rewrite Nat.add_succ_r, drain_add_task by exact Ht.
  change (resume (TAdd sym) ?o s1) with (addStock_resume o s1).
  change (task_arg (TAdd sym)) with (Some (JStr sym)).
  rewrite drain_no_tasks by (rewrite (proj1 (addStock_resume_frame _ s1)); done).
  apply addStock_resume_shown; [|done|done].
  intros x Hx Htr. by eapply renders.
Qed.

Lemma seq_remove_shown s sym :
  seq_inv s -> drawable (present s.(watchlist)) -> page_shown s ->
  page_shown (seq_step s (EvRemove sym)).
Proof.
  intros (Ht & Hm & Hw & Hok) Hd [Hv Hl].
  destruct (removeStock_frame sym s) as [Ht' _].
  rewrite (seq_step_quiet s _ (removeStock sym s)) by (done || congruence).
  rewrite removeStock_eq by (intros y; apply store_ok_truthy, Hok). cbv zeta. split.
  - left. apply render_shown. simpl. rewrite present_dense_fmap. by apply Forall_filter_sub.
  - destruct (render _) eqn:E; [apply render_inv in E as [v ->]|]; done.
Qed.

Lemma seq_tick_shown s :
  seq_inv s -> drawable (present s.(watchlist)) -> page_shown s -> page_shown (seq_step s EvTick).
Proof.
  intros (Ht & Hm & Hw & Hok) Hd Hs.
  set (xs := present s.(watchlist)) in *.
  destruct (decide (xs = [])) as [Hnil|Hne].
  { assert (refreshAll s = s) as Hr by (unfold refreshAll; by rewrite Hm, Hw, Hnil).
    by rewrite (seq_step_quiet s _ s); [|done|simpl; by rewrite Hr|done]. }
  assert (Hxs : forall y, y ∈ xs -> js_truthy (Some y) = true) by (apply store_ok_truthy, Hok).
  unfold seq_step. simpl. unfold settle_fuel. rewrite refreshAll_wl.
  rewrite (drain_refreshAll s xs) by (done || (rewrite Hw, length_fmap; lia)).
  unfold refresh_done.
  destruct (render_drawable (set_watchlist (Some <$> (refresh_entry <$> xs)) (showLoading true s)))
    as (v & Hv' & ->).
  { simpl. rewrite present_dense_fmap. apply Forall_fmap.
    refine (list.Forall_impl _ _ _ Hd _). intros x Hx. by apply refresh_entry_drawable. }
  split; [by left|done].
Qed.

Lemma seq_demo_shown s :
  seq_inv s -> s.(watchlist) = [] -> page_shown s -> page_shown (seq_step s EvMcpReady).
Proof.
  intros (Ht & Hm & _ & _) Hnil [Hv Hl].
  rewrite (seq_step_some s EvMcpReady (demo_iter demoSymbols s)) by reflexivity.
  unfold settle_fuel. rewrite demo_iter_wl, Hnil, drain_demo by (done || simpl; lia).
  rewrite Hnil. unfold demo_end.
  set (s1 := set_watchlist ([] ++ (Some <$> omap Spec.fetch demoSymbols)) s).
  assert (Hd1 : drawable (present s1.(watchlist))).
  { unfold s1. cbn [watchlist set_watchlist app]. rewrite present_dense_fmap. apply omap_fetch_drawable. }
  split; [left; by apply render_shown|].
  destruct (render s1) eqn:E; [apply render_inv in E as [v ->]|]; done.
Qed.
End Banner.

(** The sample provider of [Store], whose answers are finite quotes,
    renders. *)
#[export] Instance echo_provider_renders : @RenderingServer (tool_server echo_provider).
Proof.
  intros arg y Ha _. unfold server_answer, tool_server in Ha.
  destruct arg as [[| | | |sym| |]|]; try discriminate.
  vm_compute in Ha. injection Ha as <-. reflexivity.
Qed.

(** ** Properties *)

(** Claim C5: in a sequential run against a server that answers for the
    symbol asked and whose truthy answers can be drawn, after every event
    the loading banner is off and the cards on the page are exactly the
    rendering of the current watchlist, every entry drawable; the only
    exception is the blank container of the page as loaded, which can
    only remain while the watchlist is empty. *)
Theorem seq_page_shown `{EchoingServer} `{!RenderingServer} s :
  seq_reachable s -> page_shown s /\ drawable (present s.(watchlist)).
Proof.
  induction 1 as [|s e Hs IH He].
  - split; [split; [right|]; done|constructor].
  - destruct IH as [Hsh Hd]. pose proof (seq_inv_reachable s Hs) as Hinv.
    destruct (seq_event_spec s e Hinv He) as [_ Hwl].
    split; [|rewrite Hwl; by apply spec_event_drawable].
    destruct e as [v| |sym| | |k o].
    + destruct Hinv as (Ht & _).
      by rewrite (seq_step_quiet s _ (set_input v s)).
    + by apply seq_add_shown.
    + by apply seq_remove_shown.
    + by apply seq_tick_shown.
    + apply seq_demo_shown; [done|by apply He|done].
    + destruct Hinv as (Ht & _). unfold seq_step. simpl. by rewrite Ht.
Qed.

(** ** Witnesses *)

Lemma seq_page_shown_witness :
  let s := @seq_step (tool_server echo_provider)
             (@seq_step (tool_server echo_provider) (dash_init true) (EvInput "aapl")) EvAdd in
  page_shown s /\ drawable (present s.(watchlist)).
Proof.
  apply (@seq_page_shown (tool_server echo_provider) _ _).
  apply seq_next; [apply seq_next; [apply seq_init|discriminate]|discriminate].
Defined.
