(* ===== verification/Compose.v ===== *)
(** * The tool and the dashboard composed

    The dashboard receives [get_stock_quote]'s dict through MCP as
    [structuredContent] ([Quote.quote_json]).  Python's [float] accepts
    ["nan"], ["inf"] and ["infinity"], which JSON lacks, so those values
    arrive as [null].  This file relates the tool's results to what
    [renderWatchlist] can draw, and follows a failing or non-finite answer
    through [addStock] run to its end ([Store.seq_step] with the
    [tool_server] instance). *)

From S2P Require Import Prelude Json Text PyNum Quote Dashboard Store.

(** A float that JSON can carry. *)
Definition is_finite (f : pyfloat) : bool := match f with PFin _ => true | _ => false end.

(** The AAPL answer of [Quote] with the price ["nan"], which [float]
    accepts. *)
Definition nan_response : json :=
  JObj [("Global Quote",
    JObj [("01. symbol", JStr "AAPL"); ("02. open", JStr "149.00");
          ("03. high", JStr "151.00"); ("04. low", JStr "148.50");
          ("05. price", JStr "nan"); ("06. volume", JStr "50000000");
          ("07. latest trading day", JStr "2024-01-02");
          ("09. change", JStr "1.25"); ("10. change percent", JStr "0.84%")])].

(** The answer for an unknown symbol: an empty envelope. *)
Definition unknown_response : json := JObj [("Global Quote", JObj [])].

(** The page after adding AAPL when the provider sends the price "nan". *)
Definition after_nan_add : dash :=
  @seq_step (tool_server (fun _ => nan_response)) (set_input "aapl" (dash_init true)) EvAdd.

(** ** Lemmas *)

#[local] Arguments js_is_number : simpl never.

Lemma js_is_number_float_json f : js_is_number (Some (float_json f)) = is_finite f.
Proof. by destruct f. Qed.

(** [renderWatchlist] throws once an element that cannot be drawn is
    pushed. *)
Lemma renderWatchlist_push_bad x w : card_ok x = false -> renderWatchlist (js_push x w) = None.
Proof.
  intros Hx. unfold renderWatchlist.
  rewrite decide_False by (unfold js_push; rewrite length_app; simpl; lia).
  rewrite js_push_present, forallb_app. cbn [forallb]. by rewrite Hx, !andb_false_r.
Qed.

Lemma renderWatchlist_bad x w :
  x ∈ present w -> card_ok x = false -> renderWatchlist w = None.
Proof.
  intros Hx Hc. unfold renderWatchlist. rewrite decide_False.
  - destruct (forallb card_ok (present w)) eqn:E; [|done].
    rewrite forallb_forall in E. apply list_elem_of_In in Hx. by rewrite E in Hc.
  - intros Hl. apply length_zero_iff_nil in Hl. subst w. by apply not_elem_of_nil in Hx.
Qed.

(** With every stored card drawable, the error of the render after
    pushing an undrawable element is that element's. *)
Lemma render_error_push x w :
  forallb card_ok (present w) = true -> card_ok x = false ->
  render_error (js_push x w) = card_error x.
Proof.
  intros Hw Hx. unfold render_error. rewrite js_push_present, list.filter_app, filter_none.
  - cbn [app]. by rewrite filter_cons_True.
  - apply list.Forall_forall. intros y Hy. apply forallb_forall with (x := y) in Hw;
      [by rewrite Hw|by apply list_elem_of_In].
Qed.

(** A non-finite float arrives as [null], so the first undrawable field
    of the card reads [toFixed] of [null]. *)
Lemma card_error_nonfinite q :
  forallb is_finite [q_price q; q_change_percent q; q_open q; q_high q; q_low q] = false ->
  card_error (quote_json q) = "Cannot read properties of null (reading 'toFixed')".
Proof.
  destruct q as [sy nm pr ch cp op hi lo vol day]. cbn [q_price q_change_percent q_open q_high q_low].
  destruct pr; [|reflexivity..]. destruct cp; [|reflexivity..]. destruct op; [|reflexivity..].
  destruct hi; [|reflexivity..]. destruct lo; [discriminate|reflexivity..].
Qed.

(** [addStock] of a fresh symbol, run to its end: one call, settled with
    the server's answer. *)
Lemma seq_step_add `{Server} s sym :
  s.(tasks) = [] -> truthy_entries s.(watchlist) -> s.(mcp) = true ->
  js_upper (js_trim s.(input_value)) = sym -> sym <> "" ->
  Forall (fun y => sym_is sym y = false) (present s.(watchlist)) ->
  seq_step s EvAdd =
  addStock_resume (server_answer (Some (JStr sym))) (hideError (showLoading true (set_input "" s))).
Proof.
  intros Ht Hw Hm Hsym Hne Hfresh. unfold seq_step. rewrite step_EvAdd.
  rewrite (addStock_fresh s sym) by done. unfold settle_fuel. rewrite Nat.add_comm. simpl plus.
  rewrite drain_add_task by done. cbn [resume task_arg]. apply drain_no_tasks.
  by rewrite (proj1 (addStock_resume_frame _ _)).
Qed.

(** ** Properties *)


(** Claim C16: whatever exception the tool raises for a fresh symbol (an
    unknown symbol, a rate-limit note, a malformed number), [addStock] run
    to its end leaves the watchlist as it was, hides the loading banner
    and shows the same message "Failed to fetch stock data": the tool's
    own message never reaches the page. *)
Theorem add_tool_error provider s sym e :
  s.(tasks) = [] -> truthy_entries s.(watchlist) -> s.(mcp) = true ->
  js_upper (js_trim s.(input_value)) = sym -> sym <> "" ->
  Forall (fun y => sym_is sym y = false) (present s.(watchlist)) ->
  get_stock_quote sym (provider sym) = Err e ->
  let s' := @seq_step (tool_server provider) s EvAdd in
  s'.(watchlist) = s.(watchlist) /\ s'.(tasks) = [] /\ s'.(error_shown) = true /\
  s'.(loading) = false /\ s'.(error_text) = "Failed to fetch stock data".
Proof.
  intros Ht Hw Hm Hsym Hne Hfresh He. simpl.
  rewrite (@seq_step_add (tool_server provider) s sym) by done.
  cbn [server_answer tool_server]. rewrite He. simpl mcp_result.
  destruct (addStock_resume_rejected (Returned None) (hideError (showLoading true (set_input "" s))))
    as (-> & -> & -> & -> & ->); [done|]. by split_and!.
Qed.


(** Claim C27: a quote that cannot be drawn keeps the loading banner on.
    When the timer's [refreshAll], run to its end, leaves in the
    watchlist an entry whose card throws (a [null] price from a NaN, or a
    non-number), the final [renderWatchlist()] throws.  The promise
    rejects before [showLoading(false)], so the banner stays on and the
    cards are not redrawn. *)
Theorem refresh_unrenderable_loading `{Server} s xs x :
  s.(tasks) = [] -> s.(mcp) = true -> s.(watchlist) = Some <$> xs ->
  (forall y, y ∈ xs -> js_truthy (Some y) = true) ->
  x ∈ xs -> card_ok (refresh_entry x) = false ->
  (seq_step s EvTick).(loading) = true /\ (seq_step s EvTick).(view_of) = s.(view_of).
Proof.
  intros Ht Hm Hw Hxs Hx Hc. unfold seq_step. cbn [step]. unfold settle_fuel.
  rewrite refreshAll_wl, Hw, length_fmap.
  assert (Hne : xs <> []) by (intros ->; by apply not_elem_of_nil in Hx).
  rewrite (drain_refreshAll s xs) by (done || lia).
  unfold refresh_done, render. cbn [watchlist set_watchlist mbind option_bind].
  rewrite (renderWatchlist_bad (refresh_entry x)); [done| |done].
  rewrite present_dense_fmap. by apply list_elem_of_fmap_2.
Qed.

(** Claim C15: the binary64 bound.  A price the provider prints with more
    than 309 integer digits (at least [10 ^ 309], above the largest
    double) is accepted by [float] as an infinity, so the tool succeeds,
    the dashboard receives the price as [null], and the card of the quote
    cannot be drawn: adding it is the partial write of
    [add_nonfinite_partial_write]. *)
Theorem price_overflow_unrenderable request sym op hi lo neg d ds1 ds2 vneg vol day prev ch pct :
  forallb raw_ok [op; hi; lo; ch; pct] = true -> forallb raw_in_range [op; hi; lo; ch; pct] = true ->
  0 < d < 10 -> all_digits ds1 = true -> 309 <= length ds1 -> ds2 <> [] -> all_digits ds2 = true ->
  vol <> [] -> all_digits vol = true -> length vol <= int_max_str_digits ->
  exists q,
    get_stock_quote request (gq_payload sym op hi lo (RawDec neg (d :: ds1) ds2) vneg vol day prev ch pct) = Ok q /\
    q_price q = PInf neg /\ js_get (Some (quote_json q)) "price" = Some (Some JNull) /\
    card_ok (quote_json q) = false.
Proof.
  intros. eexists. split; [by apply get_stock_quote_price_inf|]. done.
Qed.

(** ** Witnesses *)

Lemma add_tool_error_witness :
  let s' := @seq_step (tool_server (fun _ => unknown_response)) (set_input " zzzz " (dash_init true)) EvAdd in
  s'.(watchlist) = [] /\ s'.(tasks) = [] /\ s'.(error_shown) = true /\
  s'.(loading) = false /\ s'.(error_text) = "Failed to fetch stock data".
Proof.
  apply (add_tool_error (fun _ => unknown_response) (set_input " zzzz " (dash_init true)) "ZZZZ"
           (invalid_symbol "ZZZZ"));
    first [reflexivity | decide_by_compute | discriminate | constructor].
Defined.


Lemma refresh_unrenderable_loading_witness :
  (@seq_step (tool_server (fun _ => nan_response)) after_nan_add EvTick).(loading) = true /\
  (@seq_step (tool_server (fun _ => nan_response)) after_nan_add EvTick).(view_of) =
    after_nan_add.(view_of).
Proof.
  apply (@refresh_unrenderable_loading (tool_server (fun _ => nan_response)) after_nan_add
           (present after_nan_add.(watchlist)) (quote_json (StockQuote (JStr "AAPL") (JStr "AAPL") PNaN
        (PFin (Dec false 125 (-2))) (PFin (Dec false 84 (-2))) (PFin (Dec false 14900 (-2)))
        (PFin (Dec false 15100 (-2))) (PFin (Dec false 14850 (-2))) 50000000 (JStr "2024-01-02"))));
    first [vm_compute; reflexivity | idtac].
  - apply list.Forall_forall. vm_compute. repeat constructor.
  - vm_compute. left.
Defined.

Lemma price_overflow_unrenderable_witness :
  exists q,
    get_stock_quote "AAPL" (gq_payload "AAPL" (RawDec false [1;4;9] [0;0]) (RawDec false [1;5;1] [0;0])
       (RawDec false [1;4;8] [5;0]) (RawDec false (1 :: repeat 0 309) [0;0]) false [5;0;0;0;0;0;0;0]
       "2024-01-02" (RawDec false [1;4;8] [7;5]) (RawDec false [1] [2;5]) (RawDec false [0] [8;4])) = Ok q /\
    q_price q = PInf false /\ js_get (Some (quote_json q)) "price" = Some (Some JNull) /\
    card_ok (quote_json q) = false.
Proof.
  apply price_overflow_unrenderable;
    first [reflexivity | discriminate | lia | (rewrite repeat_length; lia) | (vm_compute; lia)].
Defined.
