(* ===== verification/Quiesce.v ===== *)
(** * The event loop quiesces: settlements are bounded

    In the concurrent model ([Dashboard.step]) any pending call may settle
    next, in any order and with any outcome.  A settlement can start a new
    call: the next iteration of a [refreshAll] loop, or the next demo
    symbol.  This file proves that settlements alone cannot go on for
    ever.  From any state, every sequence of settlements is at most
    [settle_measure] long, so once the user and the timer stop, every
    schedule ends with no call pending.

    The measure charges each pending refresh at index [i] the distance
    [top s - i] to a bound [top s] on the array's length.  The bound is
    the current length or the highest pending index, whichever is larger,
    plus the pushes the pending adds and demo calls can still make.  A
    settlement never raises [top], and it replaces the settled call by at
    most one cheaper call. *)

From S2P Require Import Prelude Json Text Dashboard.

(** ** Sums and maxima over the pending calls *)

Definition sumn (f : task -> nat) (ts : list task) : nat := foldr (fun t n => f t + n) 0 ts.
Definition maxn (f : task -> nat) (ts : list task) : nat := foldr (fun t n => Nat.max (f t) n) 0 ts.

(** The index after the last one a pending refresh may write. *)
Definition refresh_top (t : task) : nat := match t with TRefresh i _ => S i | _ => 0 end.

(** How many pushes a pending call may still make. *)
Definition pushes (t : task) : nat :=
  match t with TAdd _ => 1 | TRefresh _ _ => 0 | TDemo _ rest => S (length rest) end.

(** A bound on the array's length for as long as only settlements run. *)
Definition top (s : dash) : nat :=
  Nat.max (length s.(watchlist)) (maxn refresh_top s.(tasks)) + sumn pushes s.(tasks).

(** The settlements a pending call may still cause. *)
Definition cost (b : nat) (t : task) : nat :=
  match t with TRefresh i _ => b - i | _ => pushes t end.

Definition settle_measure (s : dash) : nat := sumn (cost (top s)) s.(tasks).

Definition is_settle (e : event) : bool := match e with EvSettle _ _ => true | _ => false end.

(** A page with an add, a refresh loop and the demo loader all pending,
    and the settlements of those calls in an order none of them chose. *)
Definition busy_page : dash :=
  match run (Dash [Some (sample_quote "MSFT" 300)] "aapl" "" false false VEmpty [] true)
              [EvAdd; EvTick; EvMcpReady] with
  | Some s => s | None => dash_init true
  end.

Definition busy_settles : list event :=
  [EvSettle 2 (Returned (Some (sample_quote "AAPL" 1))); EvSettle 0 (Threw "timeout");
   EvSettle 1 (Returned None); EvSettle 0 (Returned (Some (sample_quote "MSFT" 2)));
   EvSettle 0 (Returned (Some (sample_quote "GOOGL" 3)))].

Definition quiet_page : dash :=
  match run busy_page busy_settles with Some s => s | None => busy_page end.

(** ** Lemmas *)

Lemma sumn_app f l1 l2 : sumn f (l1 ++ l2) = sumn f l1 + sumn f l2.
Proof. induction l1; simpl; lia. Qed.

Lemma maxn_app f l1 l2 : maxn f (l1 ++ l2) = Nat.max (maxn f l1) (maxn f l2).
Proof. induction l1; simpl; lia. Qed.

Lemma sumn_mid f l1 x l2 : sumn f (l1 ++ x :: l2) = f x + sumn f (l1 ++ l2).
Proof. rewrite !sumn_app. simpl. lia. Qed.

Lemma maxn_mid f l1 x l2 : maxn f (l1 ++ x :: l2) = Nat.max (f x) (maxn f (l1 ++ l2)).
Proof. rewrite !maxn_app. simpl. lia. Qed.

Lemma sumn_cost_mono b b' ts : b' <= b -> sumn (cost b') ts <= sumn (cost b) ts.
Proof. intros Hb. induction ts as [|[] ts IH]; simpl; lia. Qed.

(** What a loop iteration leaves: the array is unchanged, and at most one
    call, for the index it was given, is added. *)
Lemma refresh_iter_shape j s :
  (refresh_iter j s).(watchlist) = s.(watchlist) /\
  ((refresh_iter j s).(tasks) = s.(tasks) \/
   exists a, (refresh_iter j s).(tasks) = s.(tasks) ++ [TRefresh j a] /\ j < length s.(watchlist)).
Proof.
  split; [apply refresh_iter_wl|]. unfold refresh_iter. case_decide.
  - destruct (js_get _ _) as [a|]; [right; by exists a|by left].
  - left. destruct (render s) eqn:E; [apply render_inv in E as [v ->]|]; done.
Qed.

Lemma demo_iter_shape rest s :
  (demo_iter rest s).(tasks) = s.(tasks) \/
  exists sym rest', rest = sym :: rest' /\ (demo_iter rest s).(tasks) = s.(tasks) ++ [TDemo sym rest'].
Proof.
  destruct rest as [|sym rest]; simpl.
  - left. destruct (render s) eqn:E; [apply render_inv in E as [v ->]|]; done.
  - destruct s.(mcp) eqn:Hm; [right; by exists sym, rest|].
    left. by apply demo_iter_no_mcp.
Qed.

Lemma refresh_iter_new j s :
  exists new, (refresh_iter j s).(tasks) = s.(tasks) ++ new /\
    (refresh_iter j s).(watchlist) = s.(watchlist) /\
    (new = [] \/ exists a, new = [TRefresh j a] /\ j < length s.(watchlist)).
Proof.
  destruct (refresh_iter_shape j s) as [Hw [Ht|(a & Ht & Hj)]].
  - exists []. rewrite app_nil_r. auto.
  - exists [TRefresh j a]. split_and!; eauto.
Qed.

Lemma add_resume_shape o s :
  (addStock_resume o s).(tasks) = s.(tasks) /\
  length (addStock_resume o s).(watchlist) <= S (length s.(watchlist)).
Proof.
  unfold addStock_resume. dash_cases; (split; [done|]); unfold js_push; rewrite ?length_app; simpl; lia.
Qed.

Lemma refresh_resume_shape i o s :
  exists new, (refresh_resume i o s).(tasks) = s.(tasks) ++ new /\
    length (refresh_resume i o s).(watchlist) <= Nat.max (length s.(watchlist)) (S i) /\
    (new = [] \/ exists a, new = [TRefresh (S i) a] /\
       S i < length (refresh_resume i o s).(watchlist)).
Proof.
  unfold refresh_resume. destruct o as [[x|]|m].
  - destruct (js_truthy (Some x)).
    + destruct (refresh_iter_new (S i) (set_watchlist (js_set i x s.(watchlist)) s))
        as (new & Ht & Hw & Hn).
      exists new. rewrite Ht, Hw. simpl. rewrite length_js_set. split_and!; [done|lia|].
      destruct Hn as [->|(a & -> & Ha)]; [by left|right; exists a; simpl in *; rewrite ?length_js_set in *; split; [done|lia]].
    + destruct (refresh_iter_new (S i) s) as (new & Ht & Hw & Hn).
      exists new. rewrite Ht, Hw. split_and!; [done|lia|].
      destruct Hn as [->|(a & -> & Ha)]; [by left|right; exists a; simpl in *; rewrite ?length_js_set in *; split; [done|lia]].
  - destruct (refresh_iter_new (S i) s) as (new & Ht & Hw & Hn).
    exists new. rewrite Ht, Hw. split_and!; [done|lia|].
    destruct Hn as [->|(a & -> & Ha)]; [by left|right; exists a; simpl in *; rewrite ?length_js_set in *; split; [done|lia]].
  - destruct (js_get _ _).
    + destruct (refresh_iter_new (S i) s) as (new & Ht & Hw & Hn).
      exists new. rewrite Ht, Hw. split_and!; [done|lia|].
      destruct Hn as [->|(a & -> & Ha)]; [by left|right; exists a; simpl in *; rewrite ?length_js_set in *; split; [done|lia]].
    + exists []. rewrite app_nil_r. split_and!; [done|lia|by left].
Qed.

Lemma demo_resume_shape rest o s :
  exists new, (demo_resume rest o s).(tasks) = s.(tasks) ++ new /\
    length (demo_resume rest o s).(watchlist) <= S (length s.(watchlist)) /\
    (new = [] \/ exists sym rest', rest = sym :: rest' /\ new = [TDemo sym rest']).
Proof.
  assert (Hd : forall s0, length s0.(watchlist) <= S (length s.(watchlist)) ->
     s0.(tasks) = s.(tasks) ->
     exists new, (demo_iter rest s0).(tasks) = s.(tasks) ++ new /\
       length (demo_iter rest s0).(watchlist) <= S (length s.(watchlist)) /\
       (new = [] \/ exists sym rest', rest = sym :: rest' /\ new = [TDemo sym rest'])).
  { intros s0 Hl Ht. rewrite demo_iter_wl. destruct (demo_iter_shape rest s0) as [H|(sym & rest' & -> & H)].
    - exists []. rewrite H, Ht, app_nil_r. split_and!; [done|done|by left].
    - exists [TDemo sym rest']. rewrite H, Ht. split_and!; [done|done|right; eauto]. }
  unfold demo_resume. destruct o as [[x|]|m]; [destruct (js_truthy (Some x))| |];
    (apply Hd; simpl; [unfold js_push; rewrite ?length_app; simpl; lia|done]).
Qed.

(** Closing a settlement: the settled call is replaced by cheaper ones
    under a bound that did not grow. *)
Lemma measure_close s s' t R new :
  s'.(tasks) = R ++ new -> top s' <= top s -> sumn (cost (top s')) new < cost (top s) t ->
  settle_measure s' < cost (top s) t + sumn (cost (top s)) R.
Proof.
  intros Ht Hb Hn. unfold settle_measure. rewrite Ht, sumn_app.
  pose proof (sumn_cost_mono _ _ R Hb). lia.
Qed.

(** Every settlement lowers the measure, whatever its outcome. *)
Lemma settle_measure_lt s k o s' :
  step s (EvSettle k o) = Some s' -> settle_measure s' < settle_measure s.
Proof.
  simpl. destruct (s.(tasks) !! k) as [t|] eqn:Ek; [|done]. intros [= <-].
  assert (exists l1 l2, s.(tasks) = l1 ++ t :: l2 /\ delete k s.(tasks) = l1 ++ l2)
    as (l1 & l2 & Ht & ->).
  { exists (take k s.(tasks)), (drop (S k) s.(tasks)).
    split; [symmetry; by apply take_drop_middle|apply delete_take_drop]. }
  assert (HM : settle_measure s = cost (top s) t + sumn (cost (top s)) (l1 ++ l2))
    by (unfold settle_measure; by rewrite Ht, sumn_mid).
  assert (HT : top s = Nat.max (length s.(watchlist))
                 (Nat.max (refresh_top t) (maxn refresh_top (l1 ++ l2))) +
                 (pushes t + sumn pushes (l1 ++ l2)))
    by (unfold top; by rewrite Ht, maxn_mid, sumn_mid).
  rewrite HM. destruct t as [sym|i a|sym rest]; cbn [resume].
  - destruct (add_resume_shape o (set_tasks (l1 ++ l2) s)) as [Ht' Hl']. cbn [tasks watchlist set_tasks] in Ht', Hl'.
    apply (measure_close _ _ _ _ []); [by rewrite Ht', app_nil_r| |simpl; lia].
    rewrite HT. unfold top. rewrite Ht'. simpl in *. lia.
  - destruct (refresh_resume_shape i o (set_tasks (l1 ++ l2) s)) as (new & Ht' & Hl' & Hn).
    cbn [tasks watchlist set_tasks] in Ht', Hl'.
    assert (Hb : top (refresh_resume i o (set_tasks (l1 ++ l2) s)) <= top s).
    { rewrite HT. unfold top. rewrite Ht', maxn_app, sumn_app. simpl in *.
      destruct Hn as [->|(a' & -> & Ha')]; simpl; lia. }
    apply (measure_close _ _ _ _ new); [done|done|].
    destruct Hn as [->|(a' & -> & _)]; simpl in *; lia.
  - destruct (demo_resume_shape rest o (set_tasks (l1 ++ l2) s)) as (new & Ht' & Hl' & Hn).
    cbn [tasks watchlist set_tasks] in Ht', Hl'.
    assert (Hb : top (demo_resume rest o (set_tasks (l1 ++ l2) s)) <= top s).
    { rewrite HT. unfold top. rewrite Ht', maxn_app, sumn_app. simpl in *.
      destruct Hn as [->|(sym' & rest' & -> & ->)]; simpl; lia. }
    apply (measure_close _ _ _ _ new); [done|done|].
    destruct Hn as [->|(sym' & rest' & -> & ->)]; simpl in *; lia.
Qed.

(** ** Properties *)

(** Claim C7: settlements alone cannot go on for ever.  From any page,
    however the calls interleave and whatever they return, a sequence of
    settlements has at most [settle_measure] steps, and each one lowers
    the measure.  Every pending call costs at least one, so once the user
    and the timer stop, every schedule of the event loop ends with no call
    pending. *)
Theorem settlements_bounded s es s' :
  forallb is_settle es = true -> run s es = Some s' ->
  length es + settle_measure s' <= settle_measure s.
Proof.
  revert s. induction es as [|e es IH]; intros s Hes Hrun.
  - injection Hrun as <-. simpl. lia.
  - cbn [forallb] in Hes. apply andb_prop in Hes as [He Hes].
    destruct e as [| | | | |k o]; try discriminate He.
    rewrite run_cons in Hrun. destruct (step s (EvSettle k o)) as [s1|] eqn:Es; [|discriminate].
    cbn [mbind option_bind] in Hrun. pose proof (settle_measure_lt _ _ _ _ Es).
    specialize (IH s1 Hes Hrun). simpl. lia.
Qed.

(** ** Witnesses *)

Lemma settlements_bounded_witness :
  length busy_settles + settle_measure quiet_page <= settle_measure busy_page.
Proof.
  apply settlements_bounded; [reflexivity|]. vm_compute. reflexivity.
Defined.
