(* ===== verification/Races.v ===== *)
(** * Interleavings the dashboard allows and the spec forbids

    The handlers of [Dashboard] are [async] and share the global array
    [watchlist].  Between the [await] of a tool call and its continuation
    any other event may run.  [refreshAll] writes its result back to
    [watchlist[i]] by the index it read before the call (line 274).
    [addStock] checks for a duplicate before its call and pushes after it
    (lines 229 and 243).  The demo loader pushes with no check at all (line
    366).  This file runs such interleavings with [Dashboard.run] and the
    sequential driver of [Store].  Three races are proved for every page:
    a removal during a refresh overwrites the next stock with the removed
    one, two overlapping adds store a symbol twice, and a hole in the
    array keeps the loading banner on under every later timer round; a
    late refresh writes past the end, a mismatched answer and the demo
    loader store a symbol twice, and the end of a refresh hides the
    banner of a pending add.  Each is witnessed by a trace evaluated with
    [vm_compute] from a loaded page. *)

From S2P Require Import Prelude Json Text PyNum Quote Dashboard Store Compose.

(** A loaded page with the quotes [xs], nothing pending, [window.mcp]
    present. *)
Definition page_of (xs : list json) : dash :=
  Dash (Some <$> xs) "" "" false false VEmpty [] true.

Definition q_aapl := sample_quote "AAPL" 150.
Definition q_msft := sample_quote "MSFT" 300.
Definition q_googl := sample_quote "GOOGL" 100.

Definition q_aapl2 := sample_quote "AAPL" 151.
Definition q_msft2 := sample_quote "MSFT" 301.
Definition q_googl2 := sample_quote "GOOGL" 101.

(** The entries of the page's watchlist, holes included. *)
Definition entries (s : option dash) : option jsarray := (fun s => s.(watchlist)) <$> s.

(** How many present entries carry the symbol [sym]. *)
Definition count_sym (sym : string) (s : dash) : nat :=
  length (filter (fun y => sym_is sym y = true) (present s.(watchlist))).

(** One timer round: the tick, then its first call settles with [o]. *)
Definition tick_round (o : outcome) : list event := [EvTick; EvSettle 0 o].

(** Timer rounds whose calls settle with the outcomes [os] in turn. *)
Definition ticks (os : list outcome) : list event := flat_map tick_round os.

(** The refresh that removes AAPL and MSFT while the call for GOOGL, the
    third entry, is pending. *)
Definition hole_trace : list event :=
  [EvTick; EvSettle 0 (Returned (Some q_aapl2)); EvSettle 0 (Returned (Some q_msft2));
   EvRemove "AAPL"; EvRemove "MSFT"; EvSettle 0 (Returned (Some q_googl2))].

(** The page [AAPL; MSFT; GOOGL] once the timer's refresh has updated
    AAPL and waits for MSFT. *)
Definition mid_refresh : dash :=
  match run (page_of [q_aapl; q_msft; q_googl]) [EvTick; EvSettle 0 (Returned (Some q_aapl2))] with
  | Some s => s
  | None => page_of []
  end.

(** The page that trace leaves. *)
Definition after_hole_trace : dash :=
  match run (page_of [q_aapl; q_msft; q_googl]) hole_trace with
  | Some s => s
  | None => page_of []
  end.

(** The page [AAPL; MSFT; GOOGL] after [hole_trace] but its last
    settlement: AAPL and MSFT removed, GOOGL's refresh of slot 2
    pending. *)
Definition before_late_write : dash :=
  match run (page_of [q_aapl; q_msft; q_googl]) (take 5 hole_trace) with
  | Some s => s
  | None => page_of []
  end.

(** The page [AAPL] with an add of MSFT pending and the timer's refresh
    of slot 0 pending. *)
Definition add_then_tick : dash :=
  match run (page_of [q_aapl]) [EvInput "msft"; EvAdd; EvTick] with
  | Some s => s
  | None => page_of []
  end.

(** The dict the tool returns for the AAPL answer, and for the answer
    of [echo_provider] to AAPL, as the dashboard receives them. *)
Definition aapl_json : json :=
  match get_stock_quote "AAPL" aapl_response with Ok q => quote_json q | Err _ => JNull end.
Definition echo_aapl_json : json :=
  match get_stock_quote "AAPL" (echo_provider "AAPL") with Ok q => quote_json q | Err _ => JNull end.

(** The answer of the tool, wrapped by MCP, when the provider always
    sends the AAPL answer (a cached or misrouted upstream). *)
Definition aapl_only : Server := tool_server (fun _ => aapl_response).

(** ** Lemmas *)

#[local] Arguments js_truthy : simpl never.

Lemma filter_keep (P : json -> Prop) `{!forall x, Decision (P x)} l :
  Forall P l -> filter P l = l.
Proof. induction 1; [done|]. rewrite filter_cons_True by done. by f_equal. Qed.

Lemma step_settle_first s t rest o :
  s.(tasks) = t :: rest -> step s (EvSettle 0 o) = Some (resume t o (set_tasks rest s)).
Proof. intros Ht. simpl. by rewrite Ht. Qed.

Lemma refresh_iter_hole s :
  s.(watchlist) !! 1 = Some None -> refresh_iter 1 s = s.
Proof.
  intros H. unfold refresh_iter.
  rewrite decide_True by (apply lookup_lt_is_Some; by rewrite H).
  by unfold js_index; rewrite H.
Qed.

(** The invariant of a page whose second slot is a hole. *)
Definition holed (rest : jsarray) (s : dash) : Prop :=
  s.(tasks) = [] /\ s.(mcp) = true /\
  exists x, s.(watchlist) = Some x :: None :: rest /\ js_truthy (Some x) = true.

Lemma holed_round rest s o :
  holed rest s ->
  exists s', run s (tick_round o) = Some s' /\ holed rest s' /\ s'.(loading) = true.
Proof.
  intros (Ht & Hm & x & Hw & Hx).
  destruct (truthy_symbol_of x Hx) as [arg Harg].
  assert (Hr : refreshAll s = add_task (TRefresh 0 arg) (showLoading true s)).
  { unfold refreshAll. rewrite Hm, Hw. simpl. unfold refresh_iter. simpl.
    rewrite Hw. unfold symbol_of in Harg. simpl in Harg |- *. by rewrite Harg. }
  unfold tick_round. rewrite run_cons. cbn [step mbind option_bind]. rewrite Hr.
  rewrite run_cons. simpl. rewrite Ht. simpl.
  destruct o as [[y|]|m]; simpl;
    [destruct (js_truthy (Some y)) eqn:Ey; cbn iota| |
     unfold js_index; rewrite Hw; unfold symbol_of in Harg; simpl in Harg |- *; rewrite Harg];
    rewrite refresh_iter_hole by (simpl; by rewrite Hw);
    eexists; (split; [done|]); unfold holed; split_and!; try done.
  1: exists y; simpl; by rewrite Hw, js_set_in_range by (simpl; lia).
  all: exists x; simpl; by rewrite Hw.
Qed.

Lemma run_app s es1 es2 : run s (es1 ++ es2) = run s es1 ≫= fun s' => run s' es2.
Proof.
  revert s. induction es1 as [|e es1 IH]; intros s; [done|].
  simpl. destruct (step s e); simpl; [apply IH|done].
Qed.

(** Two present entries with a property, one of them pushed last. *)
Lemma count_two (P : json -> Prop) `{!forall x, Decision (P x)} l y x :
  y ∈ l -> P y -> P x -> 2 <= length (filter P (l ++ [x])).
Proof.
  intros Hy Py Px. rewrite list.filter_app, length_app, filter_cons_True, filter_nil by done.
  cbn [length]. enough (length (filter P l) <> 0) by lia.
  intros Hl%length_zero_iff_nil. by apply (filter_nil_not_elem_of _ _ y Hl Py).
Qed.

Lemma holed_rounds rest os s :
  holed rest s -> os <> [] ->
  exists s', run s (ticks os) = Some s' /\ holed rest s' /\ s'.(loading) = true.
Proof.
  revert s. induction os as [|o os IH]; intros s Hs Hne; [done|].
  destruct (holed_round rest s o Hs) as (s1 & Hrun & Hs1 & Hl1).
  change (ticks (o :: os)) with (tick_round o ++ ticks os). rewrite run_app, Hrun. simpl.
  destruct os as [|o' os']; [exists s1; by split_and!|].
  apply IH; [done|discriminate].
Qed.

(** ** Properties *)

(** Claim C10: a removal during a refresh overwrites another stock with the
    removed one.  When the refresh call for entry [i] is pending and the
    user removes that entry's symbol, the array shifts: entry [i] is now
    the next stock [z].  When the call returns a truthy [y], the code
    stores it at [watchlist[i]] (line 274), so [z] is lost and [y], the
    removed stock's new quote, is back in its place.  The spec (section 5)
    requires the late update of a removed symbol to be a no-op. *)
Theorem refresh_remove_overwrites s pre x z post sym arg y :
  s.(watchlist) = Some <$> (pre ++ x :: z :: post) -> truthy_entries s.(watchlist) ->
  s.(tasks) = [TRefresh (length pre) arg] ->
  sym_is sym x = true -> Forall (fun w => sym_is sym w = false) (pre ++ z :: post) ->
  js_truthy (Some y) = true ->
  exists s', run s [EvRemove sym; EvSettle 0 (Returned (Some y))] = Some s' /\
    present s'.(watchlist) = pre ++ y :: post.
Proof.
  intros Hw Htr Ht Hx Hrest Hy.
  assert (Hf : filter (fun w => sym_is sym w = false) (present s.(watchlist)) = pre ++ z :: post).
  { apply list.Forall_app in Hrest as [Hpre Hpost].
    rewrite Hw, present_dense_fmap, list.filter_app, filter_cons_False by congruence.
    by rewrite !filter_keep. }
  rewrite run_cons. cbn [step mbind option_bind]. rewrite removeStock_eq, Hf by done. cbv zeta.
  set (s1 := set_watchlist (Some <$> (pre ++ z :: post)) s).
  assert (H2 : forall s2, s2.(watchlist) = s1.(watchlist) -> s2.(tasks) = s1.(tasks) ->
     exists s', run s2 [EvSettle 0 (Returned (Some y))] = Some s' /\
       present s'.(watchlist) = pre ++ y :: post).
  { intros s2 Hw2 Ht2. rewrite run_cons. cbn [step]. rewrite Ht2. simpl. rewrite Ht.
    cbn [mbind option_bind lookup list_lookup resume]. unfold refresh_resume. rewrite Hy.
    eexists. split; [reflexivity|]. rewrite refresh_iter_wl. simpl. rewrite Hw2. simpl.
    rewrite js_set_in_range by (rewrite length_fmap, length_app; simpl; lia).
    by rewrite insert_mid, present_dense_fmap. }
  destruct (render s1) eqn:E; [apply render_inv in E as [v ->]|]; by apply H2.
Qed.

(** Claim C12: once the second slot of the watchlist is a hole, the
    loading banner stays on for ever under the timer.  Every later timer
    round, whatever its first call returns, shows the banner and throws on
    the hole twice (in the [try] and again in the [catch]), so
    [refreshAll] rejects before its final render and the banner is never
    hidden.  The hole stays, nothing is left pending, and the entries
    after the first are never refreshed again. *)
Theorem hole_loading_stuck s x rest os :
  s.(tasks) = [] -> s.(mcp) = true -> s.(watchlist) = Some x :: None :: rest ->
  js_truthy (Some x) = true -> os <> [] ->
  exists s', run s (ticks os) = Some s' /\ s'.(loading) = true /\
    s'.(tasks) = [] /\ s'.(watchlist) !! 1 = Some None /\ drop 2 s'.(watchlist) = rest.
Proof.
  intros Ht Hm Hw Hx Hne.
  destruct (holed_rounds rest os s) as (s' & Hrun & (Ht' & _ & y & Hw' & _) & Hl);
    [split_and!; eauto|done|].
  exists s'. rewrite Hw'. by split_and!.
Qed.

(** Claim C11: two adds of the same symbol whose calls overlap both pass
    the duplicate check, which runs before the [await] (line 229).  Both
    then push (line 243): whatever the page held, when a fresh symbol is
    added twice before either call returns, and both calls return quotes
    for it, the watchlist holds the symbol twice. *)
Theorem concurrent_add_duplicate s sym x y :
  s.(tasks) = [] -> truthy_entries s.(watchlist) -> s.(mcp) = true ->
  js_upper (js_trim s.(input_value)) = sym -> sym <> "" ->
  Forall (fun w => sym_is sym w = false) (present s.(watchlist)) ->
  sym_is sym x = true -> sym_is sym y = true ->
  exists s', run s [EvAdd; EvInput s.(input_value); EvAdd;
                    EvSettle 0 (Returned (Some x)); EvSettle 0 (Returned (Some y))] = Some s' /\
    filter (fun w => sym_is sym w = true) (present s'.(watchlist)) = [x; y].
Proof.
  intros Ht Hw Hm Hsym Hne Hfresh Hx Hy.
  pose proof (sym_is_accepts sym x Hne Hx) as Hax. pose proof (sym_is_accepts sym y Hne Hy) as Hay.
  rewrite run_cons, step_EvAdd. cbn [mbind option_bind].
  rewrite (addStock_fresh s sym) by done.
  set (s1 := add_task (TAdd sym) (hideError (showLoading true (set_input "" s)))).
  rewrite run_cons. cbn [step mbind option_bind]. rewrite run_cons, step_EvAdd. cbn [mbind option_bind].
  rewrite (addStock_fresh (set_input s.(input_value) s1) sym) by (unfold s1; simpl; done).
  set (s3 := add_task (TAdd sym) _).
  rewrite run_cons, (step_settle_first s3 (TAdd sym) [TAdd sym])
    by (unfold s3, s1; simpl; by rewrite Ht).
  cbn [mbind option_bind resume].
  destruct (addStock_resume_accepts x (set_tasks [TAdd sym] s3) Hax) as (Hw4 & Ht4 & _).
  rewrite run_cons, (step_settle_first _ (TAdd sym) []) by (rewrite Ht4; reflexivity).
  cbn [mbind option_bind resume].
  destruct (addStock_resume_accepts y (set_tasks [] (addStock_resume (Returned (Some x))
              (set_tasks [TAdd sym] s3))) Hay) as (Hw5 & _).
  eexists. split; [reflexivity|]. rewrite Hw5. cbn [watchlist set_tasks]. rewrite Hw4.
  unfold s3, s1. cbn [watchlist set_tasks add_task set_input hideError showLoading set_watchlist].
  rewrite !js_push_present, !list.filter_app, fresh_filter_nil by done.
  by rewrite !filter_cons_True, filter_nil.
Qed.

(** Claim C13: a late refresh writes past the end.  When the refresh call
    for slot [i] settles after removals have shortened the array below
    [i], the truthy result is stored at [watchlist[i]] (line 274), and
    JavaScript fills the slots between the old end and [i] with holes:
    the array is the old one, then [i - length] holes, then the
    result. *)
Theorem refresh_write_past_end s k i arg y :
  s.(tasks) !! k = Some (TRefresh i arg) -> length s.(watchlist) < i -> js_truthy (Some y) = true ->
  exists s', step s (EvSettle k (Returned (Some y))) = Some s' /\
    s'.(watchlist) = s.(watchlist) ++ replicate (i - length s.(watchlist)) None ++ [Some y] /\
    s'.(watchlist) !! length s.(watchlist) = Some None.
Proof.
  intros Hk Hi Hy. cbn [step]. rewrite Hk. cbn [mbind option_bind resume refresh_resume].
  rewrite Hy. eexists. split; [reflexivity|]. rewrite refresh_iter_wl. cbn [watchlist set_watchlist set_tasks].
  unfold js_set. rewrite decide_False by lia. split; [done|].
  rewrite lookup_app_r, Nat.sub_diag by lia. destruct (i - length s.(watchlist)) eqn:E; [lia|done].
Qed.

(** Claim C28: a provider answer for another symbol duplicates it, even
    sequentially.  Neither [addStock] (line 242) nor [refreshAll] (line
    273) compares the answer's symbol with the one asked for: for every
    server whose accepted answer to a fresh symbol carries a symbol
    [t] already stored, [addStock] run to its end pushes it, and the
    watchlist holds [t] twice. *)
Theorem seq_mismatched_symbol_duplicates `{Server} s sym t x y :
  s.(tasks) = [] -> truthy_entries s.(watchlist) -> s.(mcp) = true ->
  js_upper (js_trim s.(input_value)) = sym -> sym <> "" ->
  Forall (fun w => sym_is sym w = false) (present s.(watchlist)) ->
  server_answer (Some (JStr sym)) = Returned (Some x) -> add_accepts (Some x) = true ->
  y ∈ present s.(watchlist) -> sym_is t y = true -> sym_is t x = true ->
  present (seq_step s EvAdd).(watchlist) = present s.(watchlist) ++ [x] /\
  2 <= count_sym t (seq_step s EvAdd).
Proof.
  intros Ht Hw Hm Hsym Hne Hfresh Hx Ha Hy Hty Htx.
  rewrite (seq_step_add s sym), Hx by done. unfold count_sym.
  destruct (addStock_resume_accepts x (hideError (showLoading true (set_input "" s))) Ha) as (-> & _).
  cbn [watchlist hideError showLoading set_input]. rewrite js_push_present.
  split; [done|]. by apply (count_two _ _ y).
Qed.

(** Claim C29: the demo loader duplicates a stock added before it runs.
    The [mcp-ready] listener pushes every truthy answer with no check
    (line 366): for every server, when a stock with symbol AAPL is
    stored and the answer for "AAPL" is a truthy quote for AAPL, the
    loader run to its end leaves AAPL twice in the watchlist. *)
Theorem mcp_ready_after_add_duplicates `{Server} s y x :
  s.(tasks) = [] -> s.(mcp) = true -> y ∈ present s.(watchlist) -> sym_is "AAPL" y = true ->
  server_answer (Some (JStr "AAPL")) = Returned (Some x) -> js_truthy (Some x) = true ->
  sym_is "AAPL" x = true ->
  2 <= count_sym "AAPL" (seq_step s EvMcpReady).
Proof.
  intros Ht Hm Hy Hty Hx Htx Hsx.
  rewrite (seq_step_some s EvMcpReady (demo_iter demoSymbols s)) by reflexivity.
  unfold settle_fuel. rewrite demo_iter_wl, drain_demo by (done || (simpl; lia)).
  unfold count_sym. rewrite (proj1 (demo_end_frame _)). cbn [watchlist set_watchlist].
  assert (Hf : omap Spec.fetch demoSymbols = x :: omap Spec.fetch ["MSFT"; "GOOGL"]).
  { cbn [demoSymbols omap list_omap]. unfold Spec.fetch at 1. by rewrite Hx, Htx. }
  rewrite Hf, present_app, present_dense_fmap.
  rewrite cons_middle, app_assoc, list.filter_app, length_app.
  pose proof (count_two (fun w => sym_is "AAPL" w = true) (present s.(watchlist)) y x Hy Hty Hsx).
  lia.
Qed.

(** Claim C30: the loading banner is shared.  When the last refresh call
    of a round settles (slot [i] is the last) and the page then renders,
    [refreshAll] hides the banner (line 282) whatever else is pending: an
    add whose call is still outstanding keeps running with the banner
    off. *)
Theorem loading_hidden_while_pending s k j i arg sym sc :
  s.(tasks) !! k = Some (TRefresh i arg) -> s.(tasks) !! j = Some (TAdd sym) -> j <> k ->
  S i = length s.(watchlist) ->
  is_Some (renderWatchlist (match sc with
                            | Some y => if js_truthy (Some y) then js_set i y s.(watchlist) else s.(watchlist)
                            | None => s.(watchlist)
                            end)) ->
  exists s', step s (EvSettle k (Returned sc)) = Some s' /\
    s'.(loading) = false /\ TAdd sym ∈ s'.(tasks).
Proof.
  intros Hk Hj Hjk Hi [v Hv]. cbn [step]. rewrite Hk. cbn [mbind option_bind resume refresh_resume].
  assert (Hin : TAdd sym ∈ delete k s.(tasks)).
  { apply list_elem_of_lookup. destruct (decide (j < k)).
    - exists j. by rewrite list_lookup_delete_lt.
    - exists (j - 1). rewrite list_lookup_delete_ge by lia. by replace (S (j - 1)) with j by lia. }
  assert (Hend : forall s1, s1.(watchlist) = (match sc with
                            | Some y => if js_truthy (Some y) then js_set i y s.(watchlist) else s.(watchlist)
                            | None => s.(watchlist) end) ->
      length s1.(watchlist) = S i -> s1.(tasks) = delete k s.(tasks) ->
      (refresh_iter (S i) s1).(loading) = false /\ TAdd sym ∈ (refresh_iter (S i) s1).(tasks)).
  { intros s1 Hw1 Hl1 Ht1. unfold refresh_iter. rewrite decide_False by lia.
    unfold render. rewrite Hw1, Hv. cbn. by rewrite Ht1. }
  eexists. split; [reflexivity|].
  destruct sc as [y|]; [destruct (js_truthy (Some y)) eqn:Ey|]; apply Hend; try done;
    cbn [watchlist set_watchlist set_tasks]; try done.
  unfold js_set. rewrite decide_True by lia. by rewrite length_insert.
Qed.

(** ** Witnesses *)

Lemma hole_loading_stuck_witness :
  exists s', run after_hole_trace (ticks [Returned (Some q_googl); Threw "timeout"]) = Some s' /\
    s'.(loading) = true /\ s'.(tasks) = [] /\ s'.(watchlist) !! 1 = Some None /\
    drop 2 s'.(watchlist) = [Some q_googl2].
Proof.
  apply (hole_loading_stuck after_hole_trace q_googl [Some q_googl2]); try (vm_compute; reflexivity).
  discriminate.
Defined.

Lemma refresh_remove_overwrites_witness :
  exists s', run mid_refresh [EvRemove "MSFT"; EvSettle 0 (Returned (Some q_msft2))] = Some s' /\
    present s'.(watchlist) = [q_aapl2] ++ q_msft2 :: [].
Proof.
  apply (refresh_remove_overwrites mid_refresh [q_aapl2] q_msft q_googl [] "MSFT"
           (Some (JStr "MSFT")) q_msft2);
    first [vm_compute; reflexivity | decide_by_compute].
Defined.

Lemma concurrent_add_duplicate_witness :
  exists s', run (set_input "aapl" (dash_init true))
               [EvAdd; EvInput "aapl"; EvAdd;
                EvSettle 0 (Returned (Some q_aapl)); EvSettle 0 (Returned (Some q_aapl2))] = Some s' /\
    filter (fun w => sym_is "AAPL" w = true) (present s'.(watchlist)) = [q_aapl; q_aapl2].
Proof.
  apply (concurrent_add_duplicate (set_input "aapl" (dash_init true)) "AAPL");
    first [reflexivity | decide_by_compute | discriminate | constructor].
Defined.

Lemma refresh_write_past_end_witness :
  exists s', step before_late_write (EvSettle 0 (Returned (Some q_googl2))) = Some s' /\
    s'.(watchlist) = before_late_write.(watchlist) ++
      replicate (2 - length before_late_write.(watchlist)) None ++ [Some q_googl2] /\
    s'.(watchlist) !! length before_late_write.(watchlist) = Some None.
Proof.
  apply (refresh_write_past_end before_late_write 0 2 (Some (JStr "GOOGL"))); vm_compute; [reflexivity|lia|reflexivity].
Defined.

Lemma seq_mismatched_symbol_duplicates_witness :
  let s := set_input "msft" (@seq_step aapl_only (set_input "aapl" (dash_init true)) EvAdd) in
  present (@seq_step aapl_only s EvAdd).(watchlist) = present s.(watchlist) ++ [aapl_json] /\
  2 <= count_sym "AAPL" (@seq_step aapl_only s EvAdd).
Proof.
  apply (@seq_mismatched_symbol_duplicates aapl_only _ "MSFT" "AAPL" aapl_json aapl_json);
    first [reflexivity | decide_by_compute | discriminate | (vm_compute; left)].
Defined.

Lemma mcp_ready_after_add_duplicates_witness :
  2 <= count_sym "AAPL" (@seq_step (tool_server echo_provider)
         (@seq_step (tool_server echo_provider) (set_input "aapl" (dash_init true)) EvAdd) EvMcpReady).
Proof.
  apply (@mcp_ready_after_add_duplicates (tool_server echo_provider) _ echo_aapl_json echo_aapl_json); first [reflexivity | (vm_compute; left)].
Defined.

Lemma loading_hidden_while_pending_witness :
  exists s', step add_then_tick (EvSettle 1 (Returned (Some q_aapl2))) = Some s' /\
    s'.(loading) = false /\ TAdd "MSFT" ∈ s'.(tasks).
Proof.
  apply (loading_hidden_while_pending add_then_tick 1 0 0 (Some (JStr "AAPL")));
    first [reflexivity | lia | (vm_compute; eexists; reflexivity)].
Defined.
