(* ===== verification/Card.v ===== *)
(** * The markup [renderWatchlist] writes (server.py lines 285-337)

    [Dashboard] keeps what [#stocks-container] shows as a [view]: the
    empty state or the list of stocks drawn.  This file writes out the
    text the two template literals of [renderWatchlist()] produce,
    character for character, with the JavaScript conversions they apply
    ([String(v)] for [${v}], [ToNumber] for [>=], [Math.abs] and [/], and
    [Number.prototype.toFixed]).  The conversions that depend on binary64
    (printing and parsing a Number) are a class [NumberText] that every
    theorem quantifies over; the arrows U+25B2 and U+25BC, outside the
    Latin-1 range of the model's strings, are section variables. *)

From S2P Require Import Prelude Json Text Quote Dashboard Store Compose.

(** ** Binary64 printing and parsing *)

(** [Number::toString] (used by [String(n)]), [n.toFixed(2)] and
    [StringToNumber].  They depend on the binary64 value of a decimal,
    which the model does not compute. *)
Class NumberText := {
  number_string : pyfloat -> string;
  to_fixed2 : pyfloat -> string;
  string_to_number : string -> pyfloat
}.

(** ** Characters and lines *)

Definition chr (n : nat) : string := String (ascii_of_nat n) EmptyString.

(** The double quote and the line feed, which a Rocq literal would have to
    escape. *)
Definition dq : string := chr 34.
Definition nl : string := chr 10.

Fixpoint spaces (n : nat) : string :=
  match n with 0 => EmptyString | S n => String " " (spaces n) end.

(** A line of the template: a line feed, [n] spaces of indentation, the
    text. *)
Definition ln (n : nat) (s : string) : string := nl ++ spaces n ++ s.

Definition quoted (s : string) : string := dq ++ s ++ dq.

Definition div_class (cls : string) : string := "<div class=" ++ quoted cls ++ ">".

(** [a.join(",")] on strings. *)
Fixpoint join_comma (l : list string) : string :=
  match l with
  | [] => EmptyString
  | [x] => x
  | x :: r => x ++ "," ++ join_comma r
  end.

Section Markup.
Context `{NumberText}.

(** A JSON integer as a Number. *)
Definition int_number (z : Z) : pyfloat := PFin (Dec (z <? 0)%Z (Z.abs_N z) 0).

(** [String(v)]: an array is [join(",")] of its elements, [null] ones
    giving the empty string; an object is ["[object Object]"]. *)
Fixpoint js_string (v : json) : string :=
  match v with
  | JNull => "null"
  | JBool b => if b then "true" else "false"
  | JInt z => number_string (int_number z)
  | JFloat f => number_string f
  | JStr s => s
  | JArr l =>
      join_comma (map (fun x => match x with JNull => EmptyString | _ => js_string x end) l)
  | JObj _ => "[object Object]"
  end.

(** [${v}] in a template literal. *)
Definition tpl (v : jsval) : string :=
  match v with None => "undefined" | Some x => js_string x end.

(** [ToNumber(v)]: a string, an array or an object goes through its
    string. *)
Definition to_number (v : jsval) : pyfloat :=
  match v with
  | None => PNaN
  | Some JNull => PFin (Dec false 0 0)
  | Some (JBool b) => PFin (Dec false (if b then 1 else 0) 0)
  | Some (JInt z) => int_number z
  | Some (JFloat f) => f
  | Some x => string_to_number (js_string x)
  end.

(** [x >= 0] on a Number: false for NaN, true for [-0]. *)
Definition num_ge0 (f : pyfloat) : bool :=
  match f with
  | PFin d => negb (dneg d) || (dmant d =? 0)%N
  | PInf neg => negb neg
  | PNaN => false
  end.

(** [Math.abs(x)]. *)
Definition num_abs (f : pyfloat) : pyfloat :=
  match f with
  | PFin d => PFin (Dec false (dmant d) (dexp d))
  | PInf _ => PInf false
  | PNaN => PNaN
  end.

(** [x / 1000000]. *)
Definition num_mega (f : pyfloat) : pyfloat :=
  match f with
  | PFin d => PFin (Dec (dneg d) (dmant d) (dexp d - 6))
  | g => g
  end.

(** [v.toFixed(2)]: only a Number has the method; on [undefined] and
    [null] the read throws, on the other values the call does. *)
Definition js_toFixed2 (v : jsval) : option string :=
  match v with
  | Some (JInt z) => Some (to_fixed2 (int_number z))
  | Some (JFloat f) => Some (to_fixed2 f)
  | _ => None
  end.

Context (arrow_up arrow_down : string).

(** One detail line of a card, lines 317-319 and the three after. *)
Definition detail (label value : string) : string :=
  ln 32 (div_class "detail-item") ++
  ln 36 (label ++ "<span class=" ++ quoted "detail-value" ++ ">" ++ value ++ "</span>") ++
  ln 32 "</div>".

(** The inner template of lines 301-331 for one stock; [None] when it
    throws. *)
Definition card_html (stock : json) : option string :=
  sym ← js_get (Some stock) "symbol";
  name ← js_get (Some stock) "name";
  price ← js_get (Some stock) "price" ≫= js_toFixed2;
  change ← js_get (Some stock) "change";
  cp ← js_get (Some stock) "change_percent" ≫= js_toFixed2;
  op ← js_get (Some stock) "open" ≫= js_toFixed2;
  hi ← js_get (Some stock) "high" ≫= js_toFixed2;
  lo ← js_get (Some stock) "low" ≫= js_toFixed2;
  vol ← js_get (Some stock) "volume";
  let up := num_ge0 (to_number change) in
  Some (
    ln 24 (div_class "stock-card") ++
    ln 28 (div_class "stock-header") ++
    ln 32 "<div>" ++
    ln 36 (div_class "stock-symbol" ++ tpl sym ++ "</div>") ++
    ln 36 (div_class "stock-name" ++ tpl (if js_truthy name then name else sym) ++ "</div>") ++
    ln 32 "</div>" ++
    ln 32 ("<button class=" ++ quoted "remove-btn" ++ " onclick=" ++
           quoted ("removeStock('" ++ tpl sym ++ "')") ++ ">Remove</button>") ++
    ln 28 "</div>" ++
    ln 28 (div_class "stock-price" ++ price ++ "</div>") ++
    ln 28 ("<span class=" ++ quoted ("stock-change " ++ if up then "positive" else "negative") ++ ">") ++
    ln 32 (if up then arrow_up else arrow_down) ++
    ln 32 (to_fixed2 (num_abs (to_number change))) ++
    ln 32 ("(" ++ cp ++ "%)") ++
    ln 28 "</span>" ++
    ln 28 (div_class "stock-details") ++
    detail "Open: " op ++
    detail "High: " hi ++
    detail "Low: " lo ++
    detail "Volume: " (to_fixed2 (num_mega (to_number vol)) ++ "M") ++
    ln 28 "</div>" ++
    ln 24 "</div>" ++
    ln 20 EmptyString)%string.

(** The empty state, lines 289-294. *)
Definition empty_html : string :=
  ln 20 (div_class "empty-state") ++
  ln 24 "<h3>No stocks in watchlist</h3>" ++
  ln 24 "<p>Add a stock symbol above to get started</p>" ++
  ln 20 "</div>" ++
  ln 16 EmptyString.

(** The outer template of lines 299-333 around the joined cards. *)
Definition grid_html (cards : string) : string :=
  ln 16 (div_class "stocks-grid") ++
  ln 20 cards ++
  ln 16 "</div>" ++
  ln 12 EmptyString.

(** [renderWatchlist()]'s write to [container.innerHTML], lines 288-333:
    [watchlist.map(...)] keeps the holes and [join('')] turns them into
    empty strings, so only the present elements give text; a card that
    throws aborts the whole assignment. *)
Definition renderWatchlist_html (w : jsarray) : option string :=
  if decide (length w = 0) then Some empty_html
  else cards ← mapM card_html (present w); Some (grid_html (String.concat EmptyString cards)).

(** [#last-updated]: empty as loaded (line 217) and after rendering the
    empty state (line 295), the time of the render otherwise (lines
    335-336); [now] is [new Date().toLocaleTimeString()]. *)
Definition last_updated (v : view) (now : string) : string :=
  match v with VBlank | VEmpty => EmptyString | VCards _ => "Last updated: " ++ now end.

(** What [#stocks-container] holds for a [view] of [Dashboard]: nothing
    as loaded (line 216), else what the last render wrote. *)
Definition view_html (v : view) : string :=
  match v with
  | VBlank => EmptyString
  | VEmpty => empty_html
  | VCards xs => grid_html (String.concat EmptyString (omap card_html xs))
  end.

End Markup.

(** The Enter key in [#symbol-input], line 208:
    [if(event.key==='Enter') addStock()]. *)
Definition symbol_keypress (key : string) (s : dash) : dash :=
  if String.eqb key "Enter" then addStock s else s.

(** A formatter for examples: every theorem holds for every [NumberText]. *)
Definition sample_numbers : NumberText :=
  {| number_string _ := "0"; to_fixed2 _ := "0.00"; string_to_number _ := PNaN |}.

(** An Alpha Vantage answer, the AAPL one of [Quote] with another
    ["01. symbol"]. *)
Definition response_with_symbol (v : json) : json :=
  JObj [("Global Quote",
    JObj [("01. symbol", v); ("02. open", JStr "149.00");
          ("03. high", JStr "151.00"); ("04. low", JStr "148.50");
          ("05. price", JStr "150.00"); ("06. volume", JStr "50000000");
          ("07. latest trading day", JStr "2024-01-02");
          ("09. change", JStr "1.25"); ("10. change percent", JStr "0.84%")])].

(** A provider symbol that is markup. *)
Definition img_symbol : string := "<img src=x onerror=alert(1)>".

(** The page after adding "aapl" when the provider answers with the
    symbol [v]. *)
Definition page_after_add (v : json) : dash :=
  @seq_step (tool_server (fun _ => response_with_symbol v)) (set_input "aapl" (dash_init true)) EvAdd.

(** ** Lemmas *)

Section CardFacts.
Context `{NumberText} (arrow_up arrow_down : string).

#[local] Arguments js_is_number : simpl never.

Lemma js_is_number_toFixed2 v :
  js_is_number v = match js_toFixed2 v with Some _ => true | None => false end.
Proof. by destruct v as [[]|]. Qed.

(** The template of a card throws exactly when [Dashboard.card_ok] says
    so. *)
Lemma card_html_is_Some x : is_Some (card_html arrow_up arrow_down x) <-> card_ok x = true.
Proof.
  destruct x as [| | | | | |kvs]; try (cbn; split; [intros []; discriminate|discriminate]).
  unfold card_html, card_ok. cbn [js_get mbind option_bind forallb].
  rewrite !js_is_number_toFixed2.
  repeat (destruct (js_toFixed2 _); cbn [mbind option_bind andb]); naive_solver.
Qed.

Lemma mapM_card_html l :
  mapM (card_html arrow_up arrow_down) l =
  if forallb card_ok l then Some (omap (card_html arrow_up arrow_down) l) else None.
Proof.
  induction l as [|x l IH]; [done|]. cbn [mapM forallb].
  destruct (card_ok x) eqn:Ex; cbn [andb].
  - apply card_html_is_Some in Ex as [h Eh]. rewrite Eh, IH. cbn [omap list_omap].
    rewrite Eh. by destruct (forallb card_ok l).
  - assert (card_html arrow_up arrow_down x = None) as ->; [|done].
    apply eq_None_not_Some. by rewrite card_html_is_Some, Ex.
Qed.

Lemma string_concat_elem n h l : h ∈ l -> infix n h -> infix n (String.concat EmptyString l).
Proof.
  induction l as [|x [|y l] IH]; intros Hh Hn; [by apply not_elem_of_nil in Hh| |].
  - by apply list_elem_of_singleton in Hh as ->.
  - apply elem_of_cons in Hh as [->|Hh]; cbn [String.concat];
      [by apply infix_app_l|apply infix_app_r, IH; done].
Qed.

(** What a card shows of its symbol: the text of [${stock.symbol}] in
    the symbol line and in the argument of the Remove button. *)
Lemma card_symbol x h v :
  card_html arrow_up arrow_down x = Some h -> js_get (Some x) "symbol" = Some v ->
  infix (div_class "stock-symbol" ++ tpl v ++ "</div>") h /\
  infix ("removeStock('" ++ tpl v ++ "')") h.
Proof.
  intros Hh Hv. unfold card_html in Hh. rewrite Hv in Hh. simplify_option_eq.
  unfold ln, quoted. split; infix_search.
Qed.

Lemma view_html_card xs x h n :
  x ∈ xs -> card_html arrow_up arrow_down x = Some h -> infix n h ->
  infix n (view_html arrow_up arrow_down (VCards xs)).
Proof.
  intros Hx Hh Hn. unfold view_html.
  apply (infix_trans _ (String.concat EmptyString (omap (card_html arrow_up arrow_down) xs))).
  - apply (string_concat_elem _ h); [|done]. apply list_elem_of_omap. by exists x.
  - unfold grid_html, ln. infix_search.
Qed.

Lemma renderWatchlist_push_ok x w :
  forallb card_ok (present w) = true -> card_ok x = true ->
  renderWatchlist (js_push x w) = Some (VCards (present w ++ [x])).
Proof.
  intros Hw Hx. unfold renderWatchlist.
  rewrite decide_False by (unfold js_push; rewrite length_app; simpl; lia).
  rewrite js_push_present, forallb_app. cbn [forallb]. by rewrite Hw, Hx.
Qed.

Lemma drop_symbol_keep sym xs ys x :
  drop_symbol sym xs = Some ys -> x ∈ xs ->
  (forall v, symbol_of x = Some v -> js_str_eq v sym = false) -> x ∈ ys.
Proof.
  revert ys. induction xs as [|y xs IH]; intros ys Hd Hx Hs; [by apply not_elem_of_nil in Hx|].
  cbn [drop_symbol] in Hd. destruct (symbol_of y) as [v|] eqn:Ey; [|done].
  destruct (drop_symbol sym xs) as [ys'|] eqn:Ed; simplify_eq/=.
  apply elem_of_cons in Hx as [->|Hx].
  - rewrite (Hs v Ey). by left.
  - destruct (js_str_eq v sym); [|right]; by apply IH.
Qed.

(** ** Properties *)

(** The markup refines the view.  The text [renderWatchlist()]
    assigns to [container.innerHTML], written out from its two template
    literals, is exactly the text of the [view] that [Dashboard] records
    for the same array, and the template throws exactly when
    [Dashboard.renderWatchlist] does.  So the abstract [view] loses
    nothing the page shows in [#stocks-container]. *)
Theorem renderWatchlist_html_view w :
  renderWatchlist_html arrow_up arrow_down w = view_html arrow_up arrow_down <$> renderWatchlist w.
Proof.
  unfold renderWatchlist_html, renderWatchlist. case_decide; [done|].
  rewrite mapM_card_html. by destruct (forallb card_ok (present w)).
Qed.

(** Claim C17: provider text becomes markup.  When the provider's
    ["01. symbol"] is a string [t] and the quote can be drawn, [addStock]
    run to its end draws a card that holds [t] as it is, both as the
    content of the symbol [div] and inside the [onclick] attribute of the
    Remove button: nothing is escaped, so a symbol such as
    [<img src=x onerror=...>] is parsed as HTML by [innerHTML]. *)
Theorem provider_markup_verbatim provider s sym q t :
  s.(tasks) = [] -> truthy_entries s.(watchlist) -> s.(mcp) = true ->
  js_upper (js_trim s.(input_value)) = sym -> sym <> "" ->
  Forall (fun y => sym_is sym y = false) (present s.(watchlist)) ->
  forallb card_ok (present s.(watchlist)) = true ->
  get_stock_quote sym (provider sym) = Ok q -> q_symbol q = JStr t -> t <> "" ->
  forallb is_finite [q_price q; q_change_percent q; q_open q; q_high q; q_low q] = true ->
  let s' := @seq_step (tool_server provider) s EvAdd in
  s'.(view_of) = VCards (present s.(watchlist) ++ [quote_json q]) /\
  infix (div_class "stock-symbol" ++ t ++ "</div>") (view_html arrow_up arrow_down s'.(view_of)) /\
  infix ("removeStock('" ++ t ++ "')") (view_html arrow_up arrow_down s'.(view_of)).
Proof.
  intros Ht Hw Hm Hsym Hne Hfresh Hok Hq Hs Ht0 Hfin. simpl.
  rewrite (@seq_step_add (tool_server provider) s sym) by done.
  cbn [server_answer tool_server]. rewrite Hq. simpl mcp_result.
  assert (Ha : add_accepts (Some (quote_json q)) = true).
  { destruct q; simpl in *; subst. apply negb_true_iff, String.eqb_neq, Ht0. }
  assert (Hc : card_ok (quote_json q) = true).
  { destruct q. simpl in *. by rewrite !js_is_number_float_json. }
  unfold addStock_resume. rewrite Ha. unfold render. cbn [watchlist set_watchlist].
  rewrite renderWatchlist_push_ok by done. cbn [mbind option_bind view_of set_view showLoading].
  split; [done|].
  destruct (proj2 (card_html_is_Some (quote_json q)) Hc) as [h Eh].
  destruct (card_symbol (quote_json q) h (Some (JStr t))) as [H1 H2]; [done|by destruct q; simpl in *; subst|].
  split; (eapply view_html_card; [|exact Eh|done]); apply elem_of_app; right; by left.
Qed.

(** Claim C20: a card whose symbol is not a string cannot be removed.  Its
    Remove button passes [String(symbol)], a string; [removeStock]
    compares with [!==], which never equates a string with a number, a
    boolean, an array or an object.  So the stock stays in the watchlist
    whatever symbol any Remove click passes, although the spec requires
    [remove] always to take effect. *)
Theorem remove_nonstring_symbol s x v h :
  x ∈ present s.(watchlist) -> symbol_of x = Some (Some v) -> (forall t, v <> JStr t) ->
  card_html arrow_up arrow_down x = Some h ->
  infix ("removeStock('" ++ js_string v ++ "')") h /\
  forall sym, x ∈ present (removeStock sym s).(watchlist).
Proof.
  intros Hx Hv Hns Hh. split; [exact (proj2 (card_symbol x h (Some v) Hh Hv))|].
  intros sym. unfold removeStock.
  destruct (drop_symbol sym (present s.(watchlist))) as [ys|] eqn:Ed; [|done].
  destruct (render _) as [s2|] eqn:Er; [apply render_inv in Er as [? ->]|];
    cbn [watchlist set_watchlist set_view]; rewrite present_dense_fmap;
    (eapply drop_symbol_keep; [exact Ed|exact Hx|]);
    intros v' Hv'; rewrite Hv in Hv'; simplify_eq; destruct v; try done; by destruct (Hns s0).
Qed.

End CardFacts.

(** ** Witnesses *)

Lemma provider_markup_verbatim_witness :
  let s' := page_after_add (JStr img_symbol) in
  infix (div_class "stock-symbol" ++ img_symbol ++ "</div>") (@view_html sample_numbers "^" "v" s'.(view_of)) /\
  infix ("removeStock('" ++ img_symbol ++ "')") (@view_html sample_numbers "^" "v" s'.(view_of)).
Proof.
  eapply proj2.
  eapply (@provider_markup_verbatim sample_numbers "^" "v" (fun _ => response_with_symbol (JStr img_symbol))
            (set_input "aapl" (dash_init true)) "AAPL");
    first [reflexivity | decide_by_compute | discriminate | constructor].
Defined.

Lemma remove_nonstring_symbol_witness :
  let s := page_after_add (JInt 5) in
  let x := hd JNull (present s.(watchlist)) in
  infix ("removeStock('" ++ @js_string sample_numbers (JInt 5) ++ "')")
        (default EmptyString (@card_html sample_numbers "^" "v" x)) /\
  forall sym, x ∈ present (removeStock sym s).(watchlist).
Proof.
  apply (@remove_nonstring_symbol sample_numbers "^" "v").
  - vm_compute. left.
  - reflexivity.
  - intros t. discriminate.
  - vm_compute. reflexivity.
Defined.
