(* ===== verification/Page.v ===== *)
(** * The page [get_dashboard] serves and the MCP registrations (server.py
    lines 12, 19-376, 379-386)

    [STOCK_DASHBOARD_HTML] is one Python string constant: the head and
    stylesheet, the body markup and the script that [Dashboard] and [Card]
    model.  The triple-quoted literal holds no backslash, so its value is
    its source text.  Here it is kept line by line, with two conventions:
    a double quote is written [~], a character the page does not contain,
    and the three characters outside ASCII are given by their UTF-8 bytes.
    Over the text the file defines executable scanners: occurrences of a
    piece, the arguments of [getElementById] and [callTool] calls, the
    element that carries an [id].  They check the assumptions the other
    files make of the page: each element the script reads exists once, the
    initial state is [Dashboard.dash_init], and every tool call names the
    registered tool with its parameter.  The FastMCP server is reduced to
    what [server.py] declares to it: its name, its tool and its
    resource. *)

From S2P Require Import Prelude Json Text Request Dashboard Card.

(** ** Text of the page *)

Definition bytes (l : list nat) : string :=
  fold_right (fun n s => String (ascii_of_nat n) s) EmptyString l.

(** U+1F4C8, U+25B2 and U+25BC in UTF-8. *)
Definition chart_glyph : string := bytes [240; 159; 147; 136].
Definition up_glyph : string := bytes [226; 150; 178].
Definition down_glyph : string := bytes [226; 150; 188].

(** A line as written here: [~] stands for the double quote. *)
Fixpoint unmark (s : string) : string :=
  match s with
  | EmptyString => EmptyString
  | String c r => if Ascii.eqb c "~" then dq ++ unmark r else String c (unmark r)
  end.

Definition page_text (ls : list string) : string := String.concat nl (map unmark ls).

(** Lines 19-107: the document head and the first style rules. *)
Definition page_head_lines : list string := [
  "<!DOCTYPE html>";
  "<html>";
  "<head>";
  "    <meta charset=~UTF-8~>";
  "    <title>Stock Tracker</title>";
  "    <style>";
  "        * {";
  "            margin: 0;";
  "            padding: 0;";
  "            box-sizing: border-box;";
  "        }";
  "        body {";
  "            font-family: -apple-system, BlinkMacSystemFont, 'Segoe UI', Roboto, sans-serif;";
  "            background: linear-gradient(135deg, #667eea 0%, #764ba2 100%);";
  "            padding: 20px;";
  "            min-height: 100vh;";
  "        }";
  "        .container {";
  "            max-width: 800px;";
  "            margin: 0 auto;";
  "        }";
  "        .header {";
  "            text-align: center;";
  "            color: white;";
  "            margin-bottom: 30px;";
  "        }";
  "        .header h1 {";
  "            font-size: 32px;";
  "            font-weight: 600;";
  "            margin-bottom: 10px;";
  "        }";
  "        .search-box {";
  "            background: white;";
  "            border-radius: 12px;";
  "            padding: 20px;";
  "            margin-bottom: 20px;";
  "            box-shadow: 0 4px 6px rgba(0,0,0,0.1);";
  "        }";
  "        .search-input {";
  "            display: flex;";
  "            gap: 10px;";
  "        }";
  "        input {";
  "            flex: 1;";
  "            padding: 12px 16px;";
  "            border: 2px solid #e0e0e0;";
  "            border-radius: 8px;";
  "            font-size: 16px;";
  "            transition: border-color 0.2s;";
  "        }";
  "        input:focus {";
  "            outline: none;";
  "            border-color: #667eea;";
  "        }";
  "        button {";
  "            padding: 12px 24px;";
  "            background: #667eea;";
  "            color: white;";
  "            border: none;";
  "            border-radius: 8px;";
  "            font-size: 16px;";
  "            font-weight: 500;";
  "            cursor: pointer;";
  "            transition: background 0.2s;";
  "        }";
  "        button:hover {";
  "            background: #5568d3;";
  "        }";
  "        button:active {";
  "            transform: scale(0.98);";
  "        }";
  "        .stocks-grid {";
  "            display: grid;";
  "            gap: 15px;";
  "        }";
  "        .stock-card {";
  "            background: white;";
  "            border-radius: 12px;";
  "            padding: 20px;";
  "            box-shadow: 0 4px 6px rgba(0,0,0,0.1);";
  "            transition: transform 0.2s;";
  "        }";
  "        .stock-card:hover {";
  "            transform: translateY(-2px);";
  "            box-shadow: 0 6px 12px rgba(0,0,0,0.15);";
  "        }";
  "        .stock-header {";
  "            display: flex;";
  "            justify-content: space-between;"
].

(** Lines 108-194: the rest of the stylesheet and the end of the head. *)
Definition page_style_lines : list string := [
  "            align-items: start;";
  "            margin-bottom: 15px;";
  "        }";
  "        .stock-symbol {";
  "            font-size: 24px;";
  "            font-weight: 700;";
  "            color: #1a1a1a;";
  "        }";
  "        .stock-name {";
  "            font-size: 14px;";
  "            color: #666;";
  "            margin-top: 4px;";
  "        }";
  "        .remove-btn {";
  "            padding: 6px 12px;";
  "            font-size: 14px;";
  "            background: #ff3b30;";
  "        }";
  "        .remove-btn:hover {";
  "            background: #ff6259;";
  "        }";
  "        .stock-price {";
  "            font-size: 36px;";
  "            font-weight: 700;";
  "            color: #1a1a1a;";
  "            margin-bottom: 8px;";
  "        }";
  "        .stock-change {";
  "            display: inline-block;";
  "            padding: 4px 12px;";
  "            border-radius: 6px;";
  "            font-size: 14px;";
  "            font-weight: 600;";
  "        }";
  "        .positive {";
  "            background: #e8f5e9;";
  "            color: #2e7d32;";
  "        }";
  "        .negative {";
  "            background: #ffebee;";
  "            color: #c62828;";
  "        }";
  "        .stock-details {";
  "            margin-top: 15px;";
  "            padding-top: 15px;";
  "            border-top: 1px solid #e0e0e0;";
  "            display: grid;";
  "            grid-template-columns: repeat(2, 1fr);";
  "            gap: 10px;";
  "            font-size: 14px;";
  "        }";
  "        .detail-item {";
  "            color: #666;";
  "        }";
  "        .detail-value {";
  "            color: #1a1a1a;";
  "            font-weight: 600;";
  "        }";
  "        .loading {";
  "            text-align: center;";
  "            color: white;";
  "            padding: 20px;";
  "        }";
  "        .error {";
  "            background: #ffebee;";
  "            color: #c62828;";
  "            padding: 12px 16px;";
  "            border-radius: 8px;";
  "            margin-bottom: 15px;";
  "        }";
  "        .empty-state {";
  "            text-align: center;";
  "            color: white;";
  "            padding: 40px 20px;";
  "        }";
  "        .empty-state h3 {";
  "            font-size: 20px;";
  "            margin-bottom: 10px;";
  "        }";
  "        .last-updated {";
  "            text-align: center;";
  "            color: rgba(255,255,255,0.8);";
  "            font-size: 12px;";
  "            margin-top: 20px;";
  "        }";
  "    </style>";
  "</head>"
].

(** Lines 195-219: the body markup, with the elements the script reads and writes. *)
Definition page_body_lines : list string := [
  "<body>";
  "    <div class=~container~>";
  "        <div class=~header~>";
  ("            <h1>" ++ chart_glyph ++ " Stock Tracker</h1>")%string;
  "            <p>Track your favorite stocks in real-time</p>";
  "        </div>";
  EmptyString;
  "        <div class=~search-box~>";
  "            <div class=~search-input~>";
  "                <input";
  "                    type=~text~";
  "                    id=~symbol-input~";
  "                    placeholder=~Enter stock symbol (e.g., AAPL, MSFT, GOOGL)~";
  "                    onkeypress=~if(event.key==='Enter') addStock()~";
  "                >";
  "                <button onclick=~addStock()~>Add Stock</button>";
  "            </div>";
  "        </div>";
  EmptyString;
  "        <div id=~error~ class=~error~ style=~display: none;~></div>";
  "        <div id=~loading~ class=~loading~ style=~display: none;~>Loading...</div>";
  "        <div id=~stocks-container~></div>";
  "        <div id=~last-updated~ class=~last-updated~></div>";
  "    </div>";
  EmptyString
].

(** Lines 220-337: the script up to the end of [renderWatchlist]. *)
Definition page_script_lines : list string := [
  "    <script type=~module~>";
  "        let watchlist = [];";
  EmptyString;
  "        async function addStock() {";
  "            const input = document.getElementById('symbol-input');";
  "            const symbol = input.value.trim().toUpperCase();";
  EmptyString;
  "            if (!symbol) return;";
  EmptyString;
  "            if (watchlist.some(s => s.symbol === symbol)) {";
  "                showError('Stock already in watchlist');";
  "                return;";
  "            }";
  EmptyString;
  "            input.value = '';";
  "            showLoading(true);";
  "            hideError();";
  EmptyString;
  "            try {";
  "                if (window.mcp) {";
  "                    const result = await window.mcp.callTool('get_stock_quote', { symbol });";
  EmptyString;
  "                    if (result.structuredContent && result.structuredContent.symbol) {";
  "                        watchlist.push(result.structuredContent);";
  "                        renderWatchlist();";
  "                    } else {";
  "                        showError('Failed to fetch stock data');";
  "                    }";
  "                } else {";
  "                    showError('MCP not available - run in Goose');";
  "                }";
  "            } catch (error) {";
  "                showError(error.message || 'Failed to fetch stock');";
  "            } finally {";
  "                showLoading(false);";
  "            }";
  "        }";
  EmptyString;
  "        async function removeStock(symbol) {";
  "            watchlist = watchlist.filter(s => s.symbol !== symbol);";
  "            renderWatchlist();";
  "        }";
  EmptyString;
  "        async function refreshAll() {";
  "            if (!window.mcp || watchlist.length === 0) return;";
  EmptyString;
  "            showLoading(true);";
  EmptyString;
  "            for (let i = 0; i < watchlist.length; i++) {";
  "                try {";
  "                    const result = await window.mcp.callTool('get_stock_quote', {";
  "                        symbol: watchlist[i].symbol";
  "                    });";
  "                    if (result.structuredContent) {";
  "                        watchlist[i] = result.structuredContent;";
  "                    }";
  "                } catch (error) {";
  "                    console.error('Failed to refresh', watchlist[i].symbol, error);";
  "                }";
  "            }";
  EmptyString;
  "            renderWatchlist();";
  "            showLoading(false);";
  "        }";
  EmptyString;
  "        function renderWatchlist() {";
  "            const container = document.getElementById('stocks-container');";
  EmptyString;
  "            if (watchlist.length === 0) {";
  "                container.innerHTML = `";
  "                    <div class=~empty-state~>";
  "                        <h3>No stocks in watchlist</h3>";
  "                        <p>Add a stock symbol above to get started</p>";
  "                    </div>";
  "                `;";
  "                document.getElementById('last-updated').textContent = '';";
  "                return;";
  "            }";
  EmptyString;
  "            container.innerHTML = `";
  "                <div class=~stocks-grid~>";
  "                    ${watchlist.map(stock => `";
  "                        <div class=~stock-card~>";
  "                            <div class=~stock-header~>";
  "                                <div>";
  "                                    <div class=~stock-symbol~>${stock.symbol}</div>";
  "                                    <div class=~stock-name~>${stock.name || stock.symbol}</div>";
  "                                </div>";
  "                                <button class=~remove-btn~ onclick=~removeStock('${stock.symbol}')~>Remove</button>";
  "                            </div>";
  "                            <div class=~stock-price~>${stock.price.toFixed(2)}</div>";
  "                            <span class=~stock-change ${stock.change >= 0 ? 'positive' : 'negative'}~>";
  ("                                ${stock.change >= 0 ? '" ++ up_glyph ++ "' : '" ++ down_glyph ++ "'}")%string;
  "                                ${Math.abs(stock.change).toFixed(2)}";
  "                                (${stock.change_percent.toFixed(2)}%)";
  "                            </span>";
  "                            <div class=~stock-details~>";
  "                                <div class=~detail-item~>";
  "                                    Open: <span class=~detail-value~>${stock.open.toFixed(2)}</span>";
  "                                </div>";
  "                                <div class=~detail-item~>";
  "                                    High: <span class=~detail-value~>${stock.high.toFixed(2)}</span>";
  "                                </div>";
  "                                <div class=~detail-item~>";
  "                                    Low: <span class=~detail-value~>${stock.low.toFixed(2)}</span>";
  "                                </div>";
  "                                <div class=~detail-item~>";
  "                                    Volume: <span class=~detail-value~>${(stock.volume / 1000000).toFixed(2)}M</span>";
  "                                </div>";
  "                            </div>";
  "                        </div>";
  "                    `).join('')}";
  "                </div>";
  "            `;";
  EmptyString;
  "            document.getElementById('last-updated').textContent =";
  "                `Last updated: ${new Date().toLocaleTimeString()}`;";
  "        }"
].

(** Lines 338-376: the rest of the script and the end of the document. *)
Definition page_tail_lines : list string := [
  EmptyString;
  "        function showError(message) {";
  "            const errorDiv = document.getElementById('error');";
  "            errorDiv.textContent = message;";
  "            errorDiv.style.display = 'block';";
  "        }";
  EmptyString;
  "        function hideError() {";
  "            document.getElementById('error').style.display = 'none';";
  "        }";
  EmptyString;
  "        function showLoading(show) {";
  "            document.getElementById('loading').style.display = show ? 'block' : 'none';";
  "        }";
  EmptyString;
  "        window.addStock = addStock;";
  "        window.removeStock = removeStock;";
  EmptyString;
  "        // Auto-refresh every 30 seconds";
  "        setInterval(refreshAll, 30000);";
  EmptyString;
  "        // Initial load with some demo stocks";
  "        window.addEventListener('mcp-ready', async () => {";
  "            const demoSymbols = ['AAPL', 'MSFT', 'GOOGL'];";
  "            for (const symbol of demoSymbols) {";
  "                try {";
  "                    const result = await window.mcp.callTool('get_stock_quote', { symbol });";
  "                    if (result.structuredContent) {";
  "                        watchlist.push(result.structuredContent);";
  "                    }";
  "                } catch (e) {";
  "                    console.log('Could not load demo stock', symbol);";
  "                }";
  "            }";
  "            renderWatchlist();";
  "        });";
  "    </script>";
  "</body>";
  "</html>"
].

(** [STOCK_DASHBOARD_HTML], lines 19-376. *)
Definition STOCK_DASHBOARD_HTML : string :=
  page_text (page_head_lines ++ page_style_lines ++ page_body_lines ++
             page_script_lines ++ page_tail_lines).

(** ** What server.py declares to FastMCP *)

(** [mcp = FastMCP("stock-tracker")], line 12. *)
Definition server_name : string := "stock-tracker".

(** [@mcp.resource("ui://stock-tracker/dashboard")] on [get_dashboard],
    which returns the constant, lines 379-382. *)
Definition dashboard_uri : string := "ui://stock-tracker/dashboard".
Definition get_dashboard (_ : unit) : string := STOCK_DASHBOARD_HTML.

(** [@mcp.tool()] on [async def get_stock_quote(symbol: str)], lines
    385-386: FastMCP names the tool after the function and takes its
    arguments by parameter name. *)
Record tool_decl := ToolDecl { tool_name : string; tool_params : list string }.
Definition stock_tools : list tool_decl := [ToolDecl "get_stock_quote" ["symbol"]].

(** ** Reading the page *)

(** The number of positions of [h] where [n] starts. *)
Fixpoint count_infix (n h : string) : nat :=
  match h with
  | EmptyString => if String.eqb n EmptyString then 1 else 0
  | String _ r => (if String.prefix n h then 1 else 0) + count_infix n r
  end.

(** [s] up to its first [stop]. *)
Fixpoint take_until (stop : ascii) (s : string) : string :=
  match s with
  | EmptyString => EmptyString
  | String c r => if Ascii.eqb c stop then EmptyString else String c (take_until stop r)
  end.

(** [s] after its first [stop]. *)
Fixpoint drop_through (stop : ascii) (s : string) : string :=
  match s with
  | EmptyString => EmptyString
  | String c r => if Ascii.eqb c stop then r else drop_through stop r
  end.

Fixpoint rev_onto (s acc : string) : string :=
  match s with EmptyString => acc | String c r => rev_onto r (String c acc) end.

(** [s] after its last [c] (all of [s] when [c] does not occur); [acc]
    holds, reversed, what was read since the last [c]. *)
Fixpoint after_last_rev (c : ascii) (s acc : string) : string :=
  match s with
  | EmptyString => rev_onto acc EmptyString
  | String d r => after_last_rev c r (if Ascii.eqb d c then EmptyString else String d acc)
  end.

Definition after_last (c : ascii) (s : string) : string := after_last_rev c s EmptyString.

(** For each occurrence of [pre] in [h], the text after it up to [stop]. *)
Fixpoint args_after (pre : string) (stop : ascii) (h : string) : list string :=
  match h with
  | EmptyString => []
  | String _ r =>
      let rest := args_after pre stop r in
      if String.prefix pre h
      then take_until stop (substring (String.length pre) (String.length h) h) :: rest
      else rest
  end.

(** The attribute that names an element. *)
Definition id_attr (x : string) : string := "id=" ++ quoted x.

(** The arguments of the script's [document.getElementById('...')]. *)
Definition element_ids (h : string) : list string := args_after "getElementById('" "'" h.

(** The keys of an object literal [{ k1: e1, k2 }] (no nested commas). *)
Definition object_keys (obj : string) : list string :=
  map (fun p => js_trim (take_until ":" p)) (split_on "," obj).

(** The calls [window.mcp.callTool('name', { ... })]: the tool name and
    the keys of the argument object. *)
Definition tool_calls (h : string) : list (string * list string) :=
  map (fun a => (take_until "'" a, object_keys (take_until "}" (drop_through "{" a))))
      (args_after "callTool('" ")" h).

(** The element carrying [id="x"]: its start tag, and the text up to the
    next tag. *)
Definition element_with_id (x h : string) : option (string * string) :=
  match String.index 0 (id_attr x) h with
  | None => None
  | Some p =>
      let rest := substring p (String.length h) h in
      Some ((after_last "<" (substring 0 p h) ++ take_until ">" rest)%string,
            take_until "<" (drop_through ">" rest))
  end.

(** An inline [style="display: none;"] hides an element. *)
Definition hidden (tag : string) : bool := substring_of "display: none;" tag.

(** The state of [Dashboard] that the loaded page is in: the input has no
    [value] attribute, [#error] and [#loading] are shown or hidden by
    their inline style, [#stocks-container] and [#last-updated] have no
    content, and the script starts from [let watchlist = [];].  [None]
    when the markup says something the state cannot hold. *)
Definition page_state (h : string) (has_mcp : bool) : option dash :=
  '(itag, _) ← element_with_id "symbol-input" h;
  '(etag, etext) ← element_with_id "error" h;
  '(ltag, _) ← element_with_id "loading" h;
  '(_, cards) ← element_with_id "stocks-container" h;
  '(_, stamp) ← element_with_id "last-updated" h;
  if substring_of "value=" itag || negb (String.eqb cards EmptyString) ||
     negb (String.eqb stamp EmptyString) || negb (substring_of "let watchlist = [];" h)
  then None
  else Some (Dash [] EmptyString etext (negb (hidden etag)) (negb (hidden ltag)) VBlank [] has_mcp).

(** ** Properties *)

(** Claim C25: every element the script looks up exists, once.  The
    arguments of all [document.getElementById] calls of the served page
    are the five ids [Dashboard] models, and each is carried by exactly
    one element of the page, so no lookup returns [null] and none is
    ambiguous. *)
Theorem page_element_ids :
  element_ids (get_dashboard tt) =
    ["symbol-input"; "stocks-container"; "last-updated"; "last-updated"; "error"; "error"; "loading"] /\
  Forall (fun x => count_infix (id_attr x) (get_dashboard tt) = 1) (element_ids (get_dashboard tt)).
Proof. split; [vm_compute; reflexivity|decide_by_compute]. Qed.

(** The initial state of the model is the loaded page's.  Read
    from the served markup, the page starts in [Dashboard.dash_init]:
    empty input and watchlist, error and loading banners hidden, a blank
    container, nothing pending. *)
Theorem page_initial_state b : page_state (get_dashboard tt) b = Some (dash_init b).
Proof. vm_compute. reflexivity. Qed.

(** Claim C26: the script and the server agree on the tool.  Each of the
    three [callTool] calls of the page (lines 240, 270 and 364) names
    the one tool [server.py] registers and passes exactly its parameters,
    [symbol]. *)
Theorem page_tool_calls :
  tool_calls (get_dashboard tt) =
    [("get_stock_quote", ["symbol"]); ("get_stock_quote", ["symbol"]); ("get_stock_quote", ["symbol"])] /\
  Forall (fun c => Exists (fun t => tool_name t = c.1 /\ tool_params t = c.2) stock_tools)
         (tool_calls (get_dashboard tt)).
Proof. split; [vm_compute; reflexivity|decide_by_compute]. Qed.
